(** * vad_plus: the native boundary layer of the voice-activity detector

    A shallow embedding of [src/vad_plus.c] (the stub build) and of
    [android/src/main/jni/vad_plus_jni.cpp] (the JNI build), followed by the
    properties of the boundary API that are established on it.

    - [F32]   : IEEE-754 binary32 values and the operations the C code uses.
    - [Codec] : [vad_float_to_pcm16] / [vad_pcm16_to_float], whose text is the
                same in both builds.
    - [Types] : the configuration record and the strings the API returns.
    - [Stub]  : the platform-unsupported build.
    - [Jni]   : the dispatch bridge and the FFI exports of the JNI build. *)

From Stdlib Require Import ZArith QArith Qabs Lia SpecFloat.
From Stdlib Require Import Strings.String Strings.Byte.
From stdpp Require Import base option list gmap strings.

Local Open Scope Z_scope.

(* ===================================================================== *)
(** ** binary32 *)
(* ===================================================================== *)

Module F32.

(** C [float] on every target of the plugin is IEEE-754 binary32:
    24 bits of precision, infinities at exponent 128. *)
Definition prec : Z := 24.
Definition emax : Z := 128.

Definition float32 : Type := spec_float.

Definition valid (x : float32) : bool := valid_binary prec emax x.

Definition is_nan (x : float32) : bool :=
  match x with S754_nan => true | _ => false end.

(** Conversion of an integer to [float] (round to nearest, ties to even);
    this is the cast [(float)pcm16_samples[i]] and the meaning of integral
    literals such as [32767.0f]. *)
Definition of_Z (z : Z) : float32 := binary_normalize prec emax z 0 false.

Definition mul : float32 -> float32 -> float32 := SFmul prec emax.
Definition div : float32 -> float32 -> float32 := SFdiv prec emax.

(** [a > b] and [a < b] of C: false as soon as one side is a NaN. *)
Definition gtb (a b : float32) : bool := SFltb b a.
Definition ltb (a b : float32) : bool := SFltb a b.

(** A decimal literal [num/den] with the suffix [f]: the binary32 value
    nearest to the quotient ([num] and [den] are exactly representable,
    so the one rounding of [div] is the rounding of the literal). *)
Definition lit (num den : Z) : float32 := div (of_Z num) (of_Z den).

(** The integral part of a float, rounded toward zero; [None] for the
    values that have none (infinities, NaN). *)
Definition trunc (x : float32) : option Z :=
  match x with
  | S754_zero _ => Some 0
  | S754_finite s m e =>
      Some (if 0 <=? e
            then cond_Zopp s (Zpos m) * 2 ^ e
            else Z.quot (cond_Zopp s (Zpos m)) (2 ^ (- e)))
  | S754_infinity _ | S754_nan => None
  end.

(** [(int16_t)x]: defined by C only when the integral part of [x] fits
    the destination type; [None] stands for the undefined cases. *)
Definition to_int16 (x : float32) : option Z :=
  match trunc x with
  | Some t => if (-32768 <=? t) && (t <=? 32767) then Some t else None
  | None => None
  end.

(** The rational number a finite float denotes. *)
Definition to_Q (x : float32) : option Q :=
  match x with
  | S754_zero _ => Some 0%Q
  | S754_finite s m e =>
      Some (if 0 <=? e
            then inject_Z (cond_Zopp s (Zpos m) * 2 ^ e)
            else Qmake (cond_Zopp s (Zpos m)) (Z.to_pos (2 ^ (- e))))
  | S754_infinity _ | S754_nan => None
  end.

(** [x] is finite and denotes exactly [q]. *)
Definition denotes (x : float32) (q : Q) : Prop :=
  match to_Q x with
  | Some v => (v == q)%Q
  | None => False
  end.

(** [x] is finite and lies within [eps] of [q]. *)
Definition near (x : float32) (q eps : Q) : Prop :=
  match to_Q x with
  | Some v => (Qabs (v - q) <= eps)%Q
  | None => False
  end.

End F32.

(* ===================================================================== *)
(** ** Audio codec utility *)
(* ===================================================================== *)

Module Codec.
Import F32.

(** [for (int32_t i = start; i < start + n; i++) body], with the buffer the
    body updates threaded through; [None] when an iteration steps outside
    what C defines. *)
Fixpoint for_loop {S : Type} (n : nat) (i : Z)
    (body : Z -> S -> option S) (s : S) : option S :=
  match n with
  | O => Some s
  | Datatypes.S n' =>
      match body i s with
      | Some s' => for_loop n' (i + 1) body s'
      | None => None
      end
  end.

(** The two conditional assignments on [clamped]. *)
Definition clamp (sample : float32) : float32 :=
  let clamped := sample in
  let clamped := if gtb clamped (of_Z 1) then of_Z 1 else clamped in
  let clamped := if ltb clamped (of_Z (-1)) then of_Z (-1) else clamped in
  clamped.

(** [(int16_t)(clamped * 32767.0f)] *)
Definition float_to_pcm16_sample (sample : float32) : option Z :=
  to_int16 (mul (clamp sample) (of_Z 32767)).

(** [(float)pcm16_samples[i] / 32768.0f] *)
Definition pcm16_to_float_sample (sample : Z) : float32 :=
  div (of_Z sample) (of_Z 32768).

(** A store to [buf[i]]: outside the buffer it is undefined. *)
Definition store {A : Type} (buf : list A) (i : Z) (v : A) : option (list A) :=
  if (0 <=? i) && (i <? Z.of_nat (length buf))
  then Some (<[Z.to_nat i := v]> buf)
  else None.

(** A load from [buf[i]]. *)
Definition load {A : Type} (buf : list A) (i : Z) : option A :=
  if 0 <=? i then buf !! Z.to_nat i else None.

(** [vad_float_to_pcm16(float_samples, pcm16_samples, sample_count)]:
    the result is the content of [pcm16_samples] after the call. *)
Definition vad_float_to_pcm16
    (float_samples : list float32) (pcm16_samples : list Z)
    (sample_count : Z) : option (list Z) :=
  for_loop (Z.to_nat sample_count) 0
    (fun i out =>
       match load float_samples i with
       | Some x =>
           match float_to_pcm16_sample x with
           | Some v => store out i v
           | None => None
           end
       | None => None
       end)
    pcm16_samples.

(** [vad_pcm16_to_float(pcm16_samples, float_samples, sample_count)]:
    the result is the content of [float_samples] after the call. *)
Definition vad_pcm16_to_float
    (pcm16_samples : list Z) (float_samples : list float32)
    (sample_count : Z) : option (list float32) :=
  for_loop (Z.to_nat sample_count) 0
    (fun i out =>
       match load pcm16_samples i with
       | Some x => store out i (pcm16_to_float_sample x)
       | None => None
       end)
    float_samples.

(** What §4.4 of the specification says of one sample, in its own words
    and in exact arithmetic: clamp to [-1.0, 1.0], scale by 32767,
    truncate toward zero.  The sample is taken as the number it denotes,
    an infinity being beyond both bounds; a NaN is no number. *)
Definition spec_clamp_unit (x : float32) : option Q :=
  match x with
  | S754_nan => None
  | S754_infinity s => Some (if s then - (1) else 1)%Q
  | S754_zero _ | S754_finite _ _ _ =>
      match to_Q x with
      | Some q =>
          Some (if negb (Qle_bool q 1) then 1
                else if negb (Qle_bool (- (1)) q) then - (1)
                else q)%Q
      | None => None
      end
  end.

Definition spec_scale (q : Q) : Q := (32767 * q)%Q.

Definition spec_truncate (q : Q) : Z := Z.quot (Qnum q) (Zpos (Qden q)).

Definition spec_float_to_pcm16 (x : float32) : option Z :=
  match spec_clamp_unit x with
  | Some q => Some (spec_truncate (spec_scale q))
  | None => None
  end.

Definition is_int16 (z : Z) : Prop := -32768 <= z <= 32767.

(** A sample that is a number (finite or infinite), as opposed to a NaN,
    in a well-formed binary32 encoding. *)
Definition is_sample (x : float32) : Prop :=
  valid x = true /\ is_nan x = false.

(** The value the loop of [vad_float_to_pcm16] stores at index [j]. *)
Definition pcm16_at (float_samples : list float32) (j : Z) : Z :=
  default 0 (float_samples !! Z.to_nat j ≫= float_to_pcm16_sample).

(** The reading of "writes the int16 obtained by clamping, scaling by
    32767 and truncating toward zero": on every sample that is a number
    the loop body gives the value of the specification. *)
Definition scales_exactly : Prop :=
  forall x : float32, is_sample x -> float_to_pcm16_sample x = spec_float_to_pcm16 x.

(** [t] is the exact product [32767 * q] truncated toward zero, or the
    next integer away from zero when the product is less than [1 / 512]
    short of it: what the product computed in binary32 truncates to. *)
Definition near_truncation (q : Q) (t : Z) : Prop :=
  t = spec_truncate (spec_scale q) \/
  (t = spec_truncate (spec_scale q) + Z.sgn (Qnum q) /\
   (inject_Z (Z.abs t) < Qabs (spec_scale q) + (1 # 512))%Q).

(** Floats of magnitude at most one, which is what [clamp] leaves. *)
Definition unit_float (c : float32) : Prop :=
  match c with
  | S754_zero _ => True
  | S754_finite _ m e => e <= -23 /\ Zpos m <= 2 ^ (- e)
  | S754_infinity _ | S754_nan => False
  end.

(** [pcm16_to_float_sample z] denotes the rational [z / 32768]. *)
Definition exact_quotient (z : Z) : bool :=
  match to_Q (pcm16_to_float_sample z) with
  | Some q => Qeq_bool q (z # 32768)
  | None => false
  end.

(** [p] holds on the [n] integers from [z] on. *)
Fixpoint all_from (n : nat) (z : Z) (p : Z -> bool) : bool :=
  match n with
  | O => true
  | S n' => p z && all_from n' (z + 1) p
  end.

End Codec.


(* ===================================================================== *)
(** ** Types of the boundary shared by the two builds *)
(* ===================================================================== *)

Module Types.
Import F32.

(** [struct VADConfig].  The debug flag is a [bool] in [vad_plus.h] and an
    [int32_t] in the JNI translation unit, hence the parameter [B]. *)
Record VADConfig (B : Type) : Type := mkVADConfig {
  positive_speech_threshold : float32;
  negative_speech_threshold : float32;
  pre_speech_pad_frames : Z;
  redemption_frames : Z;
  min_speech_frames : Z;
  sample_rate : Z;
  frame_samples : Z;
  end_speech_pad_frames : Z;
  is_debug : B
}.
Arguments mkVADConfig {B}.
Arguments positive_speech_threshold {B}.
Arguments negative_speech_threshold {B}.
Arguments pre_speech_pad_frames {B}.
Arguments redemption_frames {B}.
Arguments min_speech_frames {B}.
Arguments sample_rate {B}.
Arguments frame_samples {B}.
Arguments end_speech_pad_frames {B}.
Arguments is_debug {B}.

(** The assignments [config_out->field = v]. *)
Section Assign.
Context {B : Type}.
Implicit Type c : VADConfig B.

Definition set_positive_speech_threshold (v : float32) c :=
  mkVADConfig v (negative_speech_threshold c) (pre_speech_pad_frames c)
    (redemption_frames c) (min_speech_frames c) (sample_rate c)
    (frame_samples c) (end_speech_pad_frames c) (is_debug c).
Definition set_negative_speech_threshold (v : float32) c :=
  mkVADConfig (positive_speech_threshold c) v (pre_speech_pad_frames c)
    (redemption_frames c) (min_speech_frames c) (sample_rate c)
    (frame_samples c) (end_speech_pad_frames c) (is_debug c).
Definition set_pre_speech_pad_frames (v : Z) c :=
  mkVADConfig (positive_speech_threshold c) (negative_speech_threshold c) v
    (redemption_frames c) (min_speech_frames c) (sample_rate c)
    (frame_samples c) (end_speech_pad_frames c) (is_debug c).
Definition set_redemption_frames (v : Z) c :=
  mkVADConfig (positive_speech_threshold c) (negative_speech_threshold c)
    (pre_speech_pad_frames c) v (min_speech_frames c) (sample_rate c)
    (frame_samples c) (end_speech_pad_frames c) (is_debug c).
Definition set_min_speech_frames (v : Z) c :=
  mkVADConfig (positive_speech_threshold c) (negative_speech_threshold c)
    (pre_speech_pad_frames c) (redemption_frames c) v (sample_rate c)
    (frame_samples c) (end_speech_pad_frames c) (is_debug c).
Definition set_sample_rate (v : Z) c :=
  mkVADConfig (positive_speech_threshold c) (negative_speech_threshold c)
    (pre_speech_pad_frames c) (redemption_frames c) (min_speech_frames c) v
    (frame_samples c) (end_speech_pad_frames c) (is_debug c).
Definition set_frame_samples (v : Z) c :=
  mkVADConfig (positive_speech_threshold c) (negative_speech_threshold c)
    (pre_speech_pad_frames c) (redemption_frames c) (min_speech_frames c)
    (sample_rate c) v (end_speech_pad_frames c) (is_debug c).
Definition set_end_speech_pad_frames (v : Z) c :=
  mkVADConfig (positive_speech_threshold c) (negative_speech_threshold c)
    (pre_speech_pad_frames c) (redemption_frames c) (min_speech_frames c)
    (sample_rate c) (frame_samples c) v (is_debug c).
Definition set_is_debug (v : B) c :=
  mkVADConfig (positive_speech_threshold c) (negative_speech_threshold c)
    (pre_speech_pad_frames c) (redemption_frames c) (min_speech_frames c)
    (sample_rate c) (frame_samples c) (end_speech_pad_frames c) v.
End Assign.

(** A [const char *] as the boundary returns it: the null pointer, the
    address of a string literal, or the address of the static array
    [g_lastErrorBuffer]. *)
Inductive c_str : Type :=
| NullStr
| Literal (s : string)
| LastErrorBuffer.

(** The characters of a C string stored in [l]: those before the first
    NUL. *)
Fixpoint cstring (l : list byte) : list byte :=
  match l with
  | [] => []
  | c :: l' => if Byte.eqb c x00 then [] else c :: cstring l'
  end.

(** What a caller reads through a returned pointer, given the present
    content of [g_lastErrorBuffer]. *)
Definition read_str (p : c_str) (buffer : list byte) : option (list byte) :=
  match p with
  | NullStr => None
  | Literal s => Some (list_byte_of_string s)
  | LastErrorBuffer => Some (cstring buffer)
  end.

End Types.

(* ===================================================================== *)
(** ** The stub build: [src/vad_plus.c] under [IMPLEMENT_STUBS] *)
(* ===================================================================== *)

Module Stub.
Import F32 Types.

Definition stub_error : string := "VAD not supported on this platform".

(** [config_out] is [None] for the null pointer and [Some c] for a
    location that holds [c]; the result is the location after the call.
    Storing [0] into the [bool] field stores [false]. *)
Definition vad_config_default (config_out : option (VADConfig bool))
    : option (VADConfig bool) :=
  match config_out with
  | None => None
  | Some c =>
      let c := set_positive_speech_threshold (lit 5 10) c in
      let c := set_negative_speech_threshold (lit 35 100) c in
      let c := set_pre_speech_pad_frames 3 c in
      let c := set_redemption_frames 24 c in
      let c := set_min_speech_frames 9 c in
      let c := set_sample_rate 16000 c in
      let c := set_frame_samples 512 c in
      let c := set_end_speech_pad_frames 3 c in
      let c := set_is_debug false c in
      Some c
  end.

(** [return (VADHandle * )1;] *)
Definition vad_create (_ : unit) : Z := 1.

Definition vad_destroy (handle : Z) : unit := tt.

Definition vad_init (handle : Z) (config : option (VADConfig bool))
    (model_path : option (list byte)) : Z := -100.

Definition vad_start (handle : Z) : Z := -100.

Definition vad_process_audio (handle : Z) (samples : option (list float32))
    (sample_count : Z) : Z := -100.

Definition vad_is_speaking (handle : Z) : Z := 0.

Definition vad_get_last_error (handle : Z) : c_str := Literal stub_error.

Definition vad_float_to_pcm16 := Codec.vad_float_to_pcm16.
Definition vad_pcm16_to_float := Codec.vad_pcm16_to_float.


End Stub.

(* ===================================================================== *)
(** ** The JNI build: [android/src/main/jni/vad_plus_jni.cpp] *)
(* ===================================================================== *)

Module Jni.
Import F32 Types.

(** *** Native memory and the dispatch bridge *)

(** [struct VADEventC]; pointers are addresses, [0] the null pointer. *)
Record VADEventC : Type := mkVADEventC {
  type : Z;
  frame_probability : float32;
  frame_is_speech : Z;
  frame_data : Z;
  frame_length : Z;
  speech_end_audio_data : Z;
  speech_end_audio_length : Z;
  speech_end_duration_ms : Z;
  error_message : Z;
  error_code : Z
}.

(** [memset(event, 0, sizeof(VADEventC))]: every field is all-bits-zero. *)
Definition zeroed_event : VADEventC :=
  mkVADEventC 0 (S754_zero false) 0 0 0 0 0 0 0 0.

Definition set_type (v : Z) (e : VADEventC) : VADEventC :=
  mkVADEventC v (frame_probability e) (frame_is_speech e) (frame_data e)
    (frame_length e) (speech_end_audio_data e) (speech_end_audio_length e)
    (speech_end_duration_ms e) (error_message e) (error_code e).
Definition set_frame_probability (v : float32) (e : VADEventC) : VADEventC :=
  mkVADEventC (type e) v (frame_is_speech e) (frame_data e)
    (frame_length e) (speech_end_audio_data e) (speech_end_audio_length e)
    (speech_end_duration_ms e) (error_message e) (error_code e).
Definition set_frame_is_speech (v : Z) (e : VADEventC) : VADEventC :=
  mkVADEventC (type e) (frame_probability e) v (frame_data e)
    (frame_length e) (speech_end_audio_data e) (speech_end_audio_length e)
    (speech_end_duration_ms e) (error_message e) (error_code e).
Definition set_frame_length (v : Z) (e : VADEventC) : VADEventC :=
  mkVADEventC (type e) (frame_probability e) (frame_is_speech e) (frame_data e)
    v (speech_end_audio_data e) (speech_end_audio_length e)
    (speech_end_duration_ms e) (error_message e) (error_code e).
Definition set_speech_end_audio_data (v : Z) (e : VADEventC) : VADEventC :=
  mkVADEventC (type e) (frame_probability e) (frame_is_speech e) (frame_data e)
    (frame_length e) v (speech_end_audio_length e)
    (speech_end_duration_ms e) (error_message e) (error_code e).
Definition set_speech_end_audio_length (v : Z) (e : VADEventC) : VADEventC :=
  mkVADEventC (type e) (frame_probability e) (frame_is_speech e) (frame_data e)
    (frame_length e) (speech_end_audio_data e) v
    (speech_end_duration_ms e) (error_message e) (error_code e).
Definition set_speech_end_duration_ms (v : Z) (e : VADEventC) : VADEventC :=
  mkVADEventC (type e) (frame_probability e) (frame_is_speech e) (frame_data e)
    (frame_length e) (speech_end_audio_data e) (speech_end_audio_length e)
    v (error_message e) (error_code e).
Definition set_error_message (v : Z) (e : VADEventC) : VADEventC :=
  mkVADEventC (type e) (frame_probability e) (frame_is_speech e) (frame_data e)
    (frame_length e) (speech_end_audio_data e) (speech_end_audio_length e)
    (speech_end_duration_ms e) v (error_code e).
Definition set_error_code (v : Z) (e : VADEventC) : VADEventC :=
  mkVADEventC (type e) (frame_probability e) (frame_is_speech e) (frame_data e)
    (frame_length e) (speech_end_audio_data e) (speech_end_audio_length e)
    (speech_end_duration_ms e) (error_message e) v.

(** What lives at an address of the native heap. *)
Inductive block : Type :=
| EventRecord (e : VADEventC)
| Int16Array (a : list Z)
| CharArray (s : list byte).

(** The native heap: the live blocks and the next address [new] / [strdup]
    hand out. *)
Record Mem : Type := mkMem {
  heap : gmap Z block;
  brk : Z
}.

(** One invocation of a callback: the function pointer, the event pointer
    and the user-data pointer it was given. *)
Record Call : Type := mkCall {
  call_fn : Z;
  call_event : Z;
  call_user_data : Z
}.

(** The state a delivery routine works in. *)
Record World : Type := mkWorld {
  mem : Mem;
  calls : list Call
}.

(** Bridge code: a state transformer that may step outside what C and JNI
    define ([None]). *)
Definition Bridge (A : Type) : Type := World -> option (A * World).

Definition ret {A : Type} (a : A) : Bridge A := fun w => Some (a, w).

Definition bind {A B : Type} (m : Bridge A) (k : A -> Bridge B) : Bridge B :=
  fun w => match m w with
           | Some (a, w') => k a w'
           | None => None
           end.

Definition undefined {A : Type} : Bridge A := fun _ => None.

Declare Scope bridge_scope.
Delimit Scope bridge_scope with bridge.
Notation "'let*' x ':=' m 'in' k" := (bind m (fun x => k))
  (at level 10, x name, m at level 100, k at level 200) : bridge_scope.
Notation "m ';;' k" := (bind m (fun _ => k))
  (at level 100, k at level 200, right associativity) : bridge_scope.

(** [new T] / [new T[n]] / [strdup]: a fresh block. *)
Definition alloc (b : block) : Bridge Z :=
  fun w =>
    let p := brk (mem w) in
    Some (p, mkWorld (mkMem (<[p := b]> (heap (mem w))) (p + 1)) (calls w)).

(** [event->field = v] *)
Definition update_event (p : Z) (f : VADEventC -> VADEventC) : Bridge unit :=
  fun w =>
    match heap (mem w) !! p with
    | Some (EventRecord e) =>
        Some (tt, mkWorld (mkMem (<[p := EventRecord (f e)]> (heap (mem w)))
                                 (brk (mem w))) (calls w))
    | _ => None
    end.

(** [memcpy(dst, src, n * sizeof(int16_t))] into a block of [n] elements;
    [src] is [None] for the null pointer, which [memcpy] must not be given. *)
Definition memcpy_int16 (dst : Z) (src : option (list Z)) (n : Z) : Bridge unit :=
  fun w =>
    match src, heap (mem w) !! dst with
    | Some elements, Some (Int16Array a) =>
        if (Z.of_nat (length a) =? n) && (n <=? Z.of_nat (length elements))
        then Some (tt, mkWorld (mkMem (<[dst := Int16Array (take (Z.to_nat n) elements)]>
                                         (heap (mem w)))
                                      (brk (mem w))) (calls w))
        else None
    | _, _ => None
    end.

(** [strdup(s)]: a fresh block with the C string at [s]; [s] is [None] for
    the null pointer, which [strdup] must not be given. *)
Definition strdup (s : option (list byte)) : Bridge Z :=
  match s with
  | Some chars => alloc (CharArray (cstring chars))
  | None => undefined
  end.

Section Dispatch.

(** The code behind function pointers handed to [vad_set_callback]:
    [callee fn event user_data] is what running [fn(event, user_data)] does
    to the native heap (it may release what it was handed, or not). *)
Variable callee : Z -> Z -> Z -> Mem -> Mem.

(** [callback(event, userData)] *)
Definition invoke (callback event userData : Z) : Bridge unit :=
  fun w =>
    Some (tt, mkWorld (callee callback event userData (mem w))
                      (calls w ++ [mkCall callback event userData])).

Open Scope bridge_scope.

Definition nativeSendEvent (callbackPtr userDataPtr type : Z) : Bridge unit :=
  if callbackPtr =? 0 then ret tt
  else
    let callback := callbackPtr in
    let userData := userDataPtr in
    let* event := alloc (EventRecord zeroed_event) in
    update_event event (set_type type) ;;
    invoke callback event userData.

Definition nativeSendFrameEvent (callbackPtr userDataPtr : Z)
    (probability : float32) (isSpeech : bool) (frameLength : Z) : Bridge unit :=
  if callbackPtr =? 0 then ret tt
  else
    let callback := callbackPtr in
    let userData := userDataPtr in
    let* event := alloc (EventRecord zeroed_event) in
    update_event event (set_type 3) ;;
    update_event event (set_frame_probability probability) ;;
    update_event event (set_frame_is_speech (if isSpeech then 1 else 0)) ;;
    update_event event (set_frame_length frameLength) ;;
    invoke callback event userData.

(** [audioData] is what [GetShortArrayElements] gives for the Java
    [short[]]: its elements, or [None] when it gives the null pointer (the
    reference is null, or the VM cannot provide the elements).  The result
    is not tested: it is copied from and released again ([JNI_ABORT])
    before the event record is built. *)
Definition nativeSendSpeechEndEvent (callbackPtr userDataPtr : Z)
    (audioData : option (list Z)) (audioLength durationMs : Z) : Bridge unit :=
  if callbackPtr =? 0 then ret tt
  else
    let callback := callbackPtr in
    let userData := userDataPtr in
    let audioElements := audioData in
    let* audioCopy :=
      (if 0 <=? audioLength
       then alloc (Int16Array (replicate (Z.to_nat audioLength) 0))
       else undefined) in
    memcpy_int16 audioCopy audioElements audioLength ;;
    let* event := alloc (EventRecord zeroed_event) in
    update_event event (set_type 2) ;;
    update_event event (set_speech_end_audio_data audioCopy) ;;
    update_event event (set_speech_end_audio_length audioLength) ;;
    update_event event (set_speech_end_duration_ms durationMs) ;;
    invoke callback event userData.

(** [message] is what [GetStringUTFChars] gives for the Java string: its
    modified-UTF-8 text, or [None] when it gives the null pointer (the
    reference is null, or the VM cannot provide the characters).  The
    result is not tested before [strdup]. *)
Definition nativeSendErrorEvent (callbackPtr userDataPtr : Z)
    (message : option (list byte)) (code : Z) : Bridge unit :=
  if callbackPtr =? 0 then ret tt
  else
    let callback := callbackPtr in
    let userData := userDataPtr in
    let msgChars := message in
    let* msgCopy := strdup msgChars in
    let* event := alloc (EventRecord zeroed_event) in
    update_event event (set_type 6) ;;
    update_event event (set_error_message msgCopy) ;;
    update_event event (set_error_code code) ;;
    invoke callback event userData.

Close Scope bridge_scope.

End Dispatch.

(** The four ways a detection event reaches the bridge. *)
Inductive Delivery : Type :=
| SendEvent (type : Z)
| SendFrameEvent (probability : float32) (isSpeech : bool) (frameLength : Z)
| SendSpeechEndEvent (audioData : option (list Z)) (audioLength durationMs : Z)
| SendErrorEvent (message : option (list byte)) (code : Z).

Definition deliver (callee : Z -> Z -> Z -> Mem -> Mem)
    (callbackPtr userDataPtr : Z) (d : Delivery) : Bridge unit :=
  match d with
  | SendEvent type => nativeSendEvent callee callbackPtr userDataPtr type
  | SendFrameEvent probability isSpeech frameLength =>
      nativeSendFrameEvent callee callbackPtr userDataPtr probability isSpeech frameLength
  | SendSpeechEndEvent audioData audioLength durationMs =>
      nativeSendSpeechEndEvent callee callbackPtr userDataPtr audioData audioLength durationMs
  | SendErrorEvent message code =>
      nativeSendErrorEvent callee callbackPtr userDataPtr message code
  end.

(** The arguments for which a delivery stays within what C and JNI define:
    the VM provides the elements of the [short[]] and the characters of the
    string, and the length passed with a [short[]] is a length of (a prefix
    of) it. *)
Definition well_formed (d : Delivery) : Prop :=
  match d with
  | SendEvent _ | SendFrameEvent _ _ _ => True
  | SendSpeechEndEvent audioData audioLength _ =>
      match audioData with
      | Some elements => 0 <= audioLength <= Z.of_nat (length elements)
      | None => False
      end
  | SendErrorEvent message _ => message <> None
  end.

(** The tag the record of a delivery carries in its [type] field. *)
Definition kind (d : Delivery) : Z :=
  match d with
  | SendEvent type => type
  | SendFrameEvent _ _ _ => 3
  | SendSpeechEndEvent _ _ _ => 2
  | SendErrorEvent _ _ => 6
  end.

(** The payload of delivery [d] as event record [e] presents it in native
    memory [m]. *)
Definition payload_staged (d : Delivery) (e : VADEventC) (m : Mem) : Prop :=
  match d with
  | SendEvent _ => True
  | SendFrameEvent probability isSpeech frameLength =>
      frame_probability e = probability /\
      frame_is_speech e = (if isSpeech then 1 else 0) /\
      frame_length e = frameLength /\
      frame_data e = 0
  | SendSpeechEndEvent audioData audioLength durationMs =>
      match audioData with
      | Some elements =>
          heap m !! speech_end_audio_data e
          = Some (Int16Array (take (Z.to_nat audioLength) elements))
      | None => False
      end /\
      speech_end_audio_length e = audioLength /\
      speech_end_duration_ms e = durationMs
  | SendErrorEvent message code =>
      match message with
      | Some chars => heap m !! error_message e = Some (CharArray (cstring chars))
      | None => False
      end /\
      error_code e = code
  end.

(** The reading of "the bridge frees the event record before the delivery
    routine returns": whatever the callback does, a record handed to it
    during the delivery is no longer allocated at return. *)
Definition frees_event_record_before_return : Prop :=
  forall callee callbackPtr userDataPtr d w w',
    callbackPtr <> 0 ->
    deliver callee callbackPtr userDataPtr d w = Some (tt, w') ->
    forall c, c ∈ drop (length (calls w)) (calls w') ->
              heap (mem w') !! call_event c = None.

(** A callback that only reads what it is handed. *)
Definition reading_callee : Z -> Z -> Z -> Mem -> Mem := fun _ _ _ m => m.

Definition empty_world : World := mkWorld (mkMem ∅ 1) [].

(** *** The host runtime as the FFI exports see it *)

(** Status codes of [GetEnv] and [AttachCurrentThread]. *)
Inductive jni_status : Type := JNI_OK | JNI_EDETACHED | JNI_EVERSION | JNI_ERR.

(** What a JNI call that yields a reference leaves behind: the reference
    (or null) with no exception pending, or a pending exception. *)
Inductive reply (A : Type) : Type :=
| Returned (v : option A)
| Threw.
Arguments Returned {A}.
Arguments Threw {A}.

(** A [jstring]: [GetStringUTFChars] gives its modified-UTF-8 bytes, or null
    when the VM cannot provide them. *)
Record jstring : Type := mkJstring {
  utf_chars : option (list byte)
}.

(** A [VADHandleInternal] object, by the answers the VM gives about it. *)
Record HandleObject : Type := mkHandleObject {
  GetObjectClass : reply unit;
  GetMethodID_getLastError : reply unit;
  Call_getLastError : reply jstring
}.

(** The VM and the globals [JNI_OnLoad] cached, as one call observes them. *)
Record VM : Type := mkVM {
  g_jvm : bool;
  GetEnv : jni_status;
  AttachCurrentThread : jni_status;
  g_handleManagerClass : bool;
  GetStaticMethodID_getHandle : reply unit;
  Call_getHandle : Z -> reply HandleObject;
  GetStaticMethodID_createHandle : reply unit;
  Call_createHandle_throws : bool;
  GetStaticMethodID_removeHandle : reply unit;
  Call_removeHandle_throws : bool
}.

(** [getEnv() != nullptr] *)
Definition getEnv (vm : VM) : bool :=
  if g_jvm vm then
    match GetEnv vm with
    | JNI_OK => true
    | JNI_EDETACHED =>
        match AttachCurrentThread vm with
        | JNI_OK => true
        | _ => false
        end
    | _ => false
    end
  else false.

(** [getHandle(env, handleId)]: the object, or [None] for [nullptr]. *)
Definition getHandle (vm : VM) (handleId : Z) : option HandleObject :=
  if negb (g_handleManagerClass vm) then None
  else
    match GetStaticMethodID_getHandle vm with
    | Threw => None
    | Returned None => None
    | Returned (Some _) =>
        match Call_getHandle vm handleId with
        | Threw => None
        | Returned result => result
        end
    end.

(** [strncpy(dst, src, n)]: the [n] bytes it writes, for a source string
    whose characters are [src] (a NUL follows them). *)
Fixpoint strncpy_bytes (src : list byte) (n : nat) {struct n} : list byte :=
  match n with
  | O => []
  | S n' =>
      match src with
      | [] => replicate n x00
      | c :: src' =>
          if Byte.eqb c x00 then replicate n x00
          else c :: strncpy_bytes src' n'
      end
  end.

Definition strncpy (dst src : list byte) (n : nat) : list byte :=
  strncpy_bytes src n ++ drop n dst.

(** [sizeof(g_lastErrorBuffer)] *)
Definition buffer_size : nat := 1024.

(** [static char g_lastErrorBuffer[1024] = {0};] *)
Definition initial_buffer : list byte := replicate buffer_size x00.

(** [vad_get_last_error(handle)] run with [g_lastErrorBuffer] holding
    [buffer]: the pointer returned and the buffer afterwards. *)
Definition vad_get_last_error (vm : VM) (handle : Z) (buffer : list byte)
    : c_str * list byte :=
  if handle =? 0 then (Literal "Invalid handle", buffer)
  else if negb (getEnv vm) then (Literal "JNI error", buffer)
  else
    let handleId := handle in
    match getHandle vm handleId with
    | None => (Literal "Handle not found", buffer)
    | Some handleObj =>
        match GetObjectClass handleObj with
        | Threw | Returned None => (Literal "Failed to get handle class", buffer)
        | Returned (Some _) =>
            match GetMethodID_getLastError handleObj with
            | Threw | Returned None => (Literal "Method not found", buffer)
            | Returned (Some _) =>
                match Call_getLastError handleObj with
                | Threw => (Literal "Exception getting error", buffer)
                | Returned None => (Literal EmptyString, buffer)
                | Returned (Some errorStr) =>
                    match utf_chars errorStr with
                    | Some errorChars =>
                        let buffer := strncpy buffer errorChars (buffer_size - 1) in
                        let buffer := <[(buffer_size - 1)%nat := x00]> buffer in
                        (LastErrorBuffer, buffer)
                    | None =>
                        let buffer := <[0%nat := x00]> buffer in
                        (LastErrorBuffer, buffer)
                    end
                end
            end
        end
    end.

(** The call gets as far as a session object whose [getLastError()] gives a
    string with the characters [message]. *)
Definition reaches_message (vm : VM) (handle : Z) (message : list byte) : Prop :=
  handle <> 0 /\ getEnv vm = true /\
  exists handleObj,
    getHandle vm handle = Some handleObj /\
    GetObjectClass handleObj = Returned (Some tt) /\
    GetMethodID_getLastError handleObj = Returned (Some tt) /\
    Call_getLastError handleObj = Returned (Some (mkJstring (Some message))).

Definition vad_config_default (config_out : option (VADConfig Z))
    : option (VADConfig Z) :=
  match config_out with
  | None => None
  | Some c =>
      let c := set_positive_speech_threshold (lit 5 10) c in
      let c := set_negative_speech_threshold (lit 35 100) c in
      let c := set_pre_speech_pad_frames 3 c in
      let c := set_redemption_frames 24 c in
      let c := set_min_speech_frames 9 c in
      let c := set_sample_rate 16000 c in
      let c := set_frame_samples 512 c in
      let c := set_end_speech_pad_frames 3 c in
      let c := set_is_debug 0 c in
      Some c
  end.

(** [config->is_debug != 0], the reading [vad_init] makes of the flag. *)
Definition debug_enabled (c : VADConfig Z) : bool := negb (is_debug c =? 0).


Definition vad_float_to_pcm16 := Codec.vad_float_to_pcm16.
Definition vad_pcm16_to_float := Codec.vad_pcm16_to_float.

(** The fixed messages [vad_get_last_error] answers with when it does not
    get as far as the session's own message. *)
Definition placeholders : list string :=
  [ "Invalid handle"; "JNI error"; "Handle not found";
    "Failed to get handle class"; "Method not found";
    "Exception getting error" ]%string.

(** The call gets as far as a session object whose [getLastError()] gives
    [null]. *)
Definition reaches_no_message (vm : VM) (handle : Z) : Prop :=
  handle <> 0 /\ getEnv vm = true /\
  exists handleObj,
    getHandle vm handle = Some handleObj /\
    GetObjectClass handleObj = Returned (Some tt) /\
    GetMethodID_getLastError handleObj = Returned (Some tt) /\
    Call_getLastError handleObj = Returned None.

(** The call gets as far as the session object [handleObj]. *)
Definition reaches_session (vm : VM) (handle : Z) (handleObj : HandleObject) : Prop :=
  handle <> 0 /\ getEnv vm = true /\ getHandle vm handle = Some handleObj.

(** A lookup that gives null or leaves an exception pending. *)
Definition fails {A : Type} (r : reply A) : Prop :=
  match r with
  | Returned (Some _) => False
  | Returned None | Threw => True
  end.

(** The reading of "the session's stored message otherwise": a call that
    reaches a session with a message returns a string equal to it. *)
Definition returns_stored_message : Prop :=
  forall vm handle buffer message,
    length buffer = buffer_size ->
    reaches_message vm handle message ->
    read_str (vad_get_last_error vm handle buffer).1
             (vad_get_last_error vm handle buffer).2 = Some message.

(** A session object that answers every lookup and whose [getLastError()]
    gives [message]. *)
Definition session_with (message : option (list byte)) : HandleObject :=
  mkHandleObject (Returned (Some tt)) (Returned (Some tt))
    (Returned (option_map (fun m => mkJstring (Some m)) message)).

(** A VM that is loaded, attached and answers every lookup; [registry]
    is what [VadPlusHandleManager.getHandle] finds. *)
Definition vm_with (registry : Z -> option HandleObject) : VM :=
  mkVM true JNI_OK JNI_OK true (Returned (Some tt))
       (fun handleId => Returned (registry handleId))
       (Returned (Some tt)) false (Returned (Some tt)) false.

(** A VM the calling thread cannot reach. *)
Definition vm_unreachable : VM :=
  mkVM false JNI_ERR JNI_ERR false Threw (fun _ => Threw) Threw true Threw true.

Definition long_message : list byte := replicate buffer_size "a"%byte.


End Jni.

(* ===================================================================== *)
(** ** The JNI build, call by call: [JNIEnv] state behind the FFI exports *)
(* ===================================================================== *)

Module Ffi.
Import F32 Types Jni.

(** *** What a native call does to the VM *)

(** The calls into the host that a native function makes, with the
    arguments that reach the Java side. *)
Inductive HostCall : Type :=
| H_AttachCurrentThread
| H_createHandle
| H_getHandle (handleId : Z)
| H_removeHandle (handleId : Z)
| H_newConfig (positive negative : float32)
    (preSpeechPad redemption minSpeech sampleRate frameSamples endSpeechPad : Z)
    (isDebug : bool)
| H_getApplicationContext
| H_initialize (modelPath : option (list byte))
| H_setCallback (callback userData : Z)
| H_invalidateCallback
| H_startListening
| H_stopListening
| H_processAudioData (samples : list float32)
| H_resetStates
| H_forceEndSpeech
| H_isSpeaking
| H_getLastError
| H_getMessage.

(** How a Java method called from native code ends. *)
Inductive outcome (A : Type) : Type :=
| Done (a : A)
| Raised.
Arguments Done {A}.
Arguments Raised {A}.

(** The answers of the VM and of the Kotlin classes during one native
    call, beyond those [VM] and [HandleObject] already carry:
    [GetMethodID] by method name on the handle's class, and how each
    method ends. *)
Record Kotlin : Type := mkKotlin {
  g_configInternalClass : bool;
  GetMethodID_config_init : reply unit;
  NewObject_config : reply unit;
  GetStaticMethodID_getApplicationContext : reply unit;
  Call_getApplicationContext : reply unit;
  GetMethodID : string -> reply unit;
  NewStringUTF : reply unit;
  Call_initialize : outcome Z;
  FindClass_Throwable : reply unit;
  GetMethodID_getMessage : reply unit;
  Call_getMessage : reply jstring;
  Call_setCallback : outcome unit;
  Call_invalidateCallback : outcome unit;
  Call_startListening : outcome Z;
  Call_stopListening : outcome unit;
  NewFloatArray : reply unit;
  Call_processAudioData : outcome unit;
  Call_resetStates : outcome unit;
  Call_forceEndSpeech : outcome unit;
  Call_isSpeaking : outcome bool;
  createHandle_result : Z
}.

(** The part of a thread's [JNIEnv] a native call can change: whether an
    exception is pending, the local references that are live (by number,
    [0] being null), the next reference the VM hands out, the strings with
    characters pinned by [GetStringUTFChars], and the host calls made. *)
Record JState : Type := mkJState {
  pending : bool;
  locals : list Z;
  next_ref : Z;
  pinned : nat;
  trace : list HostCall
}.

(** Native code over that state; [None] when it steps outside what the
    JNI specification defines. *)
Definition J (A : Type) : Type := JState -> option (A * JState).

Definition ret {A : Type} (a : A) : J A := fun s => Some (a, s).

Definition bind {A B : Type} (m : J A) (k : A -> J B) : J B :=
  fun s => match m s with
           | Some (a, s') => k a s'
           | None => None
           end.

Definition undefined {A : Type} : J A := fun _ => None.

Declare Scope jni_scope.
Delimit Scope jni_scope with jni.
Notation "'let*' x ':=' m 'in' k" := (bind m (fun x => k))
  (at level 10, x name, m at level 100, k at level 200) : jni_scope.
Notation "m ';;' k" := (bind m (fun _ => k))
  (at level 100, k at level 200, right associativity) : jni_scope.

Open Scope jni_scope.

Definition log (c : HostCall) : J unit :=
  fun s => Some (tt, mkJState (pending s) (locals s) (next_ref s) (pinned s)
                              (trace s ++ [c])).

(** A Java exception is thrown into the calling thread. *)
Definition throw : J unit :=
  fun s => Some (tt, mkJState true (locals s) (next_ref s) (pinned s) (trace s)).

(** Apart from the exception functions and the release functions, a JNI
    function must not be called while an exception is pending. *)
Definition no_exception_pending : J unit :=
  fun s => if pending s then None else Some (tt, s).

(** [ref] is among the live references [l]. *)
Fixpoint is_live (ref : Z) (l : list Z) : bool :=
  match l with
  | [] => false
  | x :: l' => (ref =? x) || is_live ref l'
  end.

(** [l] without the reference [ref]. *)
Fixpoint without (ref : Z) (l : list Z) : list Z :=
  match l with
  | [] => []
  | x :: l' => if ref =? x then l' else x :: without ref l'
  end.

(** A reference passed to a JNI function must be live. *)
Definition live (ref : Z) : J unit :=
  fun s => if is_live ref (locals s) then Some (tt, s) else None.

Definition new_local_ref : J Z :=
  fun s =>
    let r := next_ref s in
    Some (r, mkJState (pending s) (r :: locals s) (r + 1) (pinned s) (trace s)).

Definition env_ExceptionCheck : J bool := fun s => Some (pending s, s).

Definition env_ExceptionClear : J unit :=
  fun s => Some (tt, mkJState false (locals s) (next_ref s) (pinned s) (trace s)).

(** [DeleteLocalRef]: null is ignored, a reference not live is an error. *)
Definition env_DeleteLocalRef (ref : Z) : J unit :=
  if ref =? 0 then ret tt
  else fun s =>
    if is_live ref (locals s)
    then Some (tt, mkJState (pending s) (without ref (locals s)) (next_ref s)
                            (pinned s) (trace s))
    else None.

(** A JNI function that yields a local reference: the reference, or null,
    possibly with an exception thrown. *)
Definition local_of {A : Type} (r : reply A) : J (Z * option A) :=
  match r with
  | Returned (Some a) => let* ref := new_local_ref in ret (ref, Some a)
  | Returned None => ret (0, None)
  | Threw => throw ;; ret (0, None)
  end.

(** A lookup of a method: whether the ID is non-null. *)
Definition id_of (r : reply unit) : J bool :=
  match r with
  | Returned (Some _) => ret true
  | Returned None => ret false
  | Threw => throw ;; ret false
  end.

(** The end of a called method: its value ([dflt] standing for whatever
    the call returns once it has thrown). *)
Definition value_of {A : Type} (dflt : A) (o : outcome A) : J A :=
  match o with
  | Done a => ret a
  | Raised => throw ;; ret dflt
  end.

Definition env_GetObjectClass (obj : Z) (r : reply unit) : J Z :=
  no_exception_pending ;; live obj ;;
  let* c := local_of r in ret c.1.

Definition env_GetMethodID (cls : Z) (r : reply unit) : J bool :=
  no_exception_pending ;; live cls ;; id_of r.

(** [GetStaticMethodID] / [GetMethodID] on a class held by a global
    reference. *)
Definition env_GetMethodID_global (r : reply unit) : J bool :=
  no_exception_pending ;; id_of r.

Definition env_CallMethod {A : Type} (obj : Z) (c : HostCall) (dflt : A)
    (o : outcome A) : J A :=
  no_exception_pending ;; live obj ;; log c ;; value_of dflt o.

Definition env_CallObjectMethod {A : Type} (obj : Z) (c : HostCall)
    (r : reply A) : J (Z * option A) :=
  no_exception_pending ;; live obj ;; log c ;; local_of r.

Definition env_CallStaticMethod {A : Type} (c : HostCall) (dflt : A)
    (o : outcome A) : J A :=
  no_exception_pending ;; log c ;; value_of dflt o.

Definition env_CallStaticObjectMethod {A : Type} (c : HostCall)
    (r : reply A) : J (Z * option A) :=
  no_exception_pending ;; log c ;; local_of r.

(** [GetStringUTFChars]: the characters are pinned until released; on
    failure null is returned and an [OutOfMemoryError] is pending. *)
Definition env_GetStringUTFChars (str : Z) (js : jstring) : J (option (list byte)) :=
  no_exception_pending ;; live str ;;
  match utf_chars js with
  | Some chars =>
      fun s => Some (Some chars, mkJState (pending s) (locals s) (next_ref s)
                                          (S (pinned s)) (trace s))
  | None => throw ;; ret None
  end.

(** [ReleaseStringUTFChars(str, chars)]: [chars] must be what
    [GetStringUTFChars] gave. *)
Definition env_ReleaseStringUTFChars (str : Z) (chars : option (list byte)) : J unit :=
  live str ;;
  match chars with
  | Some _ =>
      fun s => match pinned s with
               | S n => Some (tt, mkJState (pending s) (locals s) (next_ref s) n (trace s))
               | O => None
               end
  | None => undefined
  end.

(** [NewObject], [NewStringUTF], [NewFloatArray], [FindClass],
    [ExceptionOccurred]: a fresh local reference or null. *)
Definition env_New (r : reply unit) : J Z :=
  no_exception_pending ;;
  let* x := local_of r in ret x.1.

Definition env_ExceptionOccurred : J Z :=
  let* exc := env_ExceptionCheck in
  if exc then new_local_ref else ret 0.

(** *** Helper functions *)

Definition clearException : J unit :=
  let* exc := env_ExceptionCheck in
  if exc then env_ExceptionClear else ret tt.

(** [getEnv() != nullptr] *)
Definition getEnv (vm : VM) : J bool :=
  if g_jvm vm then
    match GetEnv vm with
    | JNI_OK => ret true
    | JNI_EDETACHED =>
        log H_AttachCurrentThread ;;
        match AttachCurrentThread vm with
        | JNI_OK => ret true
        | _ => ret false
        end
    | _ => ret false
    end
  else ret false.

(** [getHandle(env, handleId)]: the local reference ([0] for null) and the
    object it denotes. *)
Definition getHandle (vm : VM) (handleId : Z) : J (Z * option HandleObject) :=
  clearException ;;
  if negb (g_handleManagerClass vm) then ret (0, None)
  else
    let* getHandleMethod := env_GetMethodID_global (GetStaticMethodID_getHandle vm) in
    let* exc := env_ExceptionCheck in
    if exc then clearException ;; ret (0, None)
    else if negb getHandleMethod then ret (0, None)
    else
      let* result := env_CallStaticObjectMethod (H_getHandle handleId)
                       (Call_getHandle vm handleId) in
      let* exc := env_ExceptionCheck in
      if exc then clearException ;; ret (0, None)
      else ret result.

(** *** FFI exports *)

(** [vad_create()]: the handle, [0] for [nullptr]. *)
Definition vad_create (vm : VM) (k : Kotlin) : J Z :=
  let* env := getEnv vm in
  if negb env then ret 0
  else
    clearException ;;
    if negb (g_handleManagerClass vm) then ret 0
    else
      let* createMethod := env_GetMethodID_global (GetStaticMethodID_createHandle vm) in
      let* exc := env_ExceptionCheck in
      if exc then clearException ;; ret 0
      else if negb createMethod then ret 0
      else
        let* handleId := env_CallStaticMethod H_createHandle 0
                           (if Call_createHandle_throws vm then Raised
                            else Done (createHandle_result k)) in
        let* exc := env_ExceptionCheck in
        if exc then clearException ;; ret 0
        else ret handleId.

Definition vad_destroy (vm : VM) (k : Kotlin) (handle : Z) : J unit :=
  if handle =? 0 then ret tt
  else
    let* env := getEnv vm in
    if negb env then ret tt
    else
      clearException ;;
      if negb (g_handleManagerClass vm) then ret tt
      else
        let* removeMethod := env_GetMethodID_global (GetStaticMethodID_removeHandle vm) in
        let* exc := env_ExceptionCheck in
        if negb removeMethod || exc then clearException ;; ret tt
        else
          let handleId := handle in
          env_CallStaticMethod (H_removeHandle handleId) tt
            (if Call_removeHandle_throws vm then Raised else Done tt) ;;
          let* exc := env_ExceptionCheck in
          if exc then clearException ;; ret tt
          else ret tt.

(** The exception report of [vad_init]: the message of the exception is
    fetched for the log and every reference made on the way is deleted. *)
Definition report_exception (k : Kotlin) (exception : Z) : J unit :=
  if exception =? 0 then ret tt
  else
    let* throwableClass := env_New (FindClass_Throwable k) in
    let* getMessageMethod := env_GetMethodID throwableClass (GetMethodID_getMessage k) in
    (if getMessageMethod then
       let* message := env_CallObjectMethod exception H_getMessage (Call_getMessage k) in
       match message with
       | (ref, Some js) =>
           let* messageChars := env_GetStringUTFChars ref js in
           env_ReleaseStringUTFChars ref messageChars ;;
           env_DeleteLocalRef ref
       | (_, None) => ret tt
       end
     else ret tt) ;;
    env_DeleteLocalRef throwableClass ;;
    env_DeleteLocalRef exception.

(** [vad_init(handle, config, model_path)]; [None] stands for a null
    [config] or [model_path]. *)
Definition vad_init (vm : VM) (k : Kotlin) (handle : Z)
    (config : option (VADConfig Z)) (model_path : option (list byte)) : J Z :=
  match config with
  | None => ret (-1)
  | Some config =>
  if handle =? 0 then ret (-1)
  else
    let* env := getEnv vm in
    if negb env then ret (-1)
    else
      clearException ;;
      let handleId := handle in
      let* handleObj := getHandle vm handleId in
      match handleObj with
      | (_, None) => ret (-1)
      | (handleObj, Some obj) =>
      let* handleClass := env_GetObjectClass handleObj (GetObjectClass obj) in
      let* exc := env_ExceptionCheck in
      if (handleClass =? 0) || exc then
        clearException ;; env_DeleteLocalRef handleObj ;; ret (-1)
      else if negb (g_configInternalClass k) then
        env_DeleteLocalRef handleObj ;; env_DeleteLocalRef handleClass ;; ret (-1)
      else
      let* configConstructor := env_GetMethodID_global (GetMethodID_config_init k) in
      let* exc := env_ExceptionCheck in
      if negb configConstructor || exc then
        clearException ;;
        env_DeleteLocalRef handleObj ;; env_DeleteLocalRef handleClass ;; ret (-1)
      else
      no_exception_pending ;;
      log (H_newConfig (positive_speech_threshold config)
                       (negative_speech_threshold config)
                       (pre_speech_pad_frames config)
                       (redemption_frames config)
                       (min_speech_frames config)
                       (sample_rate config)
                       (frame_samples config)
                       (end_speech_pad_frames config)
                       (negb (is_debug config =? 0))) ;;
      let* configObj := local_of (NewObject_config k) in
      let configObj := configObj.1 in
      let* exc := env_ExceptionCheck in
      if (configObj =? 0) || exc then
        clearException ;;
        env_DeleteLocalRef handleObj ;; env_DeleteLocalRef handleClass ;; ret (-1)
      else if negb (g_handleManagerClass vm) then
        env_DeleteLocalRef handleObj ;; env_DeleteLocalRef handleClass ;;
        env_DeleteLocalRef configObj ;; ret (-1)
      else
      let* getContextMethod :=
        env_GetMethodID_global (GetStaticMethodID_getApplicationContext k) in
      let* exc := env_ExceptionCheck in
      if negb getContextMethod || exc then
        clearException ;;
        env_DeleteLocalRef handleObj ;; env_DeleteLocalRef handleClass ;;
        env_DeleteLocalRef configObj ;; ret (-1)
      else
      let* context := env_CallStaticObjectMethod H_getApplicationContext
                        (Call_getApplicationContext k) in
      let context := context.1 in
      let* exc := env_ExceptionCheck in
      if exc then
        clearException ;;
        env_DeleteLocalRef handleObj ;; env_DeleteLocalRef handleClass ;;
        env_DeleteLocalRef configObj ;; ret (-1)
      else if context =? 0 then
        env_DeleteLocalRef handleObj ;; env_DeleteLocalRef handleClass ;;
        env_DeleteLocalRef configObj ;; ret (-1)
      else
      let* initMethod := env_GetMethodID handleClass (GetMethodID k "initialize") in
      let* exc := env_ExceptionCheck in
      if negb initMethod || exc then
        clearException ;;
        env_DeleteLocalRef handleObj ;; env_DeleteLocalRef handleClass ;;
        env_DeleteLocalRef configObj ;; env_DeleteLocalRef context ;; ret (-1)
      else
      let path :=
        match model_path with
        | Some p => if (0 <? length (cstring p))%nat then Some (cstring p) else None
        | None => None
        end in
      let* modelPathStr :=
        match path with
        | Some _ => env_New (NewStringUTF k)
        | None => ret 0
        end in
      live configObj ;; live context ;;
      let* result := env_CallMethod handleObj
                       (H_initialize (if modelPathStr =? 0 then None else path)) 0
                       (Call_initialize k) in
      let* exc := env_ExceptionCheck in
      let* result :=
        (if exc then
           let* exception := env_ExceptionOccurred in
           env_ExceptionClear ;;
           report_exception k exception ;;
           ret (-1)
         else ret result) in
      (if negb (modelPathStr =? 0) then env_DeleteLocalRef modelPathStr else ret tt) ;;
      env_DeleteLocalRef handleObj ;;
      env_DeleteLocalRef handleClass ;;
      env_DeleteLocalRef configObj ;;
      env_DeleteLocalRef context ;;
      ret result
      end
  end.

(** The five exports that call a [void] method of the handle have the same
    text up to the method, its arguments and their name; [method] is the
    name looked up and [call] the call made. *)
Definition void_export (vm : VM) (k : Kotlin) (handle : Z)
    (method : string) (c : HostCall) (o : outcome unit) : J unit :=
  if handle =? 0 then ret tt
  else
    let* env := getEnv vm in
    if negb env then ret tt
    else
      clearException ;;
      let handleId := handle in
      let* handleObj := getHandle vm handleId in
      match handleObj with
      | (_, None) => ret tt
      | (handleObj, Some obj) =>
          let* handleClass := env_GetObjectClass handleObj (GetObjectClass obj) in
          let* exc := env_ExceptionCheck in
          if (handleClass =? 0) || exc then
            clearException ;; env_DeleteLocalRef handleObj ;; ret tt
          else
            let* methodID := env_GetMethodID handleClass (GetMethodID k method) in
            let* exc := env_ExceptionCheck in
            (if methodID && negb exc then
               env_CallMethod handleObj c tt o ;; clearException
             else clearException) ;;
            env_DeleteLocalRef handleObj ;;
            env_DeleteLocalRef handleClass
      end.

Definition vad_set_callback (vm : VM) (k : Kotlin) (handle callback user_data : Z)
    : J unit :=
  void_export vm k handle "setCallback" (H_setCallback callback user_data)
    (Call_setCallback k).

Definition vad_invalidate_callback (vm : VM) (k : Kotlin) (handle : Z) : J unit :=
  void_export vm k handle "invalidateCallback" H_invalidateCallback
    (Call_invalidateCallback k).

Definition vad_stop (vm : VM) (k : Kotlin) (handle : Z) : J unit :=
  void_export vm k handle "stopListening" H_stopListening (Call_stopListening k).

Definition vad_reset (vm : VM) (k : Kotlin) (handle : Z) : J unit :=
  void_export vm k handle "resetStates" H_resetStates (Call_resetStates k).

Definition vad_force_end_speech (vm : VM) (k : Kotlin) (handle : Z) : J unit :=
  void_export vm k handle "forceEndSpeech" H_forceEndSpeech (Call_forceEndSpeech k).

Definition vad_start (vm : VM) (k : Kotlin) (handle : Z) : J Z :=
  if handle =? 0 then ret (-1)
  else
    let* env := getEnv vm in
    if negb env then ret (-1)
    else
      clearException ;;
      let handleId := handle in
      let* handleObj := getHandle vm handleId in
      match handleObj with
      | (_, None) => ret (-1)
      | (handleObj, Some obj) =>
          let* handleClass := env_GetObjectClass handleObj (GetObjectClass obj) in
          let* exc := env_ExceptionCheck in
          if (handleClass =? 0) || exc then
            clearException ;; env_DeleteLocalRef handleObj ;; ret (-1)
          else
            let* startMethod := env_GetMethodID handleClass (GetMethodID k "startListening") in
            let* exc := env_ExceptionCheck in
            if negb startMethod || exc then
              clearException ;;
              env_DeleteLocalRef handleObj ;; env_DeleteLocalRef handleClass ;; ret (-1)
            else
              let* result := env_CallMethod handleObj H_startListening 0
                               (Call_startListening k) in
              let* exc := env_ExceptionCheck in
              let* result := (if exc then clearException ;; ret (-1) else ret result) in
              env_DeleteLocalRef handleObj ;;
              env_DeleteLocalRef handleClass ;;
              ret result
      end.

(** [vad_process_audio(handle, samples, sample_count)]; [None] stands for
    a null [samples]. *)
Definition vad_process_audio (vm : VM) (k : Kotlin) (handle : Z)
    (samples : option (list float32)) (sample_count : Z) : J Z :=
  match samples with
  | None => ret (-1)
  | Some samples =>
  if (handle =? 0) || (sample_count <=? 0) then ret (-1)
  else
    let* env := getEnv vm in
    if negb env then ret (-1)
    else
      clearException ;;
      let handleId := handle in
      let* handleObj := getHandle vm handleId in
      match handleObj with
      | (_, None) => ret (-1)
      | (handleObj, Some obj) =>
          let* handleClass := env_GetObjectClass handleObj (GetObjectClass obj) in
          let* exc := env_ExceptionCheck in
          if (handleClass =? 0) || exc then
            clearException ;; env_DeleteLocalRef handleObj ;; ret (-1)
          else
            let* processMethod :=
              env_GetMethodID handleClass (GetMethodID k "processAudioData") in
            let* exc := env_ExceptionCheck in
            if negb processMethod || exc then
              clearException ;;
              env_DeleteLocalRef handleObj ;; env_DeleteLocalRef handleClass ;; ret (-1)
            else
              let* floatArray := env_New (NewFloatArray k) in
              let* exc := env_ExceptionCheck in
              if (floatArray =? 0) || exc then
                clearException ;;
                env_DeleteLocalRef handleObj ;; env_DeleteLocalRef handleClass ;; ret (-1)
              else
                (* SetFloatArrayRegion(floatArray, 0, sample_count, samples) *)
                no_exception_pending ;; live floatArray ;;
                (if sample_count <=? Z.of_nat (length samples) then ret tt else undefined) ;;
                let region := take (Z.to_nat sample_count) samples in
                env_CallMethod handleObj (H_processAudioData region) tt
                  (Call_processAudioData k) ;;
                clearException ;;
                env_DeleteLocalRef floatArray ;;
                env_DeleteLocalRef handleObj ;;
                env_DeleteLocalRef handleClass ;;
                ret 0
      end
  end.

Definition vad_is_speaking (vm : VM) (k : Kotlin) (handle : Z) : J Z :=
  if handle =? 0 then ret 0
  else
    let* env := getEnv vm in
    if negb env then ret 0
    else
      clearException ;;
      let handleId := handle in
      let* handleObj := getHandle vm handleId in
      match handleObj with
      | (_, None) => ret 0
      | (handleObj, Some obj) =>
          let* handleClass := env_GetObjectClass handleObj (GetObjectClass obj) in
          let* exc := env_ExceptionCheck in
          if (handleClass =? 0) || exc then
            clearException ;; env_DeleteLocalRef handleObj ;; ret 0
          else
            let* isSpeakingMethod :=
              env_GetMethodID handleClass (GetMethodID k "isSpeaking") in
            let* exc := env_ExceptionCheck in
            if negb isSpeakingMethod || exc then
              clearException ;;
              env_DeleteLocalRef handleObj ;; env_DeleteLocalRef handleClass ;; ret 0
            else
              let* result := env_CallMethod handleObj H_isSpeaking false
                               (Call_isSpeaking k) in
              let* exc := env_ExceptionCheck in
              let* result := (if exc then clearException ;; ret false else ret result) in
              env_DeleteLocalRef handleObj ;;
              env_DeleteLocalRef handleClass ;;
              ret (if result then 1 else 0)
      end.

(** [vad_get_last_error(handle)] with [g_lastErrorBuffer] holding
    [buffer]: the pointer returned and the buffer afterwards. *)
Definition vad_get_last_error (vm : VM) (handle : Z) (buffer : list byte)
    : J (c_str * list byte) :=
  if handle =? 0 then ret (Literal "Invalid handle", buffer)
  else
    let* env := getEnv vm in
    if negb env then ret (Literal "JNI error", buffer)
    else
      clearException ;;
      let handleId := handle in
      let* handleObj := getHandle vm handleId in
      match handleObj with
      | (_, None) => ret (Literal "Handle not found", buffer)
      | (handleObj, Some obj) =>
          let* handleClass := env_GetObjectClass handleObj (GetObjectClass obj) in
          let* exc := env_ExceptionCheck in
          if (handleClass =? 0) || exc then
            clearException ;; env_DeleteLocalRef handleObj ;;
            ret (Literal "Failed to get handle class", buffer)
          else
            let* getErrorMethod :=
              env_GetMethodID handleClass (GetMethodID_getLastError obj) in
            let* exc := env_ExceptionCheck in
            if negb getErrorMethod || exc then
              clearException ;;
              env_DeleteLocalRef handleObj ;; env_DeleteLocalRef handleClass ;;
              ret (Literal "Method not found", buffer)
            else
              let* errorStr := env_CallObjectMethod handleObj H_getLastError
                                 (Call_getLastError obj) in
              let* exc := env_ExceptionCheck in
              if exc then
                clearException ;;
                env_DeleteLocalRef handleObj ;; env_DeleteLocalRef handleClass ;;
                ret (Literal "Exception getting error", buffer)
              else
                match errorStr with
                | (_, None) =>
                    env_DeleteLocalRef handleObj ;; env_DeleteLocalRef handleClass ;;
                    ret (Literal EmptyString, buffer)
                | (errorStr, Some js) =>
                    let* errorChars := env_GetStringUTFChars errorStr js in
                    let* buffer :=
                      match errorChars with
                      | Some chars =>
                          let buffer := strncpy buffer chars (buffer_size - 1) in
                          let buffer := <[(buffer_size - 1)%nat := x00]> buffer in
                          env_ReleaseStringUTFChars errorStr errorChars ;;
                          ret buffer
                      | None => ret (<[0%nat := x00]> buffer)
                      end in
                    env_DeleteLocalRef errorStr ;;
                    env_DeleteLocalRef handleObj ;;
                    env_DeleteLocalRef handleClass ;;
                    ret (LastErrorBuffer, buffer)
                end
      end.

(** *** Loading and unloading the library *)

(** The process-wide variables of the library: which of them are
    non-null, and how many global references were created and not
    deleted. *)
Record Globals : Type := mkGlobals {
  jvm : bool;
  handleManagerClass : bool;
  handleInternalClass : bool;
  configInternalClass : bool;
  global_refs : nat
}.

(** [static ... = nullptr;] *)
Definition initial_globals : Globals := mkGlobals false false false false 0.

(** The answers of the VM while the library is loaded: [FindClass] and
    [NewGlobalRef] (which gives null when memory runs out) by class name. *)
Record LoadReplies : Type := mkLoadReplies {
  load_GetEnv : jni_status;
  FindClass : string -> reply unit;
  NewGlobalRef : string -> bool
}.

Definition JNI_VERSION_1_6 : Z := 65542.
Definition JNI_ERR_code : Z := -1.

(** One "cache class references" block of [JNI_OnLoad]: the variable and
    the count of global references afterwards. *)
Definition cache_class (r : LoadReplies) (name : string) (cached : bool)
    (refs : nat) : J (bool * nat) :=
  let* localClass := env_New (FindClass r name) in
  if negb (localClass =? 0) then
    no_exception_pending ;; live localClass ;;
    let global := NewGlobalRef r name in
    env_DeleteLocalRef localClass ;;
    ret (global, if global then S refs else refs)
  else
    let* exc := env_ExceptionCheck in
    (if exc then env_ExceptionClear else ret tt) ;;
    ret (cached, refs).

Definition JNI_OnLoad (r : LoadReplies) (g : Globals) : J (Z * Globals) :=
  let g := mkGlobals true (handleManagerClass g) (handleInternalClass g)
                     (configInternalClass g) (global_refs g) in
  match load_GetEnv r with
  | JNI_OK =>
      let* c1 := cache_class r "dev/miracle/vad_plus/VadPlusHandleManager"
                   (handleManagerClass g) (global_refs g) in
      let* c2 := cache_class r "dev/miracle/vad_plus/VADHandleInternal"
                   (handleInternalClass g) c1.2 in
      let* c3 := cache_class r "dev/miracle/vad_plus/VADConfigInternal"
                   (configInternalClass g) c2.2 in
      ret (JNI_VERSION_1_6, mkGlobals true c1.1 c2.1 c3.1 c3.2)
  | _ => ret (JNI_ERR_code, g)
  end.

(** [JNI_OnUnload]: [status] is what [GetEnv] answers. *)
Definition JNI_OnUnload (status : jni_status) (g : Globals) : Globals :=
  match status with
  | JNI_OK =>
      let refs := global_refs g in
      let refs := if handleManagerClass g then Nat.pred refs else refs in
      let refs := if handleInternalClass g then Nat.pred refs else refs in
      let refs := if configInternalClass g then Nat.pred refs else refs in
      mkGlobals false false false false refs
  | _ =>
      mkGlobals false (handleManagerClass g) (handleInternalClass g)
                (configInternalClass g) (global_refs g)
  end.

(** A VM and Kotlin side that answer as the globals allow. *)
Definition agrees (g : Globals) (vm : VM) (k : Kotlin) : Prop :=
  g_jvm vm = jvm g /\
  g_handleManagerClass vm = handleManagerClass g /\
  g_configInternalClass k = configInternalClass g.

(** The next reference the VM hands out is not null. *)
Definition wf (s : JState) : Prop := 0 < next_ref s.

(** *** The exports as one family *)

(** The five exports that call a [void] method of the handle. *)
Inductive VoidExport : Type :=
| SetCallback (callback user_data : Z)
| InvalidateCallback
| Stop
| Reset
| ForceEndSpeech.

(** A call of an FFI export, with its arguments. *)
Inductive Export : Type :=
| Create
| Destroy (handle : Z)
| Init (handle : Z) (config : option (VADConfig Z)) (model_path : option (list byte))
| Void (handle : Z) (v : VoidExport)
| Start (handle : Z)
| ProcessAudio (handle : Z) (samples : option (list float32)) (sample_count : Z)
| IsSpeaking (handle : Z)
| GetLastError (handle : Z) (buffer : list byte).

(** What an export returns: a handle or status ([RInt]), nothing, or a
    string together with the content of [g_lastErrorBuffer]. *)
Inductive Result : Type :=
| RInt (z : Z)
| RVoid
| RStr (p : c_str) (buffer : list byte).

Definition run_void (vm : VM) (k : Kotlin) (handle : Z) (v : VoidExport) : J unit :=
  match v with
  | SetCallback callback user_data => vad_set_callback vm k handle callback user_data
  | InvalidateCallback => vad_invalidate_callback vm k handle
  | Stop => vad_stop vm k handle
  | Reset => vad_reset vm k handle
  | ForceEndSpeech => vad_force_end_speech vm k handle
  end.

Definition run (vm : VM) (k : Kotlin) (e : Export) : J Result :=
  match e with
  | Create => let* h := vad_create vm k in ret (RInt h)
  | Destroy handle => vad_destroy vm k handle ;; ret RVoid
  | Init handle config model_path =>
      let* r := vad_init vm k handle config model_path in ret (RInt r)
  | Void handle v => run_void vm k handle v ;; ret RVoid
  | Start handle => let* r := vad_start vm k handle in ret (RInt r)
  | ProcessAudio handle samples sample_count =>
      let* r := vad_process_audio vm k handle samples sample_count in ret (RInt r)
  | IsSpeaking handle => let* r := vad_is_speaking vm k handle in ret (RInt r)
  | GetLastError handle buffer =>
      let* r := vad_get_last_error vm handle buffer in ret (RStr r.1 r.2)
  end.

(** The handle an export is given, if it takes one. *)
Definition handle_of (e : Export) : option Z :=
  match e with
  | Create => None
  | Destroy handle | Init handle _ _ | Void handle _ | Start handle
  | ProcessAudio handle _ _ | IsSpeaking handle | GetLastError handle _ => Some handle
  end.

(** The method of the session object an export exists to call, by the
    name it looks up and the call it makes. *)
Definition method_of (v : VoidExport) : string :=
  match v with
  | SetCallback _ _ => "setCallback"
  | InvalidateCallback => "invalidateCallback"
  | Stop => "stopListening"
  | Reset => "resetStates"
  | ForceEndSpeech => "forceEndSpeech"
  end.

Definition call_of (v : VoidExport) : HostCall :=
  match v with
  | SetCallback callback user_data => H_setCallback callback user_data
  | InvalidateCallback => H_invalidateCallback
  | Stop => H_stopListening
  | Reset => H_resetStates
  | ForceEndSpeech => H_forceEndSpeech
  end.

(** The requirements an export puts on its caller and on the VM for its
    run to stay within what C and JNI define: the sample buffer holds
    [sample_count] samples; during [vad_init] the VM does not run out of
    memory while it builds the path string or, after [initialize] has
    thrown, while it reports the exception. *)
Definition in_contract (k : Kotlin) (e : Export) : Prop :=
  match e with
  | ProcessAudio _ (Some samples) sample_count =>
      sample_count <= Z.of_nat (length samples)
  | Init _ _ _ =>
      NewStringUTF k <> Threw /\
      FindClass_Throwable k = Returned (Some tt) /\
      forall js, Call_getMessage k = Returned (Some js) -> utf_chars js <> None
  | _ => True
  end.

(** The session object a call on [handle] gets hold of, with its class:
    the handle is not null, the VM can be reached, the registry knows the
    handle, and the object gives its class. *)
Definition session (vm : VM) (handle : Z) : option HandleObject :=
  if handle =? 0 then None
  else if negb (Jni.getEnv vm) then None
  else
    match Jni.getHandle vm handle with
    | Some obj =>
        match GetObjectClass obj with
        | Returned (Some _) => Some obj
        | _ => None
        end
    | None => None
    end.

(** ... and the method [name] is found on that class. *)
Definition callable (vm : VM) (k : Kotlin) (handle : Z) (name : string) : bool :=
  match session vm handle with
  | Some _ =>
      match GetMethodID k name with
      | Returned (Some _) => true
      | _ => false
      end
  | None => false
  end.

(** The host calls that precede the call of a session method: the
    attachment of a detached thread, and the lookup of the handle. *)
Definition attach_calls (vm : VM) : list HostCall :=
  if g_jvm vm then
    match GetEnv vm with
    | JNI_EDETACHED => [H_AttachCurrentThread]
    | _ => []
    end
  else [].

Definition lookup_calls (vm : VM) (handle : Z) : list HostCall :=
  attach_calls vm ++ [H_getHandle handle].

(** [c] is a call of a method of a session object, as opposed to the
    attachment of the thread and the calls of the handle manager. *)
Definition session_call (c : HostCall) : bool :=
  match c with
  | H_AttachCurrentThread | H_createHandle | H_getHandle _ | H_removeHandle _
  | H_getApplicationContext | H_newConfig _ _ _ _ _ _ _ _ _ | H_getMessage => false
  | _ => true
  end.

(** The argument checks an export makes before it turns to the VM: a null
    handle, a null configuration, a null sample buffer or a count that is
    not positive. *)
Definition rejects (e : Export) : bool :=
  match e with
  | Create => false
  | Init handle None _ => true
  | ProcessAudio handle None _ => true
  | ProcessAudio handle (Some _) sample_count => (handle =? 0) || (sample_count <=? 0)
  | Destroy handle | Init handle (Some _) _ | Void handle _ | Start handle
  | IsSpeaking handle | GetLastError handle _ => handle =? 0
  end.

(** What an export returns when it gives up: [nullptr], [-1], [0] (not
    speaking), nothing, or the message [why] with the buffer untouched. *)
Definition refusal (why : string) (e : Export) : Result :=
  match e with
  | Create => RInt 0
  | Destroy _ | Void _ _ => RVoid
  | Init _ _ _ | Start _ | ProcessAudio _ _ _ => RInt (-1)
  | IsSpeaking _ => RInt 0
  | GetLastError _ buffer => RStr (Literal why) buffer
  end.

(** The string [vad_init] passes for the model path: none for a null or
    empty path, or when the VM gives no string. *)
Definition model_path_string (k : Kotlin) (model_path : option (list byte))
    : option (list byte) :=
  match model_path with
  | Some p =>
      if (0 <? length (cstring p))%nat then
        match NewStringUTF k with
        | Returned (Some _) => Some (cstring p)
        | _ => None
        end
      else None
  | None => None
  end.

(** The configuration object [vad_init] has the VM build. *)
Definition config_call (config : VADConfig Z) : HostCall :=
  H_newConfig (positive_speech_threshold config) (negative_speech_threshold config)
    (pre_speech_pad_frames config) (redemption_frames config)
    (min_speech_frames config) (sample_rate config) (frame_samples config)
    (end_speech_pad_frames config) (negb (is_debug config =? 0)).

(** Everything [vad_init] needs before it can call [initialize] is there:
    the session and its class, the cached configuration class with its
    constructor, the configuration object, the application context, and
    the method itself. *)
Definition init_ready (vm : VM) (k : Kotlin) (handle : Z) : bool :=
  match session vm handle with
  | Some _ =>
      g_configInternalClass k &&
      match GetMethodID_config_init k with Returned (Some _) => true | _ => false end &&
      match NewObject_config k with Returned (Some _) => true | _ => false end &&
      g_handleManagerClass vm &&
      match GetStaticMethodID_getApplicationContext k with
      | Returned (Some _) => true | _ => false end &&
      match Call_getApplicationContext k with Returned (Some _) => true | _ => false end &&
      match GetMethodID k "initialize" with Returned (Some _) => true | _ => false end
  | None => false
  end.

(** No call in [t] is a call of a method of a session object. *)
Definition no_session_call (t : list HostCall) : Prop :=
  forallb (fun c => negb (session_call c)) t = true.

(** The exports that look the handle up in the registry. *)
Definition looks_up (e : Export) : bool :=
  match e with
  | Create | Destroy _ => false
  | _ => true
  end.

(** The message an export gives up with before it has a session object. *)
Definition refusal_reason (vm : VM) (e : Export) : string :=
  if rejects e then "Invalid handle"
  else if Jni.getEnv vm then "Handle not found"
  else "JNI error".

(** The two ways an export returns with a Java exception still pending:
    [vad_init], when [initialize] has thrown and the lookup or the call of
    [getMessage] throws in turn; [vad_get_last_error], when the VM cannot
    give the characters of the message. *)
Definition leaves_pending (vm : VM) (k : Kotlin) (e : Export) : bool :=
  match e with
  | Init handle _ _ =>
      init_ready vm k handle &&
      match Call_initialize k with Raised => true | Done _ => false end &&
      match GetMethodID_getMessage k with
      | Threw => true
      | Returned (Some _) =>
          match Call_getMessage k with Threw => true | Returned _ => false end
      | Returned None => false
      end
  | GetLastError handle _ =>
      match session vm handle with
      | Some obj =>
          match GetMethodID_getLastError obj with
          | Returned (Some _) =>
              match Call_getLastError obj with
              | Returned (Some js) =>
                  match utf_chars js with None => true | Some _ => false end
              | _ => false
              end
          | _ => false
          end
      | None => false
      end
  | _ => false
  end.

(** The classes [JNI_OnLoad] caches. *)
Definition manager_class : string := "dev/miracle/vad_plus/VadPlusHandleManager".
Definition handle_class : string := "dev/miracle/vad_plus/VADHandleInternal".
Definition config_class : string := "dev/miracle/vad_plus/VADConfigInternal".

(** A class variable after its block of [JNI_OnLoad]: the new global
    reference when the class was found, what it held otherwise. *)
Definition cached (r : LoadReplies) (name : string) (before : bool) : bool :=
  match FindClass r name with
  | Returned (Some _) => NewGlobalRef r name
  | _ => before
  end.

(** The count of global references after that block. *)
Definition refs_with (r : LoadReplies) (name : string) (refs : nat) : nat :=
  match FindClass r name with
  | Returned (Some _) => if NewGlobalRef r name then S refs else refs
  | _ => refs
  end.

(** The class variables that hold a reference. *)
Definition cached_classes (g : Globals) : nat :=
  (if handleManagerClass g then 1 else 0) + (if handleInternalClass g then 1 else 0) +
  (if configInternalClass g then 1 else 0).

(** A thread that has just entered native code: no exception pending, no
    local reference, nothing pinned. *)
Definition fresh_thread : JState := mkJState false [] 1 0 [].

(** A Kotlin side on which every lookup and every call succeeds. *)
Definition kotlin_ok : Kotlin :=
  mkKotlin true (Returned (Some tt)) (Returned (Some tt)) (Returned (Some tt))
    (Returned (Some tt)) (fun _ => Returned (Some tt)) (Returned (Some tt)) (Done 0)
    (Returned (Some tt)) (Returned (Some tt)) (Returned (Some (mkJstring (Some []))))
    (Done tt) (Done tt) (Done 0) (Done tt) (Returned (Some tt)) (Done tt) (Done tt)
    (Done tt) (Done true) 1.

(** A load during which every class is found and cached. *)
Definition load_ok : LoadReplies :=
  mkLoadReplies JNI_OK (fun _ => Returned (Some tt)) (fun _ => true).

(** The configuration [vad_config_default] writes. *)
Definition default_config : VADConfig Z :=
  mkVADConfig (lit 5 10) (lit 35 100) 3 24 9 16000 512 3 0.

(** A load during which the handle manager class is not found. *)
Definition load_without_manager : LoadReplies :=
  mkLoadReplies JNI_OK
    (fun name => if String.eqb name manager_class then Threw else Returned (Some tt))
    (fun _ => true).

(** A registry that knows the handle [7] only. *)
Definition one_session (handleId : Z) : option HandleObject :=
  if handleId =? 7 then Some (session_with None) else None.

Close Scope jni_scope.

End Ffi.

(* ===================================================================== *)
(** ** Notions for the round trip and the event records *)
(* ===================================================================== *)

Module Handles.
Import Types Jni Ffi.






End Handles.

Module RoundTrip.
Import F32 Codec.

(** [float_to_pcm16_sample (pcm16_to_float_sample z)] is [z] moved one
    step toward zero, the float in between being a number. *)
Definition steps_toward_zero (z : Z) : bool :=
  let x := pcm16_to_float_sample z in
  valid x && negb (is_nan x) &&
  match float_to_pcm16_sample x with
  | Some t => t =? z - Z.sgn z
  | None => false
  end.

End RoundTrip.

Module Records.
Import F32 Types Jni.

(** The blocks a delivery allocates: the event record and, for SpeechEnd
    and Error, the copy of the payload before it. *)
Definition blocks_of (d : Delivery) : Z :=
  match d with
  | SendEvent _ | SendFrameEvent _ _ _ => 1
  | SendSpeechEndEvent _ _ _ | SendErrorEvent _ _ => 2
  end.

(** The record of delivery [d], its payload copy being at [payload]:
    what [memset] and the assignments of the routine leave. *)
Definition record_of (d : Delivery) (payload : Z) : VADEventC :=
  match d with
  | SendEvent type =>
      mkVADEventC type (S754_zero false) 0 0 0 0 0 0 0 0
  | SendFrameEvent probability isSpeech frameLength =>
      mkVADEventC 3 probability (if isSpeech then 1 else 0) 0 frameLength 0 0 0 0 0
  | SendSpeechEndEvent _ audioLength durationMs =>
      mkVADEventC 2 (S754_zero false) 0 0 0 payload audioLength durationMs 0 0
  | SendErrorEvent _ code =>
      mkVADEventC 6 (S754_zero false) 0 0 0 0 0 0 payload code
  end.

(** The heap [h] with the payload copy of [d] at [payload]; there is
    nothing to copy when the VM provides no elements or characters. *)
Definition with_payload (d : Delivery) (payload : Z) (h : gmap Z block) : gmap Z block :=
  match d with
  | SendEvent _ | SendFrameEvent _ _ _ => h
  | SendSpeechEndEvent (Some elements) audioLength _ =>
      <[payload := Int16Array (take (Z.to_nat audioLength) elements)]> h
  | SendErrorEvent (Some chars) _ =>
      <[payload := CharArray (cstring chars)]> h
  | SendSpeechEndEvent None _ _ | SendErrorEvent None _ => h
  end.

End Records.

Module ErrorBuffer.
Import Types Jni.

(** [g_lastErrorBuffer] holds a C string: among its 1024 bytes there is a
    NUL, so that reading the string stays inside the array. *)
Definition terminated (buffer : list byte) : Prop :=
  length buffer = buffer_size /\ x00 ∈ buffer.

(** The content of [g_lastErrorBuffer] after a sequence of calls of
    [vad_get_last_error], each with the VM it meets and its handle. *)
Fixpoint buffer_after (calls : list (VM * Z)) (buffer : list byte) : list byte :=
  match calls with
  | [] => buffer
  | (vm, handle) :: calls' =>
      buffer_after calls' (vad_get_last_error vm handle buffer).2
  end.

End ErrorBuffer.

(* ===================================================================== *)
(** * Properties *)
(* ===================================================================== *)

Import F32 Codec Types.

(** ** binary32: rounding a product that stays below 32767 *)

(** [digits2_pos p] is the bit length of [p]. *)
Lemma digits2_pos_bounds (p : positive) :
  2 ^ (Zpos (digits2_pos p) - 1) <= Zpos p < 2 ^ Zpos (digits2_pos p).
Proof.
  induction p as [p IH | p IH |]; simpl digits2_pos.
  - rewrite Pos2Z.inj_succ.
    replace (Z.succ (Zpos (digits2_pos p)) - 1) with (Z.succ (Zpos (digits2_pos p) - 1)) by lia.
    rewrite !Z.pow_succ_r by lia. lia.
  - rewrite Pos2Z.inj_succ.
    replace (Z.succ (Zpos (digits2_pos p)) - 1) with (Z.succ (Zpos (digits2_pos p) - 1)) by lia.
    rewrite !Z.pow_succ_r by lia. lia.
  - simpl. lia.
Qed.

Lemma Zdigits2_le (m k : Z) : 0 <= m -> 0 <= k -> m < 2 ^ k -> Zdigits2 m <= k.
Proof.
  intros Hm Hk Hlt. destruct m as [|p|p]; simpl; [lia| |lia].
  pose proof (digits2_pos_bounds p) as [Hlo _].
  destruct (Z_le_gt_dec (Zpos (digits2_pos p)) k) as [|Hgt]; [done|].
  assert (2 ^ k <= 2 ^ (Zpos (digits2_pos p) - 1)) by (apply Z.pow_le_mono_r; lia).
  lia.
Qed.

(** One step of the rounding shifter halves the mantissa and keeps the bit
    it shifts out. *)
Lemma shr_1_m mrs : 0 <= shr_m mrs -> shr_m (shr_1 mrs) = Z.shiftr (shr_m mrs) 1.
Proof.
  destruct mrs as [m r s]; simpl. intros Hm.
  destruct m as [|[p|p|]|p]; try lia; try reflexivity.
Qed.

Lemma shr_1_r mrs : 0 <= shr_m mrs -> shr_r (shr_1 mrs) = Z.testbit (shr_m mrs) 0.
Proof.
  destruct mrs as [m r s]; simpl. intros Hm.
  destruct m as [|[p|p|]|p]; try lia; try reflexivity.
Qed.

(** [p] steps shift by [p] bits; the round bit is bit [p - 1] of the
    original mantissa. *)
Lemma iter_shr_1 (p : positive) : forall mrs, 0 <= shr_m mrs ->
  shr_m (SpecFloat.iter_pos shr_1 p mrs) = Z.shiftr (shr_m mrs) (Zpos p) /\
  shr_r (SpecFloat.iter_pos shr_1 p mrs) = Z.testbit (shr_m mrs) (Zpos p - 1).
Proof.
  induction p as [p IH | p IH |]; intros mrs Hm; simpl SpecFloat.iter_pos.
  - assert (H1 : 0 <= shr_m (shr_1 mrs)) by (rewrite shr_1_m by done; apply Z.shiftr_nonneg; done).
    destruct (IH _ H1) as [Ha Hb].
    assert (H2 : 0 <= shr_m (SpecFloat.iter_pos shr_1 p (shr_1 mrs))) by (rewrite Ha; apply Z.shiftr_nonneg; done).
    destruct (IH _ H2) as [Hc Hd].
    rewrite Hc, Hd, Ha, shr_1_m by done. split.
    + rewrite !Z.shiftr_shiftr by lia. f_equal. lia.
    + rewrite !Z.shiftr_spec by lia. f_equal. lia.
  - destruct (IH _ Hm) as [Ha Hb].
    assert (H2 : 0 <= shr_m (SpecFloat.iter_pos shr_1 p mrs)) by (rewrite Ha; apply Z.shiftr_nonneg; done).
    destruct (IH _ H2) as [Hc Hd].
    rewrite Hc, Hd, Ha. split.
    + rewrite !Z.shiftr_shiftr by lia. f_equal. lia.
    + rewrite !Z.shiftr_spec by lia. f_equal. lia.
  - split; [apply shr_1_m | apply shr_1_r]; done.
Qed.

(** Shifting a mantissa to its canonical exponent keeps it below
    [32767 * 2 ^ (- e)], with room for the increment when the round bit is
    set, since 32767 is itself a multiple of the new unit. *)
Lemma shr_fexp_bound (mz ez : Z) :
  0 <= mz -> ez <= 0 -> mz <= 32767 * 2 ^ (- ez) ->
  forall mrs e', shr_fexp prec emax mz ez loc_Exact = (mrs, e') ->
  e' <= 0 /\ 0 <= shr_m mrs /\ shr_m mrs <= 32767 * 2 ^ (- e') /\
  (shr_r mrs = true -> shr_m mrs + 1 <= 32767 * 2 ^ (- e')).
Proof.
  intros Hm He Hb mrs e'. unfold shr_fexp, shr. simpl shr_record_of_loc.
  assert (Hd : Zdigits2 mz <= 15 - ez).
  { apply Zdigits2_le; [done | lia |].
    replace (15 - ez) with (15 + - ez) by lia. rewrite Z.pow_add_r by lia.
    assert (0 < 2 ^ (- ez)) by (apply Z.pow_pos_nonneg; lia). lia. }
  assert (Hf : fexp prec emax (Zdigits2 mz + ez) <= -9).
  { unfold fexp, SpecFloat.emin, prec, emax. lia. }
  destruct (fexp prec emax (Zdigits2 mz + ez) - ez) as [|p|p] eqn:Hn.
  - intros [= <- <-]. simpl. repeat split; try done; lia.
  - intros [= <- <-].
    destruct (iter_shr_1 p (Build_shr_record mz false false)) as [Hsm Hsr]; [done|].
    simpl shr_m in Hsm, Hsr. rewrite Hsm. 
    assert (He' : ez + Z.pos p <= -9) by lia.
    set (e' := ez + Z.pos p) in *.
    assert (Hpow : 2 ^ (- ez) = 2 ^ (- e') * 2 ^ Z.pos p).
    { rewrite <- Z.pow_add_r by lia. f_equal. lia. }
    assert (H2p : 0 < 2 ^ Z.pos p) by (apply Z.pow_pos_nonneg; lia).
    assert (H2e : 0 < 2 ^ (- e')) by (apply Z.pow_pos_nonneg; lia).
    rewrite Z.shiftr_div_pow2 by lia.
    assert (Hq : mz / 2 ^ Z.pos p <= 32767 * 2 ^ (- e')).
    { apply Z.div_le_upper_bound; [done|]. rewrite Hpow in Hb. lia. }
    repeat split; [lia | apply Z.div_pos; lia | done |].
    intros Hr. rewrite Hsr in Hr.
    destruct (Z.eq_dec (mz / 2 ^ Z.pos p) (32767 * 2 ^ (- e'))) as [Heq|]; [|lia].
    exfalso.
    assert (Hmz : mz = 32767 * 2 ^ (- e') * 2 ^ Z.pos p).
    { pose proof (Z.mul_div_le mz (2 ^ Z.pos p) H2p). rewrite Hpow in Hb. nia. }
    rewrite Hmz, Z.mul_pow2_bits_low in Hr by lia. done.
  - intros [= <- <-]. simpl. repeat split; try done; lia.
Qed.

Lemma round_nearest_even_bound (mrs : shr_record) (b : Z) :
  0 <= shr_m mrs -> shr_m mrs <= b -> (shr_r mrs = true -> shr_m mrs + 1 <= b) ->
  0 <= round_nearest_even (shr_m mrs) (loc_of_shr_record mrs) <= b.
Proof.
  destruct mrs as [m [|] [|]]; simpl; intros H0 Hb Hr;
    try destruct (Z.even m); lia.
Qed.

(** Rounding to nearest of a magnitude of at most 32767 has an integral
    part of at most 32767. *)
Lemma binary_round_aux_small (s : bool) (M E : Z) :
  0 <= M -> E <= 0 -> M <= 32767 * 2 ^ (- E) ->
  exists t, trunc (binary_round_aux prec emax s M E loc_Exact) = Some t /\
            -32767 <= t <= 32767.
Proof.
  intros HM HE Hb. unfold binary_round_aux.
  destruct (shr_fexp prec emax M E loc_Exact) as [mrs' e'] eqn:H1.
  destruct (shr_fexp_bound M E HM HE Hb _ _ H1) as (He' & Hm0 & Hmb & Hmr).
  pose proof (round_nearest_even_bound mrs' _ Hm0 Hmb Hmr) as [Hr0 Hrb].
  destruct (shr_fexp prec emax (round_nearest_even (shr_m mrs') (loc_of_shr_record mrs')) e' loc_Exact)
    as [mrs'' e''] eqn:H2.
  destruct (shr_fexp_bound _ _ Hr0 He' Hrb _ _ H2) as (He'' & Hn0 & Hnb & _).
  destruct (shr_m mrs'') as [|m|m] eqn:Hm; [exists 0; split; [done | lia] | | lia].
  replace (e'' <=? emax - prec) with true by (symmetry; apply Z.leb_le; unfold emax, prec; lia).
  unfold trunc. eexists; split; [reflexivity|].
  assert (H2e : 0 < 2 ^ (- e'')) by (apply Z.pow_pos_nonneg; lia).
  destruct (0 <=? e'') eqn:Hz.
  - apply Z.leb_le in Hz. assert (e'' = 0) as -> by lia. simpl in *. destruct s; simpl; lia.
  - assert (Hq : 0 <= Z.pos m ÷ 2 ^ (- e'') <= 32767).
    { rewrite Z.quot_div_nonneg by lia. split; [apply Z.div_pos; lia|].
      apply Z.div_le_upper_bound; lia. }
    destruct s; simpl cond_Zopp.
    + change (Z.neg m) with (- Z.pos m). rewrite Z.quot_opp_l by lia. lia.
    + lia.
Qed.

Lemma mul_unit_range (c : float32) :
  unit_float c ->
  exists t, trunc (mul c (of_Z 32767)) = Some t /\ -32767 <= t <= 32767.
Proof.
  destruct c as [s|s| |s m e]; unfold unit_float; try done.
  - intros _. exists 0. split; [done|lia].
  - intros [He Hm]. change (of_Z 32767) with (S754_finite false 16776704 (-9)).
    unfold mul, SFmul. apply binary_round_aux_small; [lia | lia |].
    replace (- (e + -9)) with (- e + 9) by lia. rewrite Z.pow_add_r by lia.
    rewrite Pos2Z.inj_mul. change (2 ^ 9) with 512. lia.
Qed.

Lemma canonical_small (m : positive) (e : Z) :
  bounded prec emax m e = true -> e < -23 -> Zpos m <= 2 ^ (- e).
Proof.
  unfold bounded, canonical_mantissa, fexp, SpecFloat.emin, prec, emax.
  intros Hb He. apply andb_prop in Hb as [Hc _]. apply Z.eqb_eq in Hc.
  pose proof (digits2_pos_bounds m) as [_ Hhi].
  assert (Z.pos (digits2_pos m) <= 24) by lia.
  assert (2 ^ Z.pos (digits2_pos m) <= 2 ^ 24) by (apply Z.pow_le_mono_r; lia).
  assert (2 ^ 24 <= 2 ^ (- e)) by (apply Z.pow_le_mono_r; lia).
  lia.
Qed.


Lemma not_above_one (m : positive) (e : Z) :
  bounded prec emax m e = true ->
  SFltb (S754_finite false 8388608 (-23)) (S754_finite false m e) = false ->
  e <= -23 /\ Zpos m <= 2 ^ (- e).
Proof.
  intros Hb. unfold SFltb, SFcompare.
  rewrite Pos.compare_cont_spec. simpl Pos.switch_Eq.
  destruct (Z.compare_spec (-23) e) as [<-|Hlt|Hgt]; [| done |].
  - destruct (Pos.compare_spec 8388608 m) as [<-|Hlt|Hgt]; try done; intros _;
      (split; [apply Z.le_refl|]); change (2 ^ (- -23)) with 8388608;
      apply Z.lt_le_incl; exact Hgt.
  - intros _. split; [lia|]. apply canonical_small; [done | lia].
Qed.

Lemma not_below_minus_one (m : positive) (e : Z) :
  bounded prec emax m e = true ->
  SFltb (S754_finite true m e) (S754_finite true 8388608 (-23)) = false ->
  e <= -23 /\ Zpos m <= 2 ^ (- e).
Proof.
  intros Hb. unfold SFltb, SFcompare.
  rewrite Pos.compare_cont_spec. simpl Pos.switch_Eq.
  destruct (Z.compare_spec e (-23)) as [->|Hlt|Hgt]; [| | done].
  - destruct (Pos.compare_spec m 8388608) as [->|Hlt|Hgt]; try done; intros _;
      (split; [apply Z.le_refl|]); change (2 ^ (- -23)) with 8388608;
      apply Z.lt_le_incl; exact Hlt.
  - intros _. split; [lia|]. apply canonical_small; [done | lia].
Qed.

(** The clamp leaves a float of magnitude at most one. *)
Lemma clamp_unit (x : float32) : is_sample x -> unit_float (clamp x).
Proof.
  intros [Hv Hn]. destruct x as [s|s| |s m e].
  - destruct s; exact I.
  - destruct s; vm_compute; split; discriminate.
  - discriminate Hn.
  - unfold clamp, gtb, ltb.
    change (of_Z 1) with (S754_finite false 8388608 (-23)).
    change (of_Z (-1)) with (S754_finite true 8388608 (-23)).
    unfold valid, valid_binary in Hv.
    destruct s.
    + change (SFltb (S754_finite false 8388608 (-23)) (S754_finite true m e)) with false.
      cbv iota.
      destruct (SFltb (S754_finite true m e) (S754_finite true 8388608 (-23))) eqn:Hc.
      * vm_compute; split; discriminate.
      * apply not_below_minus_one; done.
    + destruct (SFltb (S754_finite false 8388608 (-23)) (S754_finite false m e)) eqn:Hc.
      * vm_compute; split; discriminate.
      * change (SFltb (S754_finite false m e) (S754_finite true 8388608 (-23))) with false.
        cbv iota. apply not_above_one; done.
Qed.

(** For a sample that is a number the cast is defined and in range. *)
Lemma float_to_pcm16_sample_defined (x : float32) :
  is_sample x ->
  exists t, float_to_pcm16_sample x = Some t /\ -32767 <= t <= 32767.
Proof.
  intros Hx. destruct (mul_unit_range _ (clamp_unit x Hx)) as (t & Ht & Hr).
  exists t. unfold float_to_pcm16_sample, to_int16.
  rewrite Ht.
  replace ((-32768 <=? t) && (t <=? 32767)) with true; [done|].
  symmetry. apply andb_true_intro. split; apply Z.leb_le; lia.
Qed.

(** ** binary32: how far the rounded product is from the exact one *)

(** The rounding shifter keeps a mantissa on its side of every multiple of
    [1 / 512]: [K * 2 ^ (-9 - e)] is [K / 512] in units of [2 ^ e]. *)
Lemma shr_fexp_fine (mz ez K : Z) :
  0 <= mz -> ez <= -9 -> mz <= 32767 * 2 ^ (- ez) ->
  forall mrs e', shr_fexp prec emax mz ez loc_Exact = (mrs, e') ->
  e' <= -9 /\
  (mz <= K * 2 ^ (-9 - ez) ->
   shr_m mrs <= K * 2 ^ (-9 - e') /\
   (shr_r mrs = true -> shr_m mrs + 1 <= K * 2 ^ (-9 - e'))) /\
  (K * 2 ^ (-9 - ez) <= mz -> K * 2 ^ (-9 - e') <= shr_m mrs).
Proof.
  intros Hm He Hb mrs e'. unfold shr_fexp, shr. simpl shr_record_of_loc.
  assert (Hd : Zdigits2 mz <= 15 - ez).
  { apply Zdigits2_le; [done | lia |].
    replace (15 - ez) with (15 + - ez) by lia. rewrite Z.pow_add_r by lia.
    assert (0 < 2 ^ (- ez)) by (apply Z.pow_pos_nonneg; lia). lia. }
  assert (Hf : fexp prec emax (Zdigits2 mz + ez) <= -9).
  { unfold fexp, SpecFloat.emin, prec, emax. lia. }
  destruct (fexp prec emax (Zdigits2 mz + ez) - ez) as [|p|p] eqn:Hn.
  - intros [= <- <-]. simpl. split; [done|]. split; [split; [done | discriminate] | done].
  - intros [= <- <-].
    destruct (iter_shr_1 p (Build_shr_record mz false false)) as [Hsm Hsr]; [done|].
    simpl shr_m in Hsm, Hsr. rewrite Hsm, Hsr.
    assert (He' : ez + Z.pos p <= -9) by lia.
    set (e' := ez + Z.pos p) in *.
    assert (Hpow : 2 ^ (-9 - ez) = 2 ^ (-9 - e') * 2 ^ Z.pos p).
    { rewrite <- Z.pow_add_r by lia. f_equal. lia. }
    assert (H2p : 0 < 2 ^ Z.pos p) by (apply Z.pow_pos_nonneg; lia).
    assert (H2e : 0 < 2 ^ (-9 - e')) by (apply Z.pow_pos_nonneg; lia).
    rewrite Z.shiftr_div_pow2 by lia. rewrite Hpow. split; [done|]. split.
    + intros Hup.
      assert (Hq : mz / 2 ^ Z.pos p <= K * 2 ^ (-9 - e')).
      { apply Z.div_le_upper_bound; [done|]. lia. }
      split; [done|]. intros Hr.
      destruct (Z.eq_dec (mz / 2 ^ Z.pos p) (K * 2 ^ (-9 - e'))) as [Heq|]; [|lia].
      exfalso.
      assert (Hmz : mz = K * 2 ^ (-9 - e') * 2 ^ Z.pos p).
      { pose proof (Z.mul_div_le mz (2 ^ Z.pos p) H2p). nia. }
      rewrite Hmz, Z.mul_pow2_bits_low in Hr by lia. done.
    + intros Hlo. apply Z.div_le_lower_bound; [done|]. lia.
  - intros [= <- <-]. simpl. split; [done|]. split; [split; [done | discriminate] | done].
Qed.

Lemma round_nearest_even_ge (mrs : shr_record) :
  shr_m mrs <= round_nearest_even (shr_m mrs) (loc_of_shr_record mrs).
Proof.
  destruct mrs as [m [|] [|]]; simpl; try destruct (Z.even m); lia.
Qed.

(** Rounding to nearest of a magnitude [M * 2 ^ E] of at most 32767: the
    integral part [a] of the result against every multiple [K / 512]. *)
Lemma binary_round_aux_fine (s : bool) (M E : Z) :
  0 <= M -> E <= -9 -> M <= 32767 * 2 ^ (- E) ->
  exists a,
    trunc (binary_round_aux prec emax s M E loc_Exact) = Some (cond_Zopp s a) /\
    0 <= a /\
    forall K,
      (M <= K * 2 ^ (-9 - E) -> 512 * a <= K) /\
      (K * 2 ^ (-9 - E) <= M -> K <= 512 * a + 511).
Proof.
  intros HM HE Hb. unfold binary_round_aux.
  destruct (shr_fexp prec emax M E loc_Exact) as [mrs' e'] eqn:H1.
  assert (HE0 : E <= 0) by lia.
  destruct (shr_fexp_bound M E HM HE0 Hb _ _ H1) as (_ & Hm0 & Hmb & Hmr).
  destruct (shr_fexp_fine M E 0 HM HE Hb _ _ H1) as (He' & _).
  pose proof (round_nearest_even_bound mrs' _ Hm0 Hmb Hmr) as [Hr0 Hrb].
  pose proof (round_nearest_even_ge mrs') as Hge.
  destruct (shr_fexp prec emax (round_nearest_even (shr_m mrs') (loc_of_shr_record mrs')) e' loc_Exact)
    as [mrs'' e''] eqn:H2.
  assert (He0 : e' <= 0) by lia.
  destruct (shr_fexp_bound _ _ Hr0 He0 Hrb _ _ H2) as (_ & Hn0 & Hnb & _).
  destruct (shr_fexp_fine _ _ 0 Hr0 He' Hrb _ _ H2) as (He'' & _).
  assert (H2e : 0 < 2 ^ (-9 - e'')) by (apply Z.pow_pos_nonneg; lia).
  assert (Hpow : 2 ^ (- e'') = 2 ^ (-9 - e'') * 512).
  { replace (- e'') with (-9 - e'' + 9) by lia. rewrite Z.pow_add_r by lia. reflexivity. }
  assert (Hside : forall K,
            (M <= K * 2 ^ (-9 - E) -> shr_m mrs'' <= K * 2 ^ (-9 - e'')) /\
            (K * 2 ^ (-9 - E) <= M -> K * 2 ^ (-9 - e'') <= shr_m mrs'')).
  { intros K.
    destruct (shr_fexp_fine M E K HM HE Hb _ _ H1) as (_ & Hup & Hlo).
    destruct (shr_fexp_fine _ _ K Hr0 He' Hrb _ _ H2) as (_ & Hup' & Hlo').
    split.
    - intros HMk. destruct (Hup HMk) as [Hu1 Hu2]. apply Hup'.
      destruct (round_nearest_even_bound mrs' (K * 2 ^ (-9 - e')) Hm0 Hu1 Hu2). lia.
    - intros HMk. apply Hlo'. specialize (Hlo HMk). lia. }
  destruct (shr_m mrs'') as [|m|m] eqn:Hm; [| | lia].
  - exists 0. split; [destruct s; reflexivity|]. split; [lia|].
    intros K. destruct (Hside K) as [Hu Hl]. split.
    + intros HMk. specialize (Hu HMk).
      destruct (Z.le_gt_cases 0 K) as [|Hneg]; [lia|]. exfalso.
      pose proof (Z.mul_neg_pos K _ Hneg H2e). lia.
    + intros HMk. specialize (Hl HMk).
      destruct (Z.le_gt_cases K 0) as [|Hpos]; [lia|]. exfalso.
      pose proof (Z.mul_pos_pos K _ Hpos H2e). lia.
  - replace (e'' <=? emax - prec) with true by (symmetry; apply Z.leb_le; unfold emax, prec; lia).
    unfold trunc.
    replace (0 <=? e'') with false by (symmetry; apply Z.leb_gt; lia).
    exists (Z.pos m / 2 ^ (- e'')).
    assert (H2e' : 0 < 2 ^ (- e'')) by (apply Z.pow_pos_nonneg; lia).
    split.
    { f_equal. destruct s; simpl cond_Zopp.
      - change (Z.neg m) with (- Z.pos m). rewrite Z.quot_opp_l by lia.
        rewrite Z.quot_div_nonneg by lia. reflexivity.
      - rewrite Z.quot_div_nonneg by lia. reflexivity. }
    split; [apply Z.div_pos; lia|].
    pose proof (Z.mul_div_le (Z.pos m) (2 ^ (- e'')) H2e') as Hfl.
    pose proof (Z.mul_succ_div_gt (Z.pos m) (2 ^ (- e'')) H2e') as Hce.
    set (a := Z.pos m / 2 ^ (- e'')) in *.
    intros K. destruct (Hside K) as [Hu Hl]. split.
    + intros HMk. specialize (Hu HMk). rewrite Hpow in Hfl. nia.
    + intros HMk. specialize (Hl HMk). rewrite Hpow in Hce. nia.
Qed.

(** The product of a float of magnitude [m * 2 ^ e <= 1] with 32767: its
    integral part [a] is more than the exact product less one, and less
    than the exact product plus [1 / 512]. *)
Lemma mul_unit_fine (s : bool) (m : positive) (e : Z) :
  e <= -23 -> Zpos m <= 2 ^ (- e) ->
  exists a,
    trunc (mul (S754_finite s m e) (of_Z 32767)) = Some (cond_Zopp s a) /\
    0 <= a <= 32767 /\
    32767 * Zpos m < (a + 1) * 2 ^ (- e) /\
    512 * a * 2 ^ (- e) < 512 * 32767 * Zpos m + 2 ^ (- e).
Proof.
  intros He Hm. change (of_Z 32767) with (S754_finite false 16776704 (-9)).
  unfold mul, SFmul.
  assert (HD : 0 < 2 ^ (- e)) by (apply Z.pow_pos_nonneg; lia).
  assert (Hpow : 2 ^ (- (e + -9)) = 2 ^ (- e) * 512).
  { replace (- (e + -9)) with (- e + 9) by lia. rewrite Z.pow_add_r by lia. reflexivity. }
  replace (xorb s false) with s by (destruct s; reflexivity).
  destruct (binary_round_aux_fine s (Zpos (m * 16776704)) (e + -9))
    as (a & Ht & Ha & Hside).
  - lia.
  - lia.
  - rewrite Hpow, Pos2Z.inj_mul. lia.
  - exists a. split; [exact Ht|].
    replace (-9 - (e + -9)) with (- e) in Hside by lia.
    rewrite Pos2Z.inj_mul in Hside.
    set (D := 2 ^ (- e)) in *. clearbody D.
    assert (HY : Z.pos m * 16776704 = (512 * 32767 * Z.pos m)) by lia.
    rewrite HY in Hside.
    remember (512 * 32767 * Z.pos m) as Y eqn:HYdef.
    pose proof (Z.mul_div_le Y D HD) as Hfl.
    pose proof (Z.mul_succ_div_gt Y D HD) as Hce.
    remember (Y / D) as K0 eqn:HK0. clear HK0.
    destruct (Hside K0) as [_ Hlo].
    assert (Hlo' : K0 <= 512 * a + 511) by (apply Hlo; lia).
    destruct (Hside (K0 + 1)) as [Hup _].
    assert (Hup' : 512 * a <= K0 + 1) by (apply Hup; lia).
    destruct (Hside (512 * 32767)) as [Hmax _].
    assert (Ha' : 512 * a <= 512 * 32767) by (apply Hmax; nia).
    split; [lia|]. split; [nia|].
    destruct (Z.eq_dec (K0 * D) Y) as [Heq|Hne].
    + destruct (Hside K0) as [Hup0 _].
      assert (512 * a <= K0) by (apply Hup0; lia). nia.
    + nia.
Qed.

(** A canonical mantissa above the smallest exponents has all its 24
    bits. *)
Lemma canonical_large (m : positive) (e : Z) :
  bounded prec emax m e = true -> -23 < e -> 2 ^ 23 <= Zpos m.
Proof.
  unfold bounded, canonical_mantissa, fexp, SpecFloat.emin, prec, emax.
  intros Hb He. apply andb_prop in Hb as [Hc _]. apply Z.eqb_eq in Hc.
  pose proof (digits2_pos_bounds m) as [Hlo _].
  assert (Hd : Z.pos (digits2_pos m) = 24) by lia.
  rewrite Hd in Hlo. exact Hlo.
Qed.

(** Above [1.0f] the number denoted is above one. *)
Lemma above_one (s : bool) (m : positive) (e : Z) (q : Q) :
  bounded prec emax m e = true ->
  SFltb (S754_finite false 8388608 (-23)) (S754_finite false m e) = true ->
  to_Q (S754_finite s m e) = Some q ->
  Qle_bool (Qabs q) 1 = false.
Proof.
  intros Hb. unfold SFltb, SFcompare.
  rewrite Pos.compare_cont_spec. simpl Pos.switch_Eq.
  unfold to_Q.
  destruct (Z.compare_spec (-23) e) as [<-|Hlt|Hgt]; [| | done].
  - destruct (Pos.compare_spec 8388608 m) as [<-|Hlt|Hgt]; try done.
    intros _ [= <-]. change (0 <=? -23) with false. cbv iota.
    unfold Qle_bool, Qabs. cbn [Qnum Qden].
    apply Z.leb_gt. change (Z.pos (Z.to_pos (2 ^ (- -23)))) with 8388608.
    destruct s; cbn [cond_Zopp Z.abs Z.opp]; lia.
  - intros _ [= <-].
    pose proof (canonical_large m e Hb Hlt) as Hm. change (2 ^ 23) with 8388608 in Hm.
    destruct (0 <=? e) eqn:He.
    + apply Z.leb_le in He.
      assert (H2 : 1 <= 2 ^ e) by (apply Z.pow_le_mono_r with (b := 0); lia).
      unfold Qle_bool, Qabs, inject_Z. cbn [Qnum Qden]. apply Z.leb_gt.
      rewrite Z.abs_mul. destruct s; cbn [cond_Zopp Z.abs Z.opp]; nia.
    + apply Z.leb_gt in He.
      assert (H2 : 2 ^ (- e) <= 2 ^ 22) by (apply Z.pow_le_mono_r; lia).
      assert (H0 : 0 < 2 ^ (- e)) by (apply Z.pow_pos_nonneg; lia).
      change (2 ^ 22) with 4194304 in H2.
      unfold Qle_bool, Qabs. cbn [Qnum Qden]. apply Z.leb_gt.
      rewrite Z2Pos.id by done.
      destruct s; cbn [cond_Zopp Z.abs Z.opp]; lia.
Qed.

(** Below [-1.0f] is above [1.0f] on the other side. *)
Lemma ltb_minus_one_mirror (m : positive) (e : Z) :
  SFltb (S754_finite true m e) (S754_finite true 8388608 (-23))
  = SFltb (S754_finite false 8388608 (-23)) (S754_finite false m e).
Proof.
  unfold SFltb, SFcompare. rewrite !Pos.compare_cont_spec. simpl Pos.switch_Eq.
  destruct (Z.compare_spec e (-23)) as [->|Hlt|Hgt].
  - change (-23 ?= -23) with Eq. cbv iota.
    rewrite (Pos.compare_antisym m 8388608).
    destruct (m ?= 8388608)%positive; reflexivity.
  - replace (-23 ?= e) with Gt by (symmetry; apply Z.compare_gt_iff; lia). reflexivity.
  - replace (-23 ?= e) with Lt by (symmetry; apply Z.compare_lt_iff; lia). reflexivity.
Qed.

Lemma to_int16_small (x : float32) (t : Z) :
  trunc x = Some t -> -32768 <= t <= 32767 -> to_int16 x = Some t.
Proof.
  intros Ht Hr. unfold to_int16. rewrite Ht.
  replace ((-32768 <=? t) && (t <=? 32767)) with true; [done|].
  symmetry. apply andb_true_intro. split; apply Z.leb_le; lia.
Qed.

(** A sample of magnitude at most one: the value [vad_float_to_pcm16]
    computes from it against the exact product. *)
Lemma unit_sample_near_truncation (s : bool) (m : positive) (e : Z) :
  e <= -23 -> Zpos m <= 2 ^ (- e) ->
  exists t,
    trunc (mul (S754_finite s m e) (of_Z 32767)) = Some t /\
    -32767 <= t <= 32767 /\
    near_truncation (Qmake (cond_Zopp s (Zpos m)) (Z.to_pos (2 ^ (- e)))) t.
Proof.
  intros He Hm.
  destruct (mul_unit_fine s m e He Hm) as (a & Ht & Ha & Hlo & Hup).
  exists (cond_Zopp s a). split; [exact Ht|].
  split; [destruct s; cbn [cond_Zopp]; lia|].
  assert (HD : 0 < 2 ^ (- e)) by (apply Z.pow_pos_nonneg; lia).
  unfold near_truncation, spec_truncate, spec_scale, Qmult. cbn [Qnum Qden].
  change (1 * Z.to_pos (2 ^ (- e)))%positive with (Z.to_pos (2 ^ (- e))).
  rewrite Z2Pos.id by done.
  remember (2 ^ (- e)) as D eqn:HDdef. clear HDdef.
  pose proof (Z.mul_div_le (32767 * Z.pos m) D HD) as Hfl.
  pose proof (Z.mul_succ_div_gt (32767 * Z.pos m) D HD) as Hce.
  assert (Hq : Z.quot (32767 * cond_Zopp s (Z.pos m)) D
               = cond_Zopp s ((32767 * Z.pos m) / D)).
  { destruct s; cbn [cond_Zopp].
    - replace (32767 * - Z.pos m) with (- (32767 * Z.pos m)) by lia.
      rewrite Z.quot_opp_l by lia. rewrite Z.quot_div_nonneg by lia. reflexivity.
    - rewrite Z.quot_div_nonneg by lia. reflexivity. }
  rewrite Hq.
  remember ((32767 * Z.pos m) / D) as k0 eqn:Hk0. clear Hk0.
  assert (Hk : a = k0 \/ a = k0 + 1) by nia.
  destruct Hk as [->| ->]; [left; reflexivity|].
  right. split.
  - destruct s; cbn [cond_Zopp Z.sgn]; lia.
  - replace (Z.abs (cond_Zopp s (k0 + 1))) with (k0 + 1)
      by (destruct s; cbn [cond_Zopp]; lia).
    unfold Qlt, Qplus, Qabs, inject_Z. cbn [Qnum Qden].
    rewrite Pos2Z.inj_mul, Z2Pos.id by done.
    replace (Z.abs (32767 * cond_Zopp s (Z.pos m))) with (32767 * Z.pos m)
      by (destruct s; cbn [cond_Zopp]; lia).
    nia.
Qed.

Lemma clamp_inside (q : Q) :
  Qle_bool q 1 = true -> Qle_bool (- (1)) q = true ->
  (if negb (Qle_bool q 1) then 1
   else if negb (Qle_bool (- (1)) q) then - (1) else q)%Q = q.
Proof. intros -> ->. reflexivity. Qed.

(** For a sample that is a number the loop body computes the clamped
    value scaled by 32767 and truncated, up to the rounding of the
    product. *)
Lemma float_to_pcm16_sample_spec (x : float32) :
  is_sample x ->
  exists t q,
    float_to_pcm16_sample x = Some t /\ -32767 <= t <= 32767 /\
    spec_clamp_unit x = Some q /\ near_truncation q t.
Proof.
  intros [Hv Hn]. destruct x as [s|s| |s m e].
  - exists 0, 0%Q. destruct s; repeat split; try done; left; reflexivity.
  - destruct s.
    + exists (-32767), (- (1))%Q. repeat split; try done. left; reflexivity.
    + exists 32767, 1%Q. repeat split; try done. left; reflexivity.
  - discriminate Hn.
  - unfold valid, valid_binary in Hv.
    unfold float_to_pcm16_sample, clamp, gtb, ltb.
    change (of_Z 1) with (S754_finite false 8388608 (-23)).
    change (of_Z (-1)) with (S754_finite true 8388608 (-23)).
    unfold spec_clamp_unit.
    destruct (to_Q (S754_finite s m e)) as [q|] eqn:Hq; [|discriminate Hq].
    destruct s.
    + change (SFltb (S754_finite false 8388608 (-23)) (S754_finite true m e)) with false.
      cbv iota. rewrite ltb_minus_one_mirror.
      destruct (SFltb (S754_finite false 8388608 (-23)) (S754_finite false m e)) eqn:Hc.
      * pose proof (above_one true m e q Hv Hc Hq) as Habove.
        exists (-32767), (- (1))%Q. split; [reflexivity|]. split; [lia|].
        split; [|left; reflexivity].
        f_equal.
        assert (Hneg : (Qnum q < 0)%Z).
        { unfold to_Q in Hq. destruct (0 <=? e); injection Hq as <-;
            cbn [inject_Z Qnum cond_Zopp]; [|lia].
          assert (0 < 2 ^ e) by (apply Z.pow_pos_nonneg; destruct e; lia || done). nia. }
        unfold Qle_bool, Qabs in Habove. destruct q as [n d]. cbn [Qnum Qden] in *.
        apply Z.leb_gt in Habove.
        replace (Qle_bool (n # d) 1) with true
          by (symmetry; unfold Qle_bool; cbn [Qnum Qden]; apply Z.leb_le; lia).
        replace (Qle_bool (- (1)) (n # d)) with false
          by (symmetry; unfold Qle_bool; cbn [Qnum Qden Qopp]; apply Z.leb_gt; lia).
        reflexivity.
      * destruct (not_above_one m e Hv Hc) as [He Hm].
        destruct (unit_sample_near_truncation true m e He Hm) as (t & Ht & Hr & Hnear).
        unfold to_Q in Hq.
        replace (0 <=? e) with false in Hq by (symmetry; apply Z.leb_gt; lia).
        injection Hq as <-.
        exists t, (cond_Zopp true (Z.pos m) # Z.to_pos (2 ^ (- e))).
        split; [apply to_int16_small; [exact Ht | lia]|].
        split; [exact Hr|]. split; [|exact Hnear].
        assert (HD : 0 < 2 ^ (- e)) by (apply Z.pow_pos_nonneg; lia).
        f_equal. apply clamp_inside; unfold Qle_bool; cbn [Qnum Qden Qopp cond_Zopp];
          apply Z.leb_le; rewrite ?Z2Pos.id by done; lia.
    + destruct (SFltb (S754_finite false 8388608 (-23)) (S754_finite false m e)) eqn:Hc.
      * pose proof (above_one false m e q Hv Hc Hq) as Habove.
        exists 32767, 1%Q. split; [reflexivity|]. split; [lia|].
        split; [|left; reflexivity].
        f_equal.
        assert (Hpos : (0 < Qnum q)%Z).
        { unfold to_Q in Hq. destruct (0 <=? e); injection Hq as <-;
            cbn [inject_Z Qnum cond_Zopp]; [|lia].
          assert (0 < 2 ^ e) by (apply Z.pow_pos_nonneg; destruct e; lia || done). nia. }
        unfold Qle_bool, Qabs in Habove. destruct q as [n d]. cbn [Qnum Qden] in *.
        apply Z.leb_gt in Habove.
        replace (Qle_bool (n # d) 1) with false
          by (symmetry; unfold Qle_bool; cbn [Qnum Qden]; apply Z.leb_gt; lia).
        reflexivity.
      * change (SFltb (S754_finite false m e) (S754_finite true 8388608 (-23))) with false.
        cbv iota.
        destruct (not_above_one m e Hv Hc) as [He Hm].
        destruct (unit_sample_near_truncation false m e He Hm) as (t & Ht & Hr & Hnear).
        unfold to_Q in Hq.
        replace (0 <=? e) with false in Hq by (symmetry; apply Z.leb_gt; lia).
        injection Hq as <-.
        exists t, (cond_Zopp false (Z.pos m) # Z.to_pos (2 ^ (- e))).
        split; [apply to_int16_small; [exact Ht | lia]|].
        split; [exact Hr|]. split; [|exact Hnear].
        assert (HD : 0 < 2 ^ (- e)) by (apply Z.pow_pos_nonneg; lia).
        f_equal. apply clamp_inside; unfold Qle_bool; cbn [Qnum Qden Qopp cond_Zopp];
          apply Z.leb_le; rewrite ?Z2Pos.id by done; lia.
Qed.

(** ** The audio codec *)

(** A loop whose body stores [g j] at index [j] fills the indices it runs
    over and leaves the rest of the buffer alone. *)
Lemma for_loop_elementwise {B : Type} (body : Z -> list B -> option (list B))
    (g : Z -> B) (n : nat) :
  forall (i0 : Z) (out : list B),
    0 <= i0 -> i0 + Z.of_nat n <= Z.of_nat (length out) ->
    (forall j out1, i0 <= j < i0 + Z.of_nat n -> length out1 = length out ->
                    body j out1 = Some (<[Z.to_nat j := g j]> out1)) ->
    exists out',
      for_loop n i0 body out = Some out' /\ length out' = length out /\
      (forall j, i0 <= j < i0 + Z.of_nat n -> out' !! Z.to_nat j = Some (g j)) /\
      (forall k : nat, Z.of_nat k < i0 \/ i0 + Z.of_nat n <= Z.of_nat k ->
                       out' !! k = out !! k).
Proof.
  induction n as [|n IH]; intros i0 out Hi0 Hlen Hbody.
  - exists out. simpl. split; [done|]. split; [done|]. split; [lia | done].
  - simpl for_loop. rewrite (Hbody i0 out) by (done || lia).
    destruct (IH (i0 + 1) (<[Z.to_nat i0 := g i0]> out)) as (out' & Hrun & Hl & Hin & Hout).
    + lia.
    + rewrite length_insert. lia.
    + intros j out1 Hj Hl1. apply Hbody; [lia|]. rewrite Hl1. apply length_insert.
    + exists out'. rewrite length_insert in Hl.
      split; [done|]. split; [done|]. split.
      * intros j Hj. destruct (Z.eq_dec j i0) as [->|Hne].
        -- rewrite Hout by lia. apply list_lookup_insert_eq. lia.
        -- apply Hin. lia.
      * intros k Hk. rewrite Hout by lia. apply list_lookup_insert_ne. lia.
Qed.

Lemma load_some {A : Type} (buf : list A) (j : Z) :
  0 <= j < Z.of_nat (length buf) -> exists x, load buf j = Some x /\ buf !! Z.to_nat j = Some x.
Proof.
  intros Hj. unfold load. replace (0 <=? j) with true by (symmetry; apply Z.leb_le; lia).
  destruct (lookup_lt_is_Some_2 buf (Z.to_nat j)) as [x Hx]; [lia|]. eauto.
Qed.

Lemma store_some {A : Type} (buf : list A) (j : Z) (v : A) :
  0 <= j < Z.of_nat (length buf) -> store buf j v = Some (<[Z.to_nat j := v]> buf).
Proof.
  intros Hj. unfold store.
  replace (0 <=? j) with true by (symmetry; apply Z.leb_le; lia).
  replace (j <? Z.of_nat (length buf)) with true by (symmetry; apply Z.ltb_lt; lia).
  reflexivity.
Qed.

Lemma float_to_pcm16_run (fs : list float32) (out : list Z) (N : Z) :
  0 <= N -> N <= Z.of_nat (length fs) -> N <= Z.of_nat (length out) ->
  Forall is_sample (take (Z.to_nat N) fs) ->
  exists out',
    vad_float_to_pcm16 fs out N = Some out' /\ length out' = length out /\
    (forall (i : nat) x, Z.of_nat i < N -> fs !! i = Some x ->
       exists t, out' !! i = Some t /\ float_to_pcm16_sample x = Some t /\
                 -32767 <= t <= 32767) /\
    (forall k : nat, N <= Z.of_nat k -> out' !! k = out !! k).
Proof.
  intros HN Hfs Hout Hs. unfold vad_float_to_pcm16.
  destruct (for_loop_elementwise
              (fun i out => match load fs i with
                            | Some x => match float_to_pcm16_sample x with
                                        | Some v => store out i v
                                        | None => None
                                        end
                            | None => None
                            end)
              (pcm16_at fs) (Z.to_nat N) 0 out) as (out' & Hrun & Hl & Hin & Hfr).
  - lia.
  - lia.
  - intros j out1 Hj Hl1.
    destruct (load_some fs j) as (x & Hld & Hx); [lia|]. rewrite Hld.
    assert (Hsx : is_sample x).
    { rewrite Forall_lookup in Hs. apply (Hs (Z.to_nat j)).
      rewrite lookup_take_lt by lia. done. }
    destruct (float_to_pcm16_sample_defined x Hsx) as (t & Ht & _).
    rewrite Ht. unfold pcm16_at. rewrite Hx. simpl. rewrite Ht. simpl.
    apply store_some. lia.
  - exists out'. split; [done|]. split; [done|]. split.
    + intros i x Hi Hx.
      assert (Hsx : is_sample x).
      { rewrite Forall_lookup in Hs. apply (Hs i). rewrite lookup_take_lt by lia. done. }
      destruct (float_to_pcm16_sample_defined x Hsx) as (t & Ht & Hr).
      exists t. repeat split; try done; try lia.
      specialize (Hin (Z.of_nat i)). rewrite Nat2Z.id in Hin.
      rewrite Hin by lia. unfold pcm16_at. rewrite Nat2Z.id, Hx. simpl. rewrite Ht. done.
    + intros k Hk. apply Hfr. lia.
Qed.

Lemma pcm16_to_float_run (ps : list Z) (out : list float32) (N : Z) :
  0 <= N -> N <= Z.of_nat (length ps) -> N <= Z.of_nat (length out) ->
  exists out',
    vad_pcm16_to_float ps out N = Some out' /\ length out' = length out /\
    (forall (i : nat) z, Z.of_nat i < N -> ps !! i = Some z ->
       out' !! i = Some (pcm16_to_float_sample z)) /\
    (forall k : nat, N <= Z.of_nat k -> out' !! k = out !! k).
Proof.
  intros HN Hps Hout. unfold vad_pcm16_to_float.
  destruct (for_loop_elementwise
              (fun i out => match load ps i with
                            | Some x => store out i (pcm16_to_float_sample x)
                            | None => None
                            end)
              (fun j => pcm16_to_float_sample (default 0 (ps !! Z.to_nat j)))
              (Z.to_nat N) 0 out) as (out' & Hrun & Hl & Hin & Hfr).
  - lia.
  - lia.
  - intros j out1 Hj Hl1.
    destruct (load_some ps j) as (x & Hld & Hx); [lia|]. rewrite Hld, Hx. simpl.
    apply store_some. lia.
  - exists out'. split; [done|]. split; [done|]. split.
    + intros i z Hi Hz. specialize (Hin (Z.of_nat i)). rewrite Nat2Z.id in Hin.
      rewrite Hin by lia. rewrite Hz. done.
    + intros k Hk. apply Hfr. lia.
Qed.

Lemma all_from_spec (n : nat) :
  forall z p, all_from n z p = true ->
              forall x, z <= x < z + Z.of_nat n -> p x = true.
Proof.
  induction n as [|n IH]; intros z p H x Hx; [lia|].
  cbn [all_from] in H. apply andb_prop in H as [Hz Hr].
  destruct (Z.eq_dec x z) as [->|]; [done|]. apply (IH (z + 1)); [done | lia].
Qed.

Lemma all_int16_exact : all_from (256 * 256) (-32768) exact_quotient = true.
Proof. vm_compute. reflexivity. Qed.

(** Dividing a 16-bit sample by 32768.0 is exact. *)
Lemma pcm16_to_float_sample_exact (z : Z) :
  is_int16 z -> denotes (pcm16_to_float_sample z) (z # 32768).
Proof.
  intros Hz. pose proof (all_from_spec _ _ _ all_int16_exact z) as H.
  assert (Hx : exact_quotient z = true).
  { apply H. unfold is_int16 in Hz. change (Z.of_nat (256 * 256)) with 65536. lia. }
  unfold exact_quotient in Hx. unfold denotes.
  destruct (to_Q (pcm16_to_float_sample z)); [|discriminate].
  apply Qeq_bool_iff. done.
Qed.

Example half_scale : float_to_pcm16_sample (lit 5 10) = Some 16383.
Proof. reflexivity. Qed.

Example minus_half_scale : float_to_pcm16_sample (lit (-5) 10) = Some (-16383).
Proof. reflexivity. Qed.

Example infinities_clamp :
  float_to_pcm16_sample (S754_infinity false) = Some 32767 /\
  float_to_pcm16_sample (S754_infinity true) = Some (-32767).
Proof. split; reflexivity. Qed.

Example below_one_rounds_down :
  float_to_pcm16_sample (S754_finite false 16777215 (-24)) = Some 32766.
Proof. reflexivity. Qed.

Example nan_has_no_pcm16 : float_to_pcm16_sample S754_nan = None.
Proof. reflexivity. Qed.

Example full_scale_negative :
  pcm16_to_float_sample (-32768) = of_Z (-1).
Proof. reflexivity. Qed.

Example count_zero_writes_nothing :
  vad_float_to_pcm16 [lit 5 10] [7; 7] 0 = Some [7; 7] /\
  vad_float_to_pcm16 [lit 5 10] [7; 7] (-4) = Some [7; 7].
Proof. split; reflexivity. Qed.

(** The product of [12583296 * 2 ^ -37] with 32767 is
    [3 - 384 * 2 ^ -37]; in binary32 it rounds to 3.0. *)
Example product_rounds_up :
  valid (S754_finite false 12583296 (-37)) = true /\
  float_to_pcm16_sample (S754_finite false 12583296 (-37)) = Some 3 /\
  spec_float_to_pcm16 (S754_finite false 12583296 (-37)) = Some 2.
Proof. repeat split. Qed.

(** On that sample the function writes 3 where clamping, scaling by 32767
    and truncating toward zero gives 2. *)
Lemma exact_scaling_differs : ~ scales_exactly.
Proof.
  intros H. specialize (H (S754_finite false 12583296 (-37))).
  assert (Hs : is_sample (S754_finite false 12583296 (-37))) by (split; reflexivity).
  specialize (H Hs). vm_compute in H. discriminate H.
Qed.

(** C7, amended.  For every sample count [N >= 0] and input buffers holding
    at least [N] samples, the float samples being numbers (no NaN) and the
    PCM samples 16-bit: [vad_float_to_pcm16] returns having written, at
    each index below [N], an int16 [t] that is the sample clamped to
    [-1, 1] and scaled by 32767 exactly, truncated toward zero, or the
    next integer away from zero when the exact product is less than
    [1 / 512] short of it (the product being computed in binary32);
    [vad_pcm16_to_float] returns having written, at each index below [N],
    the float obtained by dividing the sample by 32768.0, which denotes
    exactly [z / 32768]; both leave every output cell from index [N] on
    as it was. *)
Theorem codec_is_elementwise
    (N : Z) (float_samples : list float32) (pcm16_samples : list Z)
    (pcm16_out : list Z) (float_out : list float32) :
  0 <= N ->
  N <= Z.of_nat (length float_samples) -> N <= Z.of_nat (length pcm16_out) ->
  N <= Z.of_nat (length pcm16_samples) -> N <= Z.of_nat (length float_out) ->
  Forall is_sample (take (Z.to_nat N) float_samples) ->
  Forall is_int16 (take (Z.to_nat N) pcm16_samples) ->
  (exists out',
     Stub.vad_float_to_pcm16 float_samples pcm16_out N = Some out' /\
     length out' = length pcm16_out /\
     (forall (i : nat) x, Z.of_nat i < N -> float_samples !! i = Some x ->
        exists t q, out' !! i = Some t /\ spec_clamp_unit x = Some q /\
                    near_truncation q t /\ is_int16 t) /\
     (forall k : nat, N <= Z.of_nat k -> out' !! k = pcm16_out !! k)) /\
  (exists out',
     Jni.vad_pcm16_to_float pcm16_samples float_out N = Some out' /\
     length out' = length float_out /\
     (forall (i : nat) z, Z.of_nat i < N -> pcm16_samples !! i = Some z ->
        out' !! i = Some (div (of_Z z) (of_Z 32768)) /\
        denotes (div (of_Z z) (of_Z 32768)) (z # 32768)) /\
     (forall k : nat, N <= Z.of_nat k -> out' !! k = float_out !! k)).
Proof.
  intros HN Hfs Hpo Hps Hfo Hsample Hint. split.
  - destruct (float_to_pcm16_run float_samples pcm16_out N HN Hfs Hpo Hsample)
      as (out' & Hrun & Hlen & Hin & Hfr).
    exists out'. split; [done|]. split; [done|]. split; [|done].
    intros i x Hi Hx. destruct (Hin i x Hi Hx) as (t & Ht & Hcode & _).
    assert (Hsx : is_sample x).
    { rewrite Forall_lookup in Hsample. apply (Hsample i).
      rewrite lookup_take_lt by lia. done. }
    destruct (float_to_pcm16_sample_spec x Hsx) as (t' & q & Hcode' & Hr & Hq & Hnear).
    assert (t' = t) as -> by congruence.
    exists t, q. split; [done|]. split; [done|]. split; [done|]. unfold is_int16. lia.
  - destruct (pcm16_to_float_run pcm16_samples float_out N HN Hps Hfo)
      as (out' & Hrun & Hlen & Hin & Hfr).
    exists out'. split; [done|]. split; [done|]. split; [|done].
    intros i z Hi Hz. split; [apply (Hin i z Hi Hz)|].
    apply pcm16_to_float_sample_exact.
    rewrite Forall_lookup in Hint. apply (Hint i). rewrite lookup_take_lt by lia. done.
Qed.

Lemma codec_is_elementwise_witness :
  Stub.vad_float_to_pcm16
    [lit 1 4; of_Z (-3); S754_infinity false; S754_finite false 12583296 (-37)]
    [7; 7; 7; 7; 7] 4
  = Some [8191; -32767; 32767; 3; 7] /\
  (exists q, spec_clamp_unit (lit 1 4) = Some q /\ near_truncation q 8191) /\
  (exists q, spec_clamp_unit (S754_finite false 12583296 (-37)) = Some q /\
             near_truncation q 3) /\
  (exists out',
     Jni.vad_pcm16_to_float [-32768; 0; 12345] [S754_nan; S754_nan; S754_nan; S754_nan] 3
     = Some out' /\
     length out' = 4%nat /\ out' !! 3%nat = Some S754_nan).
Proof.
  destruct (codec_is_elementwise 4
              [lit 1 4; of_Z (-3); S754_infinity false; S754_finite false 12583296 (-37)]
              [-32768; 0; 12345; 1]
              [7; 7; 7; 7; 7] [S754_nan; S754_nan; S754_nan; S754_nan])
    as [(o1 & H1 & L1 & V1 & F1) _].
  - lia.
  - simpl; lia.
  - simpl; lia.
  - simpl; lia.
  - simpl; lia.
  - repeat constructor.
  - repeat constructor; unfold is_int16; lia.
  - destruct (codec_is_elementwise 3
                [lit 1 4; of_Z (-3); S754_infinity false] [-32768; 0; 12345]
                [7; 7; 7; 7] [S754_nan; S754_nan; S754_nan; S754_nan])
      as [_ (o2 & H2 & L2 & _ & F2)].
    + lia.
    + simpl; lia.
    + simpl; lia.
    + simpl; lia.
    + simpl; lia.
    + repeat constructor.
    + repeat constructor; unfold is_int16; lia.
    + assert (Ho1 : o1 = [8191; -32767; 32767; 3; 7]).
      { vm_compute in H1. injection H1 as <-. reflexivity. }
      subst o1. split; [exact H1|]. split; [|split].
      * destruct (V1 0%nat (lit 1 4) ltac:(lia) eq_refl) as (t & q & Ht & Hq & Hn & _).
        injection Ht as <-. exists q. split; [exact Hq | exact Hn].
      * destruct (V1 3%nat (S754_finite false 12583296 (-37)) ltac:(lia) eq_refl)
          as (t & q & Ht & Hq & Hn & _).
        injection Ht as <-. exists q. split; [exact Hq | exact Hn].
      * exists o2. split; [exact H2|]. split; [exact L2|]. apply (F2 3%nat). lia.
Defined.

(** C8.  Running [vad_float_to_pcm16] and then [vad_pcm16_to_float] over any
    buffer of samples that are numbers: wherever the input holds 0.5 the
    PCM value is 16383 and the float that comes back is 16383/32768, within
    0.0001 of 0.4999; wherever it holds 1.5 the PCM value is the clamped
    32767 and the float that comes back is 32767/32768, within 0.00001 of
    0.99997; wherever it holds -2.0 the PCM value is the clamped -32767. *)
Theorem round_trip_examples
    (N : Z) (float_samples : list float32) (pcm16_buf : list Z)
    (float_buf : list float32) :
  0 <= N ->
  N <= Z.of_nat (length float_samples) -> N <= Z.of_nat (length pcm16_buf) ->
  N <= Z.of_nat (length float_buf) ->
  Forall is_sample (take (Z.to_nat N) float_samples) ->
  exists pcm floats,
    vad_float_to_pcm16 float_samples pcm16_buf N = Some pcm /\
    vad_pcm16_to_float pcm float_buf N = Some floats /\
    forall i : nat, Z.of_nat i < N ->
      (float_samples !! i = Some (lit 5 10) ->
       pcm !! i = Some 16383 /\
       exists v, floats !! i = Some v /\ denotes v (16383 # 32768) /\
                 near v (4999 # 10000) (1 # 10000)) /\
      (float_samples !! i = Some (lit 15 10) ->
       pcm !! i = Some 32767 /\
       exists v, floats !! i = Some v /\ denotes v (32767 # 32768) /\
                 near v (99997 # 100000) (1 # 100000)) /\
      (float_samples !! i = Some (of_Z (-2)) -> pcm !! i = Some (-32767)).
Proof.
  intros HN Hfs Hpb Hfb Hsample.
  destruct (float_to_pcm16_run float_samples pcm16_buf N HN Hfs Hpb Hsample)
    as (pcm & Hrun & Hlen & Hin & _).
  destruct (pcm16_to_float_run pcm float_buf N HN) as (floats & Hrun' & _ & Hin' & _);
    [rewrite Hlen; done | done |].
  exists pcm, floats. split; [done|]. split; [done|].
  intros i Hi. split; [|split]; intros Hx;
    destruct (Hin i _ Hi Hx) as (t & Ht & Hs & _);
    vm_compute in Hs; injection Hs as <-.
  - split; [done|]. eexists. split; [apply (Hin' i _ Hi Ht)|].
    split; [vm_compute; reflexivity | vm_compute; discriminate].
  - split; [done|]. eexists. split; [apply (Hin' i _ Hi Ht)|].
    split; [vm_compute; reflexivity | vm_compute; discriminate].
  - done.
Qed.

Lemma round_trip_examples_witness :
  exists pcm floats,
    vad_float_to_pcm16 [lit 5 10; lit 15 10; of_Z (-2)] [0; 0; 0] 3 = Some pcm /\
    vad_pcm16_to_float pcm [S754_nan; S754_nan; S754_nan] 3 = Some floats /\
    pcm !! 0%nat = Some 16383 /\ pcm !! 1%nat = Some 32767 /\
    pcm !! 2%nat = Some (-32767).
Proof.
  destruct (round_trip_examples 3 [lit 5 10; lit 15 10; of_Z (-2)] [0; 0; 0]
              [S754_nan; S754_nan; S754_nan])
    as (pcm & floats & H1 & H2 & H).
  - lia.
  - simpl; lia.
  - simpl; lia.
  - simpl; lia.
  - repeat constructor.
  - exists pcm, floats. split; [exact H1|]. split; [exact H2|].
    split; [|split].
    + apply (H 0%nat); [lia | reflexivity].
    + apply (H 1%nat); [lia | reflexivity].
    + apply (H 2%nat); [lia | reflexivity].
Defined.

(** ** The stub build and the default configuration *)

(** C5.  In the stub build [vad_init], [vad_start] and [vad_process_audio]
    return -100, the code reserved for "platform/engine unavailable",
    whatever handle, configuration, model path and sample buffer they are
    given. *)
Theorem stub_reports_platform_unavailable
    (handle : Z) (config : option (VADConfig bool)) (model_path : option (list byte))
    (samples : option (list float32)) (sample_count : Z) :
  Stub.vad_init handle config model_path = -100 /\
  Stub.vad_start handle = -100 /\
  Stub.vad_process_audio handle samples sample_count = -100.
Proof. repeat split. Qed.

(** C6.  Given a non-null output location, whatever it held before,
    [vad_config_default] leaves in it positive_speech_threshold = 0.5f,
    negative_speech_threshold = 0.35f (the binary32 value nearest to 0.35),
    pre_speech_pad_frames = 3, redemption_frames = 24, min_speech_frames = 9,
    sample_rate = 16000, frame_samples = 512, end_speech_pad_frames = 3 and
    a debug flag that reads as false; the stub build and the JNI build
    write the same values. *)
Theorem config_default_values (stub_before : VADConfig bool) (jni_before : VADConfig Z) :
  Stub.vad_config_default (Some stub_before)
  = Some (mkVADConfig (lit 5 10) (lit 35 100) 3 24 9 16000 512 3 false) /\
  Jni.vad_config_default (Some jni_before)
  = Some (mkVADConfig (lit 5 10) (lit 35 100) 3 24 9 16000 512 3 0) /\
  Jni.debug_enabled (mkVADConfig (lit 5 10) (lit 35 100) 3 24 9 16000 512 3 0) = false /\
  denotes (lit 5 10) (1 # 2) /\
  near (lit 35 100) (35 # 100) (1 # 2 ^ 26).
Proof.
  split; [reflexivity|]. split; [reflexivity|]. split; [reflexivity|].
  split; [vm_compute; reflexivity | vm_compute; discriminate].
Qed.

(** ** The dispatch bridge *)

Section BridgeProperties.
Import Jni.

Lemma bind_some {A B : Type} (m : Bridge A) (k : A -> Bridge B) w a w' :
  m w = Some (a, w') -> bind m k w = k a w'.
Proof. unfold bind. intros ->. reflexivity. Qed.

Lemma update_event_some p f w e :
  heap (mem w) !! p = Some (EventRecord e) ->
  update_event p f w
  = Some (tt, mkWorld (mkMem (<[p := EventRecord (f e)]> (heap (mem w))) (brk (mem w)))
                      (calls w)).
Proof. unfold update_event. intros ->. reflexivity. Qed.

Lemma alloc_some b w :
  alloc b w = Some (brk (mem w),
                    mkWorld (mkMem (<[brk (mem w) := b]> (heap (mem w))) (brk (mem w) + 1))
                            (calls w)).
Proof. reflexivity. Qed.

Lemma memcpy_int16_some dst src n w a :
  heap (mem w) !! dst = Some (Int16Array a) ->
  Z.of_nat (length a) = n -> n <= Z.of_nat (length src) ->
  memcpy_int16 dst (Some src) n w
  = Some (tt, mkWorld (mkMem (<[dst := Int16Array (take (Z.to_nat n) src)]> (heap (mem w)))
                             (brk (mem w))) (calls w)).
Proof.
  unfold memcpy_int16. intros -> Ha Hn.
  apply Z.eqb_eq in Ha. apply Z.leb_le in Hn. rewrite Ha, Hn. reflexivity.
Qed.

Ltac bridge_alloc := erewrite bind_some by apply alloc_some; simpl.
Ltac bridge_update :=
  erewrite bind_some by (apply update_event_some; simpl; apply lookup_insert_eq);
  simpl; rewrite ?insert_insert_eq.

(** C1.  A delivery made with an absent callback (a null callback pointer)
    returns at once, for every kind of event and whatever its arguments: no
    callback has been invoked, and native memory is as it was on entry, so
    no audio copy, message copy or event record is left allocated. *)
Theorem absent_callback_drops_event callee userDataPtr d w :
  exists w',
    deliver callee 0 userDataPtr d w = Some (tt, w') /\
    calls w' = calls w /\
    heap (mem w') = heap (mem w) /\
    brk (mem w') = brk (mem w).
Proof. exists w. destruct d; repeat split. Qed.

(** With a callback that releases nothing, the event record of a plain
    event is still allocated when [nativeSendEvent] returns. *)
Lemma event_record_outlives_delivery : ~ frees_event_record_before_return.
Proof.
  intros H.
  assert (Hrun : deliver reading_callee 77 5 (SendEvent 1) empty_world
                 = Some (tt, mkWorld (mkMem (<[1 := EventRecord (set_type 1 zeroed_event)]> ∅) 2)
                                     [mkCall 77 1 5])).
  { unfold deliver, nativeSendEvent. simpl. bridge_alloc. bridge_update. reflexivity. }
  specialize (H reading_callee 77 5 (SendEvent 1) empty_world _ ltac:(lia) Hrun
                (mkCall 77 1 5) ltac:(apply list_elem_of_here)).
  simpl in H. rewrite lookup_insert_eq in H. discriminate H.
Qed.

(** C3, amended.  A well-formed delivery made with a callback present builds
    a fresh event record (with, for SpeechEnd and Error, a fresh copy of the
    audio or of the message), invokes the callback exactly once on it, and
    returns as soon as the callback does: native memory at return is what
    the callback left of the memory it was called in, the bridge having
    released nothing, neither before the call nor after it. *)
Theorem delivery_hands_over_without_release callee callbackPtr userDataPtr d w :
  callbackPtr <> 0 -> well_formed d ->
  exists m_pre event e,
    deliver callee callbackPtr userDataPtr d w
    = Some (tt, mkWorld (callee callbackPtr event userDataPtr m_pre)
                        (calls w ++ [mkCall callbackPtr event userDataPtr])) /\
    heap m_pre !! event = Some (EventRecord e) /\
    type e = kind d /\
    payload_staged d e m_pre /\
    (forall p b, p < brk (mem w) -> heap (mem w) !! p = Some b ->
                 heap m_pre !! p = Some b).
Proof.
  intros Hcb Hwf. apply Z.eqb_neq in Hcb.
  destruct w as [[h b] cs].
  destruct d as [ty | prob sp fl | audio len dur | msg code];
    unfold deliver, nativeSendEvent, nativeSendFrameEvent,
      nativeSendSpeechEndEvent, nativeSendErrorEvent; rewrite Hcb.
  - bridge_alloc. bridge_update. unfold invoke; simpl.
    eexists _, _, _. split; [reflexivity|]. simpl.
    split; [apply lookup_insert_eq|]. split; [reflexivity|]. split; [exact I|].
    intros p b' Hp Hb. rewrite lookup_insert_ne by lia. done.
  - bridge_alloc. do 4 bridge_update. unfold invoke; simpl.
    eexists _, _, _. split; [reflexivity|]. simpl.
    split; [apply lookup_insert_eq|]. split; [reflexivity|].
    split; [repeat split|].
    intros p b' Hp Hb. rewrite lookup_insert_ne by lia. done.
  - simpl in Hwf. destruct audio as [elements|]; [|done]. destruct Hwf as [H0 Hlen].
    replace (0 <=? len) with true by (symmetry; apply Z.leb_le; done).
    bridge_alloc.
    erewrite bind_some
      by (apply memcpy_int16_some with (a := replicate (Z.to_nat len) 0); simpl;
          [apply lookup_insert_eq | rewrite length_replicate; apply Z2Nat.id; done | done]).
    simpl. rewrite insert_insert_eq.
    bridge_alloc. do 4 bridge_update. unfold invoke; simpl.
    eexists _, _, _. split; [reflexivity|]. simpl.
    split; [apply lookup_insert_eq|]. split; [reflexivity|].
    split.
    + split; [|split; reflexivity].
      change (speech_end_audio_data _) with b.
      rewrite lookup_insert_ne by lia. apply lookup_insert_eq.
    + intros p b' Hp Hb. rewrite !lookup_insert_ne by lia. done.
  - simpl in Hwf. destruct msg as [chars|]; [|done]. unfold strdup.
    bridge_alloc. bridge_alloc. do 3 bridge_update. unfold invoke; simpl.
    eexists _, _, _. split; [reflexivity|]. simpl.
    split; [apply lookup_insert_eq|]. split; [reflexivity|].
    split.
    + split; [|reflexivity].
      change (error_message _) with b.
      rewrite lookup_insert_ne by lia. apply lookup_insert_eq.
    + intros p b' Hp Hb. rewrite !lookup_insert_ne by lia. done.
Qed.

Lemma delivery_hands_over_without_release_witness :
  exists m_pre event e,
    deliver reading_callee 77 5 (SendSpeechEndEvent (Some [1; 2; 3]) 2 40) empty_world
    = Some (tt, mkWorld (reading_callee 77 event 5 m_pre)
                        (calls empty_world ++ [mkCall 77 event 5])) /\
    heap m_pre !! event = Some (EventRecord e) /\
    type e = kind (SendSpeechEndEvent (Some [1; 2; 3]) 2 40) /\
    payload_staged (SendSpeechEndEvent (Some [1; 2; 3]) 2 40) e m_pre /\
    (forall p b, p < brk (mem empty_world) -> heap (mem empty_world) !! p = Some b ->
                 heap m_pre !! p = Some b).
Proof.
  apply (delivery_hands_over_without_release reading_callee 77 5
           (SendSpeechEndEvent (Some [1; 2; 3]) 2 40) empty_world).
  - lia.
  - simpl. lia.
Defined.

End BridgeProperties.

(** ** [vad_get_last_error] *)

Section LastError.
Import Jni.

Lemma length_strncpy_bytes (src : list byte) (n : nat) :
  length (strncpy_bytes src n) = n.
Proof.
  revert src. induction n as [|n IH]; intros src; [reflexivity|].
  cbn [strncpy_bytes]. destruct src as [|c src].
  - apply length_replicate.
  - destruct (Byte.eqb c x00); [apply length_replicate|].
    cbn [length]. rewrite IH. reflexivity.
Qed.

Lemma cstring_replicate_nul (n : nat) (rest : list byte) :
  cstring (replicate n x00 ++ x00 :: rest) = [].
Proof. destruct n; reflexivity. Qed.

Lemma cstring_strncpy_bytes (src : list byte) (n : nat) (rest : list byte) :
  cstring (strncpy_bytes src n ++ x00 :: rest) = take n (cstring src).
Proof.
  revert src. induction n as [|n IH]; intros src; [reflexivity|].
  cbn [strncpy_bytes]. destruct src as [|c src].
  - apply cstring_replicate_nul.
  - cbn [cstring]. destruct (Byte.eqb c x00) eqn:Hc.
    + apply cstring_replicate_nul.
    + cbn [app cstring take]. rewrite Hc, IH. reflexivity.
Qed.

(** The buffer after the copy and the store of the terminator. *)
Lemma copied_buffer (buffer message : list byte) :
  length buffer = buffer_size ->
  <[(buffer_size - 1)%nat := x00]> (strncpy buffer message (buffer_size - 1))
  = strncpy_bytes message (buffer_size - 1) ++ [x00].
Proof.
  intros Hlen. unfold strncpy.
  rewrite insert_app_r_alt by (rewrite length_strncpy_bytes; lia).
  rewrite length_strncpy_bytes, Nat.sub_diag.
  f_equal.
  assert (Hd : length (drop (buffer_size - 1) buffer) = 1%nat).
  { rewrite length_drop, Hlen. reflexivity. }
  destruct (drop (buffer_size - 1) buffer) as [|b [|b' l]]; try discriminate Hd.
  reflexivity.
Qed.

Lemma get_last_error_copies vm handle buffer message :
  length buffer = buffer_size ->
  reaches_message vm handle message ->
  vad_get_last_error vm handle buffer
  = (LastErrorBuffer, strncpy_bytes message (buffer_size - 1) ++ [x00]).
Proof.
  intros Hlen (Hh & Henv & obj & Hobj & Hcls & Hmid & Hcall).
  unfold vad_get_last_error.
  apply Z.eqb_neq in Hh. rewrite Hh, Henv, Hobj, Hcls, Hmid, Hcall. cbn [negb utf_chars].
  rewrite copied_buffer by done. reflexivity.
Qed.

Lemma get_last_error_not_null vm handle buffer :
  (vad_get_last_error vm handle buffer).1 <> NullStr.
Proof.
  unfold vad_get_last_error.
  destruct (handle =? 0); [discriminate|].
  destruct (negb (getEnv vm)); [discriminate|].
  destruct (getHandle vm handle) as [obj|]; [|discriminate].
  destruct (GetObjectClass obj) as [[?|]|]; try discriminate.
  destruct (GetMethodID_getLastError obj) as [[?|]|]; try discriminate.
  destruct (Call_getLastError obj) as [[js|]|]; try discriminate.
  destruct (utf_chars js); discriminate.
Qed.

Lemma get_last_error_cases vm handle buffer :
  (exists s, s ∈ placeholders /\ vad_get_last_error vm handle buffer = (Literal s, buffer)) \/
  vad_get_last_error vm handle buffer = (Literal EmptyString, buffer) \/
  (vad_get_last_error vm handle buffer).1 = LastErrorBuffer.
Proof.
  unfold vad_get_last_error, placeholders.
  destruct (handle =? 0); [left; eexists; split; [|reflexivity]; set_solver|].
  destruct (negb (getEnv vm)); [left; eexists; split; [|reflexivity]; set_solver|].
  destruct (getHandle vm handle) as [obj|];
    [|left; eexists; split; [|reflexivity]; set_solver].
  destruct (GetObjectClass obj) as [[?|]|];
    try (left; eexists; split; [|reflexivity]; set_solver).
  destruct (GetMethodID_getLastError obj) as [[?|]|];
    try (left; eexists; split; [|reflexivity]; set_solver).
  destruct (Call_getLastError obj) as [[js|]|];
    try (left; eexists; split; [|reflexivity]; set_solver).
  - right; right. destruct (utf_chars js); reflexivity.
  - right; left. reflexivity.
Qed.

End LastError.

(** A session whose message is 1024 bytes long: the string returned has
    1023 of them. *)
Lemma long_message_is_cut : ~ Jni.returns_stored_message.
Proof.
  intros H.
  specialize (H (Jni.vm_with (fun _ => Some (Jni.session_with (Some Jni.long_message))))
                1 Jni.initial_buffer Jni.long_message).
  assert (Hlen : length Jni.initial_buffer = Jni.buffer_size) by reflexivity.
  assert (Hr : Jni.reaches_message
                 (Jni.vm_with (fun _ => Some (Jni.session_with (Some Jni.long_message))))
                 1 Jni.long_message).
  { split; [lia|]. split; [reflexivity|]. eexists. repeat split. }
  specialize (H Hlen Hr).
  rewrite (get_last_error_copies _ _ _ _ Hlen Hr) in H. cbn [fst snd read_str] in H.
  rewrite cstring_strncpy_bytes in H.
  injection H as H. apply (f_equal length) in H.
  vm_compute in H. discriminate H.
Qed.

(** C4, amended.  For every handle, [vad_get_last_error] returns a pointer
    that is not null.  The stub build answers its fixed message.  The JNI
    build answers "Invalid handle" for the null handle, "JNI error" when
    the host runtime cannot be reached, "Handle not found" when the
    registry has no session for the handle, "Failed to get handle class"
    when the class of the session object cannot be obtained, "Method not
    found" when [getLastError] cannot be looked up, "Exception getting
    error" when [getLastError] throws, and the empty string when the
    session has no message, leaving [g_lastErrorBuffer] as it was in all
    these cases.  When the session has a message it answers
    [g_lastErrorBuffer], which then reads as the empty string if the VM
    cannot provide the characters of the message, and as the message cut
    to its first 1023 bytes otherwise. *)
Theorem get_last_error_never_null (vm : Jni.VM) (handle : Z) (buffer : list byte) :
  length buffer = Jni.buffer_size ->
  (Jni.vad_get_last_error vm handle buffer).1 <> NullStr /\
  Stub.vad_get_last_error handle = Literal Stub.stub_error /\
  (handle = 0 ->
   Jni.vad_get_last_error vm handle buffer = (Literal "Invalid handle", buffer)) /\
  (handle <> 0 -> Jni.getEnv vm = false ->
   Jni.vad_get_last_error vm handle buffer = (Literal "JNI error", buffer)) /\
  (handle <> 0 -> Jni.getEnv vm = true -> Jni.getHandle vm handle = None ->
   Jni.vad_get_last_error vm handle buffer = (Literal "Handle not found", buffer)) /\
  (forall handleObj, Jni.reaches_session vm handle handleObj ->
     (Jni.fails (Jni.GetObjectClass handleObj) ->
      Jni.vad_get_last_error vm handle buffer
      = (Literal "Failed to get handle class", buffer)) /\
     (Jni.GetObjectClass handleObj = Jni.Returned (Some tt) ->
      Jni.fails (Jni.GetMethodID_getLastError handleObj) ->
      Jni.vad_get_last_error vm handle buffer = (Literal "Method not found", buffer)) /\
     (Jni.GetObjectClass handleObj = Jni.Returned (Some tt) ->
      Jni.GetMethodID_getLastError handleObj = Jni.Returned (Some tt) ->
      Jni.Call_getLastError handleObj = Jni.Threw ->
      Jni.vad_get_last_error vm handle buffer
      = (Literal "Exception getting error", buffer)) /\
     (Jni.GetObjectClass handleObj = Jni.Returned (Some tt) ->
      Jni.GetMethodID_getLastError handleObj = Jni.Returned (Some tt) ->
      forall errorStr,
        Jni.Call_getLastError handleObj = Jni.Returned (Some errorStr) ->
        Jni.utf_chars errorStr = None ->
        Jni.vad_get_last_error vm handle buffer
        = (LastErrorBuffer, <[0%nat := x00]> buffer) /\
        read_str LastErrorBuffer (<[0%nat := x00]> buffer) = Some [])) /\
  (Jni.reaches_no_message vm handle ->
   Jni.vad_get_last_error vm handle buffer = (Literal EmptyString, buffer)) /\
  (forall message, Jni.reaches_message vm handle message ->
     (Jni.vad_get_last_error vm handle buffer).1 = LastErrorBuffer /\
     read_str (Jni.vad_get_last_error vm handle buffer).1
              (Jni.vad_get_last_error vm handle buffer).2
     = Some (take (Jni.buffer_size - 1) (cstring message))) /\
  ((exists s, s ∈ Jni.placeholders /\
              Jni.vad_get_last_error vm handle buffer = (Literal s, buffer)) \/
   Jni.vad_get_last_error vm handle buffer = (Literal EmptyString, buffer) \/
   (Jni.vad_get_last_error vm handle buffer).1 = LastErrorBuffer).
Proof.
  intros Hlen.
  split; [apply get_last_error_not_null|].
  split; [reflexivity|].
  split.
  { intros ->. reflexivity. }
  split.
  { intros Hh Henv. unfold Jni.vad_get_last_error.
    apply Z.eqb_neq in Hh. rewrite Hh, Henv. reflexivity. }
  split.
  { intros Hh Henv Hobj. unfold Jni.vad_get_last_error.
    apply Z.eqb_neq in Hh. rewrite Hh, Henv, Hobj. reflexivity. }
  split.
  { intros obj (Hh & Henv & Hobj). apply Z.eqb_neq in Hh.
    unfold Jni.vad_get_last_error. rewrite Hh, Henv, Hobj. cbn [negb].
    split; [|split; [|split]].
    - intros Hf. destruct (Jni.GetObjectClass obj) as [[?|]|]; [destruct Hf | done | done].
    - intros -> Hf.
      destruct (Jni.GetMethodID_getLastError obj) as [[?|]|]; [destruct Hf | done | done].
    - intros -> -> ->. reflexivity.
    - intros -> -> js -> ->. split; [reflexivity|].
      cbn [read_str]. destruct buffer as [|c buffer]; [discriminate Hlen | reflexivity]. }
  split.
  { intros (Hh & Henv & obj & Hobj & Hcls & Hmid & Hcall).
    unfold Jni.vad_get_last_error.
    apply Z.eqb_neq in Hh. rewrite Hh, Henv, Hobj, Hcls, Hmid, Hcall. reflexivity. }
  split.
  { intros message Hr. rewrite (get_last_error_copies _ _ _ _ Hlen Hr).
    cbn [fst snd read_str]. rewrite cstring_strncpy_bytes. done. }
  apply get_last_error_cases.
Qed.

Lemma get_last_error_never_null_witness :
  (Jni.vad_get_last_error Jni.vm_unreachable 7 Jni.initial_buffer).1 <> NullStr /\
  Jni.vad_get_last_error Jni.vm_unreachable 7 Jni.initial_buffer
  = (Literal "JNI error", Jni.initial_buffer) /\
  Jni.vad_get_last_error
    (Jni.vm_with (fun _ => Some (Jni.mkHandleObject (Jni.Returned (Some tt)) Jni.Threw
                                   (Jni.Returned None))))
    7 (Jni.strncpy_bytes (list_byte_of_string "stale") 1023 ++ [x00])
  = (Literal "Method not found",
     Jni.strncpy_bytes (list_byte_of_string "stale") 1023 ++ [x00]) /\
  read_str
    (Jni.vad_get_last_error
       (Jni.vm_with (fun _ => Some (Jni.session_with (Some (list_byte_of_string "busy")))))
       7 Jni.initial_buffer).1
    (Jni.vad_get_last_error
       (Jni.vm_with (fun _ => Some (Jni.session_with (Some (list_byte_of_string "busy")))))
       7 Jni.initial_buffer).2
  = Some (list_byte_of_string "busy").
Proof.
  pose proof (get_last_error_never_null Jni.vm_unreachable 7 Jni.initial_buffer eq_refl)
    as (Hnn & _ & _ & Henv & _).
  split; [exact Hnn|]. split; [apply Henv; [lia | reflexivity]|].
  split.
  - pose proof (get_last_error_never_null
                  (Jni.vm_with (fun _ => Some (Jni.mkHandleObject
                                                 (Jni.Returned (Some tt)) Jni.Threw
                                                 (Jni.Returned None))))
                  7 (Jni.strncpy_bytes (list_byte_of_string "stale") 1023 ++ [x00])
                  eq_refl)
      as (_ & _ & _ & _ & _ & Hobj & _).
    destruct (Hobj (Jni.mkHandleObject (Jni.Returned (Some tt)) Jni.Threw
                      (Jni.Returned None))) as (_ & Hmid & _).
    + split; [lia|]. split; reflexivity.
    + apply Hmid; [reflexivity | exact I].
  - pose proof (get_last_error_never_null
                  (Jni.vm_with (fun _ => Some (Jni.session_with
                                                 (Some (list_byte_of_string "busy")))))
                  7 Jni.initial_buffer eq_refl)
      as (_ & _ & _ & _ & _ & _ & _ & Hmsg & _).
    apply (Hmsg (list_byte_of_string "busy")).
    split; [lia|]. split; [reflexivity|]. eexists. repeat split.
Defined.

Example unknown_handle_message :
  Jni.vad_get_last_error (Jni.vm_with (fun _ => None)) 42 Jni.initial_buffer
  = (Literal "Handle not found", Jni.initial_buffer).
Proof. reflexivity. Qed.

Example session_without_message :
  Jni.vad_get_last_error (Jni.vm_with (fun _ => Some (Jni.session_with None))) 42
    Jni.initial_buffer
  = (Literal EmptyString, Jni.initial_buffer).
Proof. reflexivity. Qed.

(** C10.  A call of [vad_get_last_error] that reaches a session and obtains
    its message returns the address of [g_lastErrorBuffer], after copying
    at most 1023 bytes of the message into it and terminating it with a
    NUL, so that it reads as the message cut to 1023 bytes.  A later such
    call, for the same or any other handle, returns the same address, and
    what is read through the pointer returned first is then the later
    message. *)
Theorem last_error_buffer_is_shared
    (vm1 vm2 : Jni.VM) (handle1 handle2 : Z) (message1 message2 buffer : list byte) :
  length buffer = Jni.buffer_size ->
  Jni.reaches_message vm1 handle1 message1 ->
  Jni.reaches_message vm2 handle2 message2 ->
  let first := Jni.vad_get_last_error vm1 handle1 buffer in
  let second := Jni.vad_get_last_error vm2 handle2 first.2 in
  first.1 = LastErrorBuffer /\
  first.2 = Jni.strncpy_bytes message1 (Jni.buffer_size - 1) ++ [x00] /\
  length first.2 = Jni.buffer_size /\
  first.2 !! (Jni.buffer_size - 1)%nat = Some x00 /\
  read_str first.1 first.2 = Some (take (Jni.buffer_size - 1) (cstring message1)) /\
  second.1 = LastErrorBuffer /\
  read_str first.1 second.2 = Some (take (Jni.buffer_size - 1) (cstring message2)).
Proof.
  intros Hlen Hr1 Hr2 first second. subst first second.
  rewrite (get_last_error_copies _ _ _ _ Hlen Hr1). cbn [fst snd].
  assert (Hlen1 : length (Jni.strncpy_bytes message1 (Jni.buffer_size - 1) ++ [x00])
                  = Jni.buffer_size).
  { rewrite length_app, length_strncpy_bytes. reflexivity. }
  rewrite (get_last_error_copies _ _ _ _ Hlen1 Hr2). cbn [fst snd read_str].
  rewrite !cstring_strncpy_bytes.
  repeat split; try done.
  rewrite lookup_app_r by (rewrite length_strncpy_bytes; lia).
  rewrite length_strncpy_bytes, Nat.sub_diag. reflexivity.
Qed.

Lemma last_error_buffer_is_shared_witness :
  let vm1 := Jni.vm_with (fun _ => Some (Jni.session_with (Some (list_byte_of_string "first")))) in
  let vm2 := Jni.vm_with (fun _ => Some (Jni.session_with (Some (list_byte_of_string "second")))) in
  let first := Jni.vad_get_last_error vm1 1 Jni.initial_buffer in
  let second := Jni.vad_get_last_error vm2 2 first.2 in
  read_str first.1 first.2 = Some (list_byte_of_string "first") /\
  read_str first.1 second.2 = Some (list_byte_of_string "second").
Proof.
  intros vm1 vm2 first second.
  assert (Hr1 : Jni.reaches_message vm1 1 (list_byte_of_string "first")).
  { split; [lia|]. split; [reflexivity|]. eexists. repeat split. }
  assert (Hr2 : Jni.reaches_message vm2 2 (list_byte_of_string "second")).
  { split; [lia|]. split; [reflexivity|]. eexists. repeat split. }
  pose proof (last_error_buffer_is_shared vm1 vm2 1 2 _ _ Jni.initial_buffer
                eq_refl Hr1 Hr2) as (_ & _ & _ & _ & H1 & _ & H2).
  split; [exact H1 | exact H2].
Defined.

(** ** The handles [vad_create] returns *)







(* ===================================================================== *)
(** * Further properties of the code *)
(* ===================================================================== *)

(** ** The codec in both directions *)

Section CodecRoundTrip.
Import RoundTrip.

Lemma all_int16_step : all_from (256 * 256) (-32768) steps_toward_zero = true.
Proof. vm_compute. reflexivity. Qed.

(** One 16-bit sample through [vad_pcm16_to_float] and back. *)
Lemma pcm16_sample_round_trip (z : Z) :
  is_int16 z ->
  is_sample (pcm16_to_float_sample z) /\
  float_to_pcm16_sample (pcm16_to_float_sample z) = Some (z - Z.sgn z).
Proof.
  intros Hz. pose proof (all_from_spec _ _ _ all_int16_step z) as H.
  assert (Hx : steps_toward_zero z = true).
  { apply H. unfold is_int16 in Hz. change (Z.of_nat (256 * 256)) with 65536. lia. }
  unfold steps_toward_zero in Hx. cbv zeta in Hx.
  apply andb_prop in Hx as [Hx Ht]. apply andb_prop in Hx as [Hv Hn].
  split; [split; [exact Hv | apply negb_true_iff; exact Hn]|].
  destruct (float_to_pcm16_sample (pcm16_to_float_sample z)); [|discriminate].
  apply Z.eqb_eq in Ht. congruence.
Qed.

(** A loop stops being defined with the first iteration that is not. *)
Lemma for_loop_fails {S : Type} (body : Z -> S -> option S) (n : nat) :
  forall (i0 : Z) (s : S) (j : Z),
    i0 <= j < i0 + Z.of_nat n -> (forall s', body j s' = None) ->
    for_loop n i0 body s = None.
Proof.
  induction n as [|n IH]; intros i0 s j Hj Hnone; [lia|].
  cbn [for_loop]. destruct (body i0 s) as [s'|] eqn:Hb; [|reflexivity].
  destruct (Z.eq_dec j i0) as [->|Hne]; [rewrite Hnone in Hb; discriminate|].
  apply (IH (i0 + 1) s' j); [lia | exact Hnone].
Qed.

(** X18.  [vad_pcm16_to_float] followed by [vad_float_to_pcm16] over [N]
    16-bit samples is defined and does not give the samples back: every
    sample comes back one step nearer to zero ([z - sgn z]; only 0 comes
    back unchanged), because one direction divides by 32768 and the other
    multiplies by 32767 and truncates.  Cells of the output from index [N]
    on are left as they were. *)
Theorem pcm16_round_trip_steps_toward_zero
    (N : Z) (pcm16_samples : list Z) (float_buf : list float32) (pcm16_buf : list Z) :
  0 <= N ->
  N <= Z.of_nat (length pcm16_samples) -> N <= Z.of_nat (length float_buf) ->
  N <= Z.of_nat (length pcm16_buf) ->
  Forall is_int16 (take (Z.to_nat N) pcm16_samples) ->
  exists floats pcm,
    vad_pcm16_to_float pcm16_samples float_buf N = Some floats /\
    vad_float_to_pcm16 floats pcm16_buf N = Some pcm /\
    length pcm = length pcm16_buf /\
    (forall (i : nat) z, Z.of_nat i < N -> pcm16_samples !! i = Some z ->
       pcm !! i = Some (z - Z.sgn z)) /\
    (forall k : nat, N <= Z.of_nat k -> pcm !! k = pcm16_buf !! k).
Proof.
  intros HN Hps Hfb Hpb Hint.
  destruct (pcm16_to_float_run pcm16_samples float_buf N HN Hps Hfb)
    as (floats & Hrun & Hlen & Hin & _).
  assert (Hz : forall (i : nat), Z.of_nat i < N ->
                 exists z, pcm16_samples !! i = Some z /\ is_int16 z).
  { intros i Hi. destruct (lookup_lt_is_Some_2 pcm16_samples i) as [z Hz]; [lia|].
    exists z. split; [exact Hz|]. rewrite Forall_lookup in Hint.
    apply (Hint i). rewrite lookup_take_lt by lia. exact Hz. }
  assert (Hsample : Forall is_sample (take (Z.to_nat N) floats)).
  { apply Forall_lookup. intros i x Hx.
    apply lookup_take_Some in Hx as [Hx Hi].
    destruct (Hz i ltac:(lia)) as (z & Hzi & Hzr).
    rewrite (Hin i z ltac:(lia) Hzi) in Hx. injection Hx as <-.
    apply pcm16_sample_round_trip. exact Hzr. }
  destruct (float_to_pcm16_run floats pcm16_buf N HN ltac:(lia) Hpb Hsample)
    as (pcm & Hrun' & Hlen' & Hin' & Hfr').
  exists floats, pcm. split; [exact Hrun|]. split; [exact Hrun'|].
  split; [exact Hlen'|]. split; [|exact Hfr'].
  intros i z Hi Hzi.
  destruct (Hin' i _ Hi (Hin i z Hi Hzi)) as (t & Hout & Ht & _).
  destruct (Hz i Hi) as (z' & Hz' & Hzr). assert (z' = z) as -> by congruence.
  rewrite (proj2 (pcm16_sample_round_trip z Hzr)) in Ht. congruence.
Qed.

Lemma pcm16_round_trip_steps_toward_zero_witness :
  exists floats pcm,
    vad_pcm16_to_float [32767; -32768; 0; 1] [S754_nan; S754_nan; S754_nan; S754_nan] 4
    = Some floats /\
    vad_float_to_pcm16 floats [0; 0; 0; 0] 4 = Some pcm /\
    pcm = [32766; -32767; 0; 0].
Proof.
  destruct (pcm16_round_trip_steps_toward_zero 4 [32767; -32768; 0; 1]
              [S754_nan; S754_nan; S754_nan; S754_nan] [0; 0; 0; 0])
    as (floats & pcm & H1 & H2 & Hl & H & _).
  - lia.
  - simpl; lia.
  - simpl; lia.
  - simpl; lia.
  - repeat constructor; unfold is_int16; lia.
  - exists floats, pcm. split; [exact H1|]. split; [exact H2|].
    pose proof (H 0%nat 32767 ltac:(lia) eq_refl) as H0.
    pose proof (H 1%nat (-32768) ltac:(lia) eq_refl) as H1'.
    pose proof (H 2%nat 0 ltac:(lia) eq_refl) as H2'.
    pose proof (H 3%nat 1 ltac:(lia) eq_refl) as H3'.
    destruct pcm as [|a [|b [|c [|d [|]]]]]; try discriminate Hl.
    vm_compute in H0, H1', H2', H3'. congruence.
Defined.

(** X19.  Over [N] well-formed binary32 samples that fit both buffers,
    [vad_float_to_pcm16] is defined when none of them is a NaN, and then
    every value it writes lies in [-32767, 32767], so -32768 is never
    produced; as soon as one of the samples is a NaN the call is not
    defined, the cast of a NaN to [int16_t] having no meaning in C. *)
Theorem float_to_pcm16_defined_iff_no_nan
    (N : Z) (float_samples : list float32) (pcm16_samples : list Z) :
  0 <= N ->
  N <= Z.of_nat (length float_samples) -> N <= Z.of_nat (length pcm16_samples) ->
  Forall (fun x => valid x = true) (take (Z.to_nat N) float_samples) ->
  (Forall (fun x => is_nan x = false) (take (Z.to_nat N) float_samples) ->
   exists out, vad_float_to_pcm16 float_samples pcm16_samples N = Some out /\
               forall (i : nat) t, Z.of_nat i < N -> out !! i = Some t ->
                                   -32767 <= t <= 32767) /\
  (forall i : nat, Z.of_nat i < N -> float_samples !! i = Some S754_nan ->
   vad_float_to_pcm16 float_samples pcm16_samples N = None).
Proof.
  intros HN Hfs Hout Hvalid. split.
  - intros Hnan.
    assert (Hsample : Forall is_sample (take (Z.to_nat N) float_samples)).
    { apply Forall_lookup. intros i x Hx. split.
      - rewrite Forall_lookup in Hvalid. apply (Hvalid i x Hx).
      - rewrite Forall_lookup in Hnan. apply (Hnan i x Hx). }
    destruct (float_to_pcm16_run float_samples pcm16_samples N HN Hfs Hout Hsample)
      as (out & Hrun & Hlen & Hin & _).
    exists out. split; [exact Hrun|]. intros i t Hi Ht.
    destruct (lookup_lt_is_Some_2 float_samples i) as [x Hx]; [lia|].
    destruct (Hin i x Hi Hx) as (t' & Ht' & _ & Hr). congruence.
  - intros i Hi Hx. unfold vad_float_to_pcm16.
    apply (for_loop_fails _ _ 0 _ (Z.of_nat i)); [lia|].
    intros s'. cbv beta. unfold load.
    replace (0 <=? Z.of_nat i) with true by (symmetry; apply Z.leb_le; lia).
    rewrite Nat2Z.id.
    match goal with
    | |- match ?l with _ => _ end = _ =>
        replace l with (@Some float32 S754_nan) by (symmetry; exact Hx)
    end.
    reflexivity.
Qed.

Lemma float_to_pcm16_defined_iff_no_nan_witness :
  (exists out, vad_float_to_pcm16 [of_Z (-7); lit 1 4] [0; 0] 2 = Some out) /\
  vad_float_to_pcm16 [of_Z (-7); S754_nan] [0; 0] 2 = None.
Proof.
  split.
  - destruct (float_to_pcm16_defined_iff_no_nan 2 [of_Z (-7); lit 1 4] [0; 0])
      as [H _].
    + lia.
    + simpl; lia.
    + simpl; lia.
    + repeat constructor.
    + destruct H as (out & Hrun & _); [repeat constructor|]. exists out. exact Hrun.
  - destruct (float_to_pcm16_defined_iff_no_nan 2 [of_Z (-7); S754_nan] [0; 0])
      as [_ H].
    + lia.
    + simpl; lia.
    + simpl; lia.
    + repeat constructor.
    + apply (H 1%nat); [lia | reflexivity].
Defined.

End CodecRoundTrip.

(** ** The error of the round trip float, PCM16, float *)

Section Quantization.











End Quantization.

(** ** The event record a callback receives *)

Section BridgeRecords.
Import Jni Records.

Ltac bridge_alloc := erewrite bind_some by apply alloc_some; simpl.
Ltac bridge_update :=
  erewrite bind_some by (apply update_event_some; simpl; apply lookup_insert_eq);
  simpl; rewrite ?insert_insert_eq.

(** X20.  What a well-formed delivery with a callback present hands to
    the callback, exactly.  Well-formed means: for SpeechEnd, the VM
    provides the elements of the array ([GetShortArrayElements] does not
    give null) and the length passed is between 0 and the length of the
    array; for Error, the VM provides the characters of the message
    ([GetStringUTFChars] does not give null); plain and frame deliveries
    always are.  Then the callback is called once, in a heap that is the
    heap on entry plus the copy of the payload (SpeechEnd, Error) at the
    first free address and the event record at the next; the record holds
    the tag and the payload fields of its kind, and every other field is
    zero, [frame_data] in particular being null in a frame event that
    carries a non-zero [frame_length].  One block is allocated for a plain
    or frame event, two for SpeechEnd and Error, and none else. *)
Theorem delivery_builds_exact_record callee callbackPtr userDataPtr d w :
  callbackPtr <> 0 -> well_formed d ->
  let payload := brk (mem w) in
  let event := brk (mem w) + blocks_of d - 1 in
  deliver callee callbackPtr userDataPtr d w
  = Some (tt, mkWorld
                (callee callbackPtr event userDataPtr
                   (mkMem (<[event := EventRecord (record_of d payload)]>
                             (with_payload d payload (heap (mem w))))
                          (brk (mem w) + blocks_of d)))
                (calls w ++ [mkCall callbackPtr event userDataPtr])).
Proof.
  intros Hcb Hwf. apply Z.eqb_neq in Hcb.
  destruct w as [[h b] cs].
  destruct d as [ty | prob sp fl | audio len dur | msg code];
    unfold deliver, nativeSendEvent, nativeSendFrameEvent,
      nativeSendSpeechEndEvent, nativeSendErrorEvent; rewrite Hcb.
  - cbn [blocks_of record_of with_payload mem brk heap calls].
    bridge_alloc. bridge_update. unfold invoke; simpl.
    replace (b + 1 - 1) with b by lia. reflexivity.
  - cbn [blocks_of record_of with_payload mem brk heap calls].
    bridge_alloc. do 4 bridge_update. unfold invoke; simpl.
    replace (b + 1 - 1) with b by lia. reflexivity.
  - simpl in Hwf. destruct audio as [elements|]; [|done]. destruct Hwf as [H0 Hlen].
    cbn [blocks_of record_of with_payload mem brk heap calls].
    replace (0 <=? len) with true by (symmetry; apply Z.leb_le; done).
    bridge_alloc.
    erewrite bind_some
      by (apply memcpy_int16_some with (a := replicate (Z.to_nat len) 0); simpl;
          [apply lookup_insert_eq | rewrite length_replicate; apply Z2Nat.id; done | done]).
    simpl. rewrite insert_insert_eq.
    bridge_alloc. do 4 bridge_update. unfold invoke; simpl.
    replace (b + 2 - 1) with (b + 1) by lia.
    replace (b + 1 + 1) with (b + 2) by lia. reflexivity.
  - simpl in Hwf. destruct msg as [chars|]; [|done]. unfold strdup.
    cbn [blocks_of record_of with_payload mem brk heap calls].
    bridge_alloc. bridge_alloc. do 3 bridge_update. unfold invoke; simpl.
    replace (b + 2 - 1) with (b + 1) by lia.
    replace (b + 1 + 1) with (b + 2) by lia. reflexivity.
Qed.

Lemma delivery_builds_exact_record_witness :
  deliver reading_callee 77 5 (SendFrameEvent (lit 1 4) true 512) empty_world
  = Some (tt, mkWorld
                (mkMem (<[1 := EventRecord
                                 (mkVADEventC 3 (lit 1 4) 1 0 512 0 0 0 0 0)]> ∅) 2)
                [mkCall 77 1 5]) /\
  deliver reading_callee 77 5 (SendSpeechEndEvent (Some [1; 2; 3]) 2 40) empty_world
  = Some (tt, mkWorld
                (mkMem (<[2 := EventRecord
                                 (mkVADEventC 2 (S754_zero false) 0 0 0 1 2 40 0 0)]>
                          (<[1 := Int16Array [1; 2]]> ∅)) 3)
                [mkCall 77 2 5]) /\
  deliver reading_callee 77 5 (SendErrorEvent (Some [x62; x61; x64]) 9) empty_world
  = Some (tt, mkWorld
                (mkMem (<[2 := EventRecord
                                 (mkVADEventC 6 (S754_zero false) 0 0 0 0 0 0 1 9)]>
                          (<[1 := CharArray [x62; x61; x64]]> ∅)) 3)
                [mkCall 77 2 5]).
Proof.
  split; [|split].
  - apply (delivery_builds_exact_record reading_callee 77 5
             (SendFrameEvent (lit 1 4) true 512) empty_world).
    + lia.
    + exact I.
  - apply (delivery_builds_exact_record reading_callee 77 5
             (SendSpeechEndEvent (Some [1; 2; 3]) 2 40) empty_world).
    + lia.
    + simpl. lia.
  - apply (delivery_builds_exact_record reading_callee 77 5
             (SendErrorEvent (Some [x62; x61; x64]) 9) empty_world).
    + lia.
    + discriminate.
Defined.

End BridgeRecords.

(** ** The error buffer across calls *)

Section ErrorBufferProperties.
Import Jni ErrorBuffer.

Lemma get_last_error_keeps_terminated vm handle buffer :
  terminated buffer -> terminated (vad_get_last_error vm handle buffer).2.
Proof.
  intros [Hlen Hnul]. unfold vad_get_last_error.
  destruct (handle =? 0); [done|].
  destruct (negb (getEnv vm)); [done|].
  destruct (getHandle vm handle) as [obj|]; [|done].
  destruct (GetObjectClass obj) as [[?|]|]; try done.
  destruct (GetMethodID_getLastError obj) as [[?|]|]; try done.
  destruct (Call_getLastError obj) as [[js|]|]; try done.
  destruct (utf_chars js) as [chars|]; cbn [snd].
  - rewrite copied_buffer by done. split.
    + rewrite length_app, length_strncpy_bytes. reflexivity.
    + apply elem_of_app. right. apply list_elem_of_here.
  - split; [rewrite length_insert; done|].
    destruct buffer as [|b buffer]; [discriminate Hlen|]. apply list_elem_of_here.
Qed.

(** X23.  [g_lastErrorBuffer] always holds a C string.  From its initial
    content, after any sequence of calls of [vad_get_last_error], with any
    handles and whatever the VM answers (a message of any length, no
    message, characters that cannot be had, any failure), the array still
    has a NUL among its 1024 bytes, so the pointer the function returns
    never designates an unterminated string. *)
Theorem last_error_buffer_stays_terminated (calls : list (VM * Z)) (buffer : list byte) :
  terminated buffer -> terminated (buffer_after calls buffer).
Proof.
  revert buffer. induction calls as [|[vm handle] calls IH]; intros buffer Hb; [exact Hb|].
  cbn [buffer_after]. apply IH. apply get_last_error_keeps_terminated. exact Hb.
Qed.

Lemma last_error_buffer_stays_terminated_witness :
  terminated
    (buffer_after
       [(vm_with (fun _ => Some (session_with (Some long_message))), 1);
        (vm_unreachable, 2);
        (vm_with (fun _ => Some (mkHandleObject (Returned (Some tt)) (Returned (Some tt))
                                   (Returned (Some (mkJstring None))))), 3)]
       initial_buffer).
Proof.
  apply (last_error_buffer_stays_terminated _ initial_buffer).
  split; [reflexivity|]. apply list_elem_of_here.
Defined.

End ErrorBufferProperties.

(** ** The FFI exports, JNI call by JNI call *)

Section FfiProperties.
Import Jni Ffi.

(** Symbolic execution of native code: unfold the JNI primitives, then
    split on the next answer of the VM or comparison of references. *)
Ltac jsimp :=
  cbv beta iota zeta delta
      [Ffi.bind Ffi.ret Ffi.undefined log throw no_exception_pending live new_local_ref
       is_live without
       env_ExceptionCheck env_ExceptionClear env_DeleteLocalRef local_of id_of value_of
       env_GetObjectClass env_GetMethodID env_GetMethodID_global env_CallMethod
       env_CallObjectMethod env_CallStaticMethod env_CallStaticObjectMethod
       env_GetStringUTFChars env_ReleaseStringUTFChars env_New env_ExceptionOccurred
       clearException Ffi.getEnv Ffi.getHandle report_exception cache_class
       pending locals next_ref pinned trace fst snd negb orb andb].

Ltac jcase :=
  match goal with
  | |- context [?a =? ?b] =>
      first [ rewrite (proj2 (Z.eqb_eq a b)) by lia
            | rewrite (proj2 (Z.eqb_neq a b)) by lia
            | destruct (Z.eqb_spec a b) ]
  | |- context [?a <=? ?b] =>
      first [ rewrite (proj2 (Z.leb_le a b)) by lia
            | rewrite (proj2 (Z.leb_gt a b)) by lia
            | destruct (Z.leb_spec a b) ]
  | |- context [match ?x with _ => _ end] =>
      lazymatch x with
      | context [match _ with _ => _ end] => fail
      | context [_ =? _] => fail
      | context [_ <=? _] => fail
      | _ => destruct x eqn:?; try congruence
      end
  end.

Ltac jrun := repeat (jsimp; try jcase).

Ltac junfold :=
  unfold run, run_void, vad_create, vad_destroy, vad_init, vad_set_callback,
    vad_invalidate_callback, vad_stop, vad_reset, vad_force_end_speech, void_export,
    vad_start, vad_process_audio, vad_is_speaking, Ffi.vad_get_last_error.

(** Evaluation of the summaries of a run under the answers met on the
    path. *)
Ltac jrewrite :=
  match goal with
  | H : ?x = _ |- context [?x] => progress rewrite H
  | H : ?a <> ?b |- context [?a =? ?b] => rewrite (proj2 (Z.eqb_neq a b) H)
  | H : ?a = ?b |- context [?a =? ?b] => rewrite (proj2 (Z.eqb_eq a b) H)
  | H : ?a <= ?b |- context [?a <=? ?b] => rewrite (proj2 (Z.leb_le a b) H)
  | H : ?b < ?a |- context [?a <=? ?b] => rewrite (proj2 (Z.leb_gt a b) H)
  | |- context [?a =? ?a] => rewrite (Z.eqb_refl a)
  end.

Ltac jsummary :=
  cbv beta iota zeta delta
      [callable session init_ready leaves_pending refusal_reason
       Jni.getEnv Jni.getHandle attach_calls lookup_calls
       model_path_string config_call no_session_call session_call rejects refusal
       handle_of method_of call_of Jni.vad_get_last_error
       pending locals next_ref pinned trace fst snd];
  repeat first [ jrewrite | progress cbv beta iota | progress cbn [negb orb andb forallb app] ].

(** Run the native code with the postcondition folded away, then evaluate
    the postcondition on each path. *)
Ltac jstart :=
  match goal with
  | |- exists v s', ?m ?s = Some (v, s') /\ @?Q v s' =>
      let P := fresh "Post" in
      pose (P := Q);
      change (exists v s', m s = Some (v, s') /\ P v s');
      junfold; jrun
  end.

Ltac jend :=
  match goal with
  | P := _ |- exists v s', _ = Some (v, s') /\ ?P' v s' =>
      (eexists _, _; split; [reflexivity|]); subst P; cbv beta; jsummary
  end.

Ltac jexec := jstart; jend.

Ltac jtrace :=
  first
    [ reflexivity
    | rewrite ?app_nil_r, <- ?app_assoc; reflexivity
    | eexists; split;
      [ rewrite <- ?app_assoc; try reflexivity; symmetry; apply app_nil_r
      | reflexivity ] ].

Ltac jfinish := repeat split; jtrace.

Ltac jframe := eexists _, _; split; [reflexivity|]; cbn; repeat split; lia.

(** X1.  Every FFI export, called on any thread state, with any handle and
    whatever the VM and the Kotlin side answer, runs to its end within the
    rules of JNI: no JNI function that forbids it is called while an
    exception is pending, no local reference is used after its deletion,
    no characters are released that were not pinned, no sample is read
    beyond [sample_count].  At return the local references of the thread
    are those of the entry, so every reference the export created it also
    deleted, on every path, and so are the pinned strings.  The caller
    owes only that the sample buffer holds [sample_count] samples, and the
    VM, during [vad_init], that it can build the path string and report a
    thrown exception. *)
Theorem exports_stay_within_jni vm k e s :
  wf s -> in_contract k e ->
  exists r s',
    run vm k e s = Some (r, s') /\
    locals s' = locals s /\ pinned s' = pinned s /\ next_ref s <= next_ref s'.
Proof.
  intros Hn Hc. destruct s as [p L n pin tr]. cbv [wf next_ref] in Hn.
  destruct e as [|h|h cfg path|h v|h|h samples cnt|h|h buf]; cbn [in_contract] in Hc.
  - junfold. jrun. all: jframe.
  - junfold. jrun. all: jframe.
  - destruct Hc as (Hnew & Hfind & Hmsg).
    destruct cfg as [cfg|]; junfold; [|jrun; jframe].
    set (isDebug := negb (is_debug cfg =? 0)). jrun.
    all: try (exfalso; eapply Hmsg; eauto; fail).
    all: jframe.
  - destruct v; junfold; jrun. all: jframe.
  - junfold. jrun. all: jframe.
  - destruct samples as [samples|]; junfold; jrun. all: jframe.
  - junfold. jrun. all: jframe.
  - junfold. jrun. all: jframe.
Qed.

Lemma exports_stay_within_jni_witness :
  exists r s',
    run (vm_with one_session) kotlin_ok
        (Init 7 (Some default_config) (Some [x61; x00])) fresh_thread = Some (r, s') /\
    locals s' = [] /\ pinned s' = 0%nat /\ 1 <= next_ref s'.
Proof.
  apply (exports_stay_within_jni (vm_with one_session) kotlin_ok
           (Init 7 (Some default_config) (Some [x61; x00])) fresh_thread).
  - reflexivity.
  - simpl. split; [discriminate|]. split; [reflexivity|].
    intros js Hjs. injection Hjs as <-. discriminate.
Defined.

(** X2.  The argument checks come first: an export given a null handle
    (or [vad_init] a null configuration, [vad_process_audio] a null buffer
    or a count that is not positive) returns its refusal value, [-1], [0],
    nothing or the literal "Invalid handle", without a single call
    into the VM and with the thread state untouched. *)
Theorem rejected_arguments_touch_nothing vm k e s :
  rejects e = true ->
  run vm k e s = Some (refusal "Invalid handle" e, s).
Proof.
  intros Hr. destruct s as [p L n pin tr].
  destruct e as [|h|h [cfg|] path|h v|h|h [samples|] cnt|h|h buf];
    cbn [rejects] in Hr; try discriminate Hr;
    try (apply Z.eqb_eq in Hr; subst h);
    try (destruct v); junfold; try rewrite Hr; reflexivity.
Qed.

Lemma rejected_arguments_touch_nothing_witness :
  run (vm_with one_session) kotlin_ok (ProcessAudio 7 (Some [lit 1 4]) 0) fresh_thread
  = Some (RInt (-1), fresh_thread).
Proof.
  apply (rejected_arguments_touch_nothing (vm_with one_session) kotlin_ok
           (ProcessAudio 7 (Some [lit 1 4]) 0) fresh_thread).
  reflexivity.
Defined.

(** X3.  When the thread cannot get a [JNIEnv] (no VM recorded, [GetEnv]
    failing, or the attachment of a detached thread failing), every export
    whose arguments pass the checks returns its refusal value,
    [vad_get_last_error] the literal "JNI error", having made no call
    other than the attempt to attach; an exception that was pending stays
    pending. *)
Theorem unreachable_vm_refuses vm k e s :
  rejects e = false -> Jni.getEnv vm = false ->
  run vm k e s
  = Some (refusal "JNI error" e,
          mkJState (pending s) (locals s) (next_ref s) (pinned s)
                   (trace s ++ attach_calls vm)).
Proof.
  intros Hr Henv. destruct s as [p L n pin tr].
  assert (Hst : Ffi.getEnv vm (mkJState p L n pin tr)
                = Some (false, mkJState p L n pin (tr ++ attach_calls vm))).
  { unfold Jni.getEnv in Henv. unfold Ffi.getEnv, attach_calls.
    destruct (g_jvm vm); [|cbn; rewrite app_nil_r; reflexivity].
    destruct (GetEnv vm); try discriminate Henv;
      try (cbn; rewrite app_nil_r; reflexivity).
    destruct (AttachCurrentThread vm); try discriminate Henv; reflexivity. }
  destruct e as [|h|h [cfg|] path|h v|h|h [samples|] cnt|h|h buf];
    cbn [rejects] in Hr; try discriminate Hr;
    try (destruct v); junfold; try rewrite Hr;
    cbv beta iota zeta delta [Ffi.bind]; rewrite Hst; reflexivity.
Qed.

Lemma unreachable_vm_refuses_witness :
  run vm_unreachable kotlin_ok (GetLastError 7 initial_buffer) fresh_thread
  = Some (RStr (Literal "JNI error") initial_buffer, fresh_thread).
Proof.
  apply (unreachable_vm_refuses vm_unreachable kotlin_ok
           (GetLastError 7 initial_buffer) fresh_thread); reflexivity.
Defined.

(** The stateful helpers compute what the pure ones do. *)
Lemma getEnv_run vm s :
  Ffi.getEnv vm s
  = Some (Jni.getEnv vm,
          mkJState (pending s) (locals s) (next_ref s) (pinned s)
                   (trace s ++ attach_calls vm)).
Proof.
  destruct s as [p L n pin tr]. unfold Jni.getEnv, Ffi.getEnv, attach_calls.
  destruct (g_jvm vm); [|cbn; rewrite app_nil_r; reflexivity].
  destruct (GetEnv vm); try (cbn; rewrite app_nil_r; reflexivity).
  destruct (AttachCurrentThread vm); reflexivity.
Qed.

Lemma getHandle_none vm h s :
  Jni.getHandle vm h = None ->
  exists t,
    Ffi.getHandle vm h s
    = Some ((0, None), mkJState false (locals s) (next_ref s) (pinned s) (trace s ++ t)) /\
    no_session_call t.
Proof.
  intros Hnone. destruct s as [p L n pin tr]. unfold Jni.getHandle in Hnone.
  unfold Ffi.getHandle.
  destruct (g_handleManagerClass vm); cbn [negb] in *.
  2:{ exists []. rewrite app_nil_r. destruct p; split; reflexivity. }
  destruct (GetStaticMethodID_getHandle vm) as [[[]|]|].
  - destruct (Call_getHandle vm h) as [[obj|]|]; [discriminate Hnone| |];
      exists [H_getHandle h]; destruct p; split; reflexivity.
  - exists []. rewrite app_nil_r. destruct p; split; reflexivity.
  - exists []. rewrite app_nil_r. destruct p; split; reflexivity.
Qed.

(** X4.  A handle the registry does not know (or cannot be asked about:
    class not cached, [getHandle] not found or throwing) makes every export
    that works on a session return its refusal value, [vad_get_last_error]
    the literal "Handle not found": no method of any session object is
    called, no local reference is created, and no exception is left
    pending. *)
Theorem unknown_handle_refuses vm k e h s :
  rejects e = false -> looks_up e = true -> handle_of e = Some h ->
  Jni.getEnv vm = true -> Jni.getHandle vm h = None ->
  exists r s',
    run vm k e s = Some (r, s') /\
    r = refusal "Handle not found" e /\
    locals s' = locals s /\ pinned s' = pinned s /\ next_ref s' = next_ref s /\
    pending s' = false /\
    exists t, trace s' = trace s ++ t /\ no_session_call t.
Proof.
  intros Hr Hl Hh Henv Hnone.
  destruct (getHandle_none vm h
              (mkJState false (locals s) (next_ref s) (pinned s)
                        (trace s ++ attach_calls vm)) Hnone) as (t & Hrun & Ht).
  assert (Hclear : clearException
                     (mkJState (pending s) (locals s) (next_ref s) (pinned s)
                               (trace s ++ attach_calls vm))
                   = Some (tt, mkJState false (locals s) (next_ref s) (pinned s)
                                        (trace s ++ attach_calls vm))).
  { destruct s as [[] L n pin tr]; reflexivity. }
  assert (Hatt : no_session_call (attach_calls vm ++ t)).
  { unfold no_session_call in *. rewrite forallb_app, Ht, andb_true_r.
    unfold attach_calls. destruct (g_jvm vm); [|reflexivity].
    destruct (GetEnv vm); reflexivity. }
  destruct e as [|h'|h' [cfg|] path|h' v|h'|h' [samples|] cnt|h'|h' buf];
    cbn [rejects looks_up handle_of] in Hr, Hl, Hh; try discriminate;
    injection Hh as ->; try (destruct v); junfold; try rewrite Hr;
    cbv beta iota zeta delta [Ffi.bind]; rewrite getEnv_run, Henv; cbn [negb];
    rewrite Hclear, Hrun; cbn [trace];
    (eexists _, _; split; [reflexivity|]);
    cbn; repeat split; exists (attach_calls vm ++ t); rewrite app_assoc; split; done.
Qed.

Lemma unknown_handle_refuses_witness :
  exists r s',
    run (vm_with one_session) kotlin_ok (Start 8) fresh_thread = Some (r, s') /\
    r = RInt (-1) /\ locals s' = [] /\ pending s' = false.
Proof.
  destruct (unknown_handle_refuses (vm_with one_session) kotlin_ok (Start 8) 8
              fresh_thread)
    as (r & s' & Hrun & Hr & HL & _ & _ & Hp & _); try reflexivity.
  exists r, s'. split; [exact Hrun|]. split; [exact Hr|]. split; [exact HL | exact Hp].
Defined.

(** X5.  Take a call of an export within its contract: the thread's next
    local reference is not null, the sample buffer of [vad_process_audio]
    holds [sample_count] samples, and during [vad_init] [NewStringUTF]
    does not throw, [FindClass] finds [java/lang/Throwable] and the
    characters of an exception message are available (outside these
    conditions [vad_init] passes a pending exception or a null pointer to
    a JNI function, and no outcome is defined).  If the call gets past its
    argument checks and reaches the VM, it returns, and no Java exception
    is pending on the thread then, whatever was pending on entry and
    whichever of the other lookups and calls threw, except in two
    situations: [vad_init], when [initialize] threw and the lookup or the
    call of [getMessage] for the log throws in turn; and
    [vad_get_last_error], when the VM cannot give the characters of the
    message. *)
Theorem exports_clear_exceptions vm k e s :
  wf s -> in_contract k e -> rejects e = false -> Jni.getEnv vm = true ->
  exists r s', run vm k e s = Some (r, s') /\ pending s' = leaves_pending vm k e.
Proof.
  intros Hn Hc Hr Henv. destruct s as [p L n pin tr]. cbv [wf next_ref] in Hn.
  unfold Jni.getEnv in Henv.
  destruct e as [|h|h [cfg|] path|h v|h|h [samples|] cnt|h|h buf];
    cbn [in_contract rejects] in Hc, Hr; try discriminate Hr.
  - jstart; try discriminate Henv. all: jend; reflexivity.
  - jstart; try discriminate Henv. all: jend; reflexivity.
  - destruct Hc as (Hnew & Hfind & Hmsg).
    unfold run, vad_init. set (isDebug := negb (is_debug cfg =? 0)).
    jstart; try discriminate Henv.
    all: try (exfalso; eapply Hmsg; eauto; fail).
    all: jend; rewrite ?andb_false_r; reflexivity.
  - destruct v; jstart; try discriminate Henv. all: jend; reflexivity.
  - jstart; try discriminate Henv. all: jend; reflexivity.
  - apply orb_false_elim in Hr as [Hh Hcnt].
    apply Z.eqb_neq in Hh. apply Z.leb_gt in Hcnt.
    jstart; try discriminate Henv. all: jend; reflexivity.
  - jstart; try discriminate Henv. all: jend; reflexivity.
  - jstart; try discriminate Henv. all: jend; reflexivity.
Qed.

Lemma exports_clear_exceptions_witness :
  exists r s',
    run (vm_with one_session) kotlin_ok (Void 7 Stop)
        (mkJState true [] 1 0 []) = Some (r, s') /\
    pending s' = false.
Proof.
  apply (exports_clear_exceptions (vm_with one_session) kotlin_ok (Void 7 Stop)
           (mkJState true [] 1 0 [])).
  - reflexivity.
  - exact I.
  - reflexivity.
  - reflexivity.
Defined.

(** X6.  [vad_create] returns the id [createHandle] gave, as the handle,
    exactly when the VM is reachable, the manager class is cached, the
    method is found and the call does not throw; in that case
    [createHandle] was called once and no exception is left pending.  In
    every other case it returns [nullptr] and [createHandle] was not
    called, unless it is the call itself that threw. *)
Theorem vad_create_result vm k s :
  exists v s',
    vad_create vm k s = Some (v, s') /\
    locals s' = locals s /\
    if Jni.getEnv vm && g_handleManagerClass vm &&
       match GetStaticMethodID_createHandle vm with
       | Returned (Some _) => true | _ => false end
    then v = (if Call_createHandle_throws vm then 0 else createHandle_result k) /\
         trace s' = trace s ++ attach_calls vm ++ [H_createHandle] /\
         pending s' = false
    else v = 0 /\ trace s' = trace s ++ attach_calls vm.
Proof.
  destruct s as [p L n pin tr].
  jexec. all: cbn [andb]; jfinish.
Qed.

(** X7.  [vad_destroy] calls [removeHandle] with the handle it was given,
    once, exactly when the handle is not null, the VM is reachable, the
    manager class is cached and the method is found; otherwise it returns
    without calling it.  It reports nothing either way. *)
Theorem vad_destroy_result vm k handle s :
  exists r s',
    vad_destroy vm k handle s = Some (r, s') /\
    locals s' = locals s /\
    if negb (handle =? 0) && Jni.getEnv vm && g_handleManagerClass vm &&
       match GetStaticMethodID_removeHandle vm with
       | Returned (Some _) => true | _ => false end
    then trace s' = trace s ++ attach_calls vm ++ [H_removeHandle handle] /\
         pending s' = false
    else exists t, trace s' = trace s ++ t /\
                   forallb (fun c => match c with H_removeHandle _ => false | _ => true end) t
                   = true.
Proof.
  destruct s as [p L n pin tr].
  jexec. all: cbn [andb negb]; jsummary; jfinish.
Qed.

(** X8.  [vad_init] with a configuration, on a thread whose next local
    reference is not null and under three conditions on the VM:
    [NewStringUTF] does not throw, [FindClass] finds
    [java/lang/Throwable], and the characters of an exception message are
    available.  When the session, its class, the cached configuration
    class and its constructor, the configuration object, the application
    context and the method [initialize] are all there, it builds the
    configuration object from the nine fields of the struct ([is_debug]
    read as [!= 0]), fetches the context and calls [initialize] with what
    [NewStringUTF] gave for the model path, or with null for a null or
    empty path; it returns what [initialize] returned, whatever the
    value, and -1 if it threw.  When anything is missing it returns -1
    and [initialize] is not called. *)
Theorem vad_init_result vm k handle config model_path s :
  wf s -> in_contract k (Init handle (Some config) model_path) ->
  exists v s',
    vad_init vm k handle (Some config) model_path s = Some (v, s') /\
    if init_ready vm k handle
    then v = match Call_initialize k with Done r => r | Raised => -1 end /\
         exists t, trace s' = trace s ++ lookup_calls vm handle ++
                     [config_call config; H_getApplicationContext;
                      H_initialize (model_path_string k model_path)] ++ t /\
                   no_session_call t
    else v = -1 /\ exists t, trace s' = trace s ++ t /\ no_session_call t.
Proof.
  intros Hn (Hnew & Hfind & Hmsg). destruct s as [p L n pin tr].
  cbv [wf next_ref] in Hn.
  unfold vad_init. set (isDebug := negb (is_debug config =? 0)).
  jstart.
  all: try (exfalso; eapply Hmsg; eauto; fail).
  all: jend.
  all: cbn [andb]; subst isDebug; jfinish.
Qed.

Lemma vad_init_result_witness :
  exists v s',
    vad_init (vm_with one_session) kotlin_ok 7 (Some default_config) (Some [])
             fresh_thread = Some (v, s') /\
    v = 0 /\
    exists t, trace s' = [H_getHandle 7; config_call default_config;
                          H_getApplicationContext; H_initialize None] ++ t.
Proof.
  destruct (vad_init_result (vm_with one_session) kotlin_ok 7 default_config (Some [])
              fresh_thread) as (v & s' & Hrun & Hv & t & Ht & _).
  - reflexivity.
  - simpl. split; [discriminate|]. split; [reflexivity|].
    intros js Hjs. injection Hjs as <-. discriminate.
  - exists v, s'. split; [exact Hrun|]. split; [exact Hv|]. exists t. exact Ht.
Defined.

(** X9.  [vad_set_callback], [vad_invalidate_callback], [vad_stop],
    [vad_reset] and [vad_force_end_speech]: when the session is found and
    has the method, the method is called once, after the lookup of the
    handle, with the arguments of the export ([setCallback] with the
    callback and user-data pointers as given), and an exception it throws
    is cleared; in every other case the export returns silently without
    calling any method of a session. *)
Theorem void_export_result vm k handle v s :
  wf s ->
  exists r s',
    run_void vm k handle v s = Some (r, s') /\
    if callable vm k handle (method_of v)
    then trace s' = trace s ++ lookup_calls vm handle ++ [call_of v] /\
         pending s' = false
    else exists t, trace s' = trace s ++ t /\ no_session_call t.
Proof.
  intros Hn. destruct s as [p L n pin tr]. cbv [wf next_ref] in Hn.
  destruct v; jexec; jfinish.
Qed.

Lemma void_export_result_witness :
  exists r s',
    run_void (vm_with one_session) kotlin_ok 7 (SetCallback 4096 17) fresh_thread
    = Some (r, s') /\
    trace s' = [H_getHandle 7; H_setCallback 4096 17] /\ pending s' = false.
Proof.
  destruct (void_export_result (vm_with one_session) kotlin_ok 7 (SetCallback 4096 17)
              fresh_thread) as (r & s' & Hrun & Ht & Hp).
  - reflexivity.
  - exists r, s'. split; [exact Hrun|]. split; [exact Ht | exact Hp].
Defined.

(** X10.  [vad_start] returns what [startListening] returned, whatever the
    value, when the session is found and has the method; -1 when the call
    threw; and -1, without calling any method of a session, in every other
    case. *)
Theorem vad_start_result vm k handle s :
  wf s ->
  exists v s',
    vad_start vm k handle s = Some (v, s') /\
    if callable vm k handle "startListening"
    then v = match Call_startListening k with Done a => a | Raised => -1 end /\
         trace s' = trace s ++ lookup_calls vm handle ++ [H_startListening] /\
         pending s' = false
    else v = -1 /\ exists t, trace s' = trace s ++ t /\ no_session_call t.
Proof.
  intros Hn. destruct s as [p L n pin tr]. cbv [wf next_ref] in Hn.
  jexec. all: jfinish.
Qed.

Lemma vad_start_result_witness :
  exists v s',
    vad_start (vm_with one_session) kotlin_ok 7 fresh_thread = Some (v, s') /\
    v = 0 /\ trace s' = [H_getHandle 7; H_startListening] /\ pending s' = false.
Proof.
  destruct (vad_start_result (vm_with one_session) kotlin_ok 7 fresh_thread)
    as (v & s' & Hrun & Hv & Ht & Hp).
  - reflexivity.
  - exists v, s'. split; [exact Hrun|]. split; [exact Hv|]. split; [exact Ht | exact Hp].
Defined.

(** X11.  [vad_process_audio] on a buffer of at least [sample_count]
    samples: when the count is positive, the session is found with the
    method and the VM gives the float array, [processAudioData] is called
    once with exactly the first [sample_count] samples, and the export
    returns 0 even if the method threw (the exception is cleared and not
    reported); in every other case it returns -1 and no method of a
    session is called. *)
Theorem vad_process_audio_result vm k handle samples sample_count s :
  wf s -> sample_count <= Z.of_nat (length samples) ->
  exists v s',
    vad_process_audio vm k handle (Some samples) sample_count s = Some (v, s') /\
    if (0 <? sample_count) && callable vm k handle "processAudioData" &&
       match NewFloatArray k with Returned (Some _) => true | _ => false end
    then v = 0 /\
         trace s' = trace s ++ lookup_calls vm handle ++
                    [H_processAudioData (take (Z.to_nat sample_count) samples)] /\
         pending s' = false
    else v = -1 /\ exists t, trace s' = trace s ++ t /\ no_session_call t.
Proof.
  intros Hn Hc. destruct s as [p L n pin tr]. cbv [wf next_ref] in Hn.
  jexec.
  all: repeat match goal with
              | H : ?a <= 0 |- context [0 <? ?a] => rewrite (proj2 (Z.ltb_ge 0 a) H)
              | H : 0 < ?a |- context [0 <? ?a] => rewrite (proj2 (Z.ltb_lt 0 a) H)
              end; rewrite ?andb_false_r; cbn [andb]; jsummary.
  all: jfinish.
Qed.

Lemma vad_process_audio_result_witness :
  exists v s',
    vad_process_audio (vm_with one_session) kotlin_ok 7
      (Some [lit 1 4; lit 5 10; of_Z 1]) 2 fresh_thread = Some (v, s') /\
    v = 0 /\
    trace s' = [H_getHandle 7; H_processAudioData [lit 1 4; lit 5 10]].
Proof.
  destruct (vad_process_audio_result (vm_with one_session) kotlin_ok 7
              [lit 1 4; lit 5 10; of_Z 1] 2 fresh_thread)
    as (v & s' & Hrun & Hv & Ht & _).
  - reflexivity.
  - simpl. lia.
  - exists v, s'. split; [exact Hrun|]. split; [exact Hv | exact Ht].
Defined.

(** X12.  [vad_is_speaking] returns 1 exactly when the session is found,
    has the method, and [isSpeaking] returns true without throwing; in
    every other case, failures included, it returns 0, so that 0 does not
    tell "not speaking" from "could not ask". *)
Theorem vad_is_speaking_result vm k handle s :
  wf s ->
  exists v s',
    vad_is_speaking vm k handle s = Some (v, s') /\
    if callable vm k handle "isSpeaking"
    then v = match Call_isSpeaking k with Done true => 1 | _ => 0 end /\
         trace s' = trace s ++ lookup_calls vm handle ++ [H_isSpeaking] /\
         pending s' = false
    else v = 0 /\ exists t, trace s' = trace s ++ t /\ no_session_call t.
Proof.
  intros Hn. destruct s as [p L n pin tr]. cbv [wf next_ref] in Hn.
  jexec. all: jfinish.
Qed.

Lemma vad_is_speaking_result_witness :
  exists v s',
    vad_is_speaking (vm_with one_session) kotlin_ok 7 fresh_thread = Some (v, s') /\
    v = 1 /\ trace s' = [H_getHandle 7; H_isSpeaking].
Proof.
  destruct (vad_is_speaking_result (vm_with one_session) kotlin_ok 7 fresh_thread)
    as (v & s' & Hrun & Hv & Ht & _).
  - reflexivity.
  - exists v, s'. split; [exact Hrun|]. split; [exact Hv | exact Ht].
Defined.

(** X13.  [vad_get_last_error], run JNI call by JNI call from any thread
    state, stays within the rules of JNI and returns the pointer, and
    leaves [g_lastErrorBuffer] with the content, that the direct reading
    of the function gives ([Jni.vad_get_last_error]); local references and
    pinned strings are at return as on entry. *)
Theorem get_last_error_within_jni vm handle buffer s :
  wf s ->
  exists s',
    Ffi.vad_get_last_error vm handle buffer s
    = Some (Jni.vad_get_last_error vm handle buffer, s') /\
    locals s' = locals s /\ pinned s' = pinned s.
Proof.
  intros Hn. destruct s as [p L n pin tr]. cbv [wf next_ref] in Hn.
  match goal with
  | |- exists s', ?m ?s = Some (?v, s') /\ @?Q s' =>
      let P := fresh "Post" in
      pose (P := Q); pose (V := v);
      change (exists s', m s = Some (V, s') /\ P s')
  end.
  junfold. jrun.
  all: subst V Post; cbv beta; jsummary.
  all: eexists; split; [reflexivity|]; split; reflexivity.
Qed.

Lemma get_last_error_within_jni_witness :
  exists s',
    Ffi.vad_get_last_error (vm_with one_session) 7 initial_buffer fresh_thread
    = Some ((Literal EmptyString, initial_buffer), s') /\
    locals s' = [] /\ pinned s' = 0%nat.
Proof.
  apply (get_last_error_within_jni (vm_with one_session) 7 initial_buffer fresh_thread).
  reflexivity.
Defined.

(** ** Loading and unloading *)

Lemma cache_class_run r name before refs s :
  wf s -> pending s = false ->
  exists s',
    cache_class r name before refs s
    = Some ((cached r name before, refs_with r name refs), s') /\
    wf s' /\ pending s' = false /\ locals s' = locals s /\
    pinned s' = pinned s /\ trace s' = trace s.
Proof.
  intros Hn Hp. destruct s as [p L n pin tr]. cbv [wf next_ref] in Hn.
  cbv [pending] in Hp. subst p. unfold cached, refs_with.
  unfold cache_class. jrun.
  all: eexists; split; [reflexivity|]; cbv [wf next_ref pending locals pinned trace];
    repeat split; lia.
Qed.

(** A load that gets its [JNIEnv] runs the three blocks in turn. *)
Lemma JNI_OnLoad_run r g s :
  wf s -> pending s = false -> load_GetEnv r = JNI_OK ->
  exists s',
    JNI_OnLoad r g s
    = Some ((JNI_VERSION_1_6,
             mkGlobals true
               (cached r manager_class (handleManagerClass g))
               (cached r handle_class (handleInternalClass g))
               (cached r config_class (configInternalClass g))
               (refs_with r config_class
                  (refs_with r handle_class
                     (refs_with r manager_class (global_refs g))))), s') /\
    pending s' = false /\ locals s' = locals s /\ pinned s' = pinned s /\
    trace s' = trace s.
Proof.
  intros Hn Hp Hst. unfold JNI_OnLoad. rewrite Hst.
  cbn [handleManagerClass handleInternalClass configInternalClass global_refs].
  destruct (cache_class_run r manager_class (handleManagerClass g) (global_refs g) s Hn Hp)
    as (s1 & H1 & Hn1 & Hp1 & HL1 & Hpin1 & Ht1).
  unfold Ffi.bind at 1. unfold manager_class in H1. rewrite H1.
  cbn [fst snd].
  unfold Ffi.bind at 1.
  match goal with |- context [cache_class r _ ?b ?c s1] =>
    destruct (cache_class_run r handle_class b c s1 Hn1 Hp1)
      as (s2 & H2 & Hn2 & Hp2 & HL2 & Hpin2 & Ht2) end.
  unfold handle_class in H2. rewrite H2.
  cbn [fst snd].
  unfold Ffi.bind at 1.
  match goal with |- context [cache_class r _ ?b ?c s2] =>
    destruct (cache_class_run r config_class b c s2 Hn2 Hp2)
      as (s3 & H3 & Hn3 & Hp3 & HL3 & Hpin3 & Ht3) end.
  unfold config_class in H3. rewrite H3.
  cbn [fst snd].
  eexists. split; [reflexivity|]. repeat split; congruence.
Qed.

(** X14.  [JNI_OnLoad] records the VM and, when [GetEnv] succeeds, returns
    [JNI_VERSION_1_6] whether or not any of the three classes could be
    cached: a class that is not found leaves its variable as it was and
    the exception of the failed lookup is cleared, a class that is found
    is cached through a global reference and its local reference deleted.
    When [GetEnv] fails it returns [JNI_ERR] with the class variables
    untouched, the VM being recorded all the same.  Either way the thread
    is left with no exception pending and the local references it had. *)
Theorem JNI_OnLoad_result r g s :
  wf s -> pending s = false ->
  exists v g' s',
    JNI_OnLoad r g s = Some ((v, g'), s') /\
    jvm g' = true /\
    match load_GetEnv r with
    | JNI_OK =>
        v = JNI_VERSION_1_6 /\
        handleManagerClass g' = cached r manager_class (handleManagerClass g) /\
        handleInternalClass g' = cached r handle_class (handleInternalClass g) /\
        configInternalClass g' = cached r config_class (configInternalClass g)
    | _ =>
        v = JNI_ERR_code /\
        handleManagerClass g' = handleManagerClass g /\
        handleInternalClass g' = handleInternalClass g /\
        configInternalClass g' = configInternalClass g /\
        global_refs g' = global_refs g
    end /\
    pending s' = false /\ locals s' = locals s /\ pinned s' = pinned s /\
    trace s' = trace s.
Proof.
  intros Hn Hp.
  destruct (load_GetEnv r) eqn:Hst.
  2-4: unfold JNI_OnLoad; rewrite Hst; eexists _, _, _; split; [reflexivity|]; cbn;
       repeat split; try done.
  destruct (JNI_OnLoad_run r g s Hn Hp Hst) as (s' & Hrun & Hp' & HL & Hpin & Ht).
  eexists _, _, s'. split; [exact Hrun|]. cbn. repeat split; done.
Qed.

Lemma JNI_OnLoad_result_witness :
  exists v g' s',
    JNI_OnLoad load_ok initial_globals fresh_thread = Some ((v, g'), s') /\
    v = 65542 /\ handleManagerClass g' = true /\ locals s' = [].
Proof.
  destruct (JNI_OnLoad_result load_ok initial_globals fresh_thread)
    as (v & g' & s' & Hrun & _ & (Hv & Hm & _) & _ & HL & _).
  - reflexivity.
  - reflexivity.
  - exists v, g', s'. split; [exact Hrun|]. split; [exact Hv|].
    split; [exact Hm | exact HL].
Defined.

(** X15.  Loading from the initial state and unloading is neutral on the
    globals: after [JNI_OnLoad] the library holds exactly one global
    reference per class variable that is not null, and [JNI_OnUnload],
    when it gets a [JNIEnv], deletes each of them and puts every variable
    back to null, so that no global reference outlives the library. *)
Theorem load_then_unload_releases_globals r s :
  wf s -> pending s = false ->
  exists v g s',
    JNI_OnLoad r initial_globals s = Some ((v, g), s') /\
    global_refs g = cached_classes g /\
    JNI_OnUnload JNI_OK g = initial_globals.
Proof.
  intros Hn Hp.
  destruct (load_GetEnv r) eqn:Hst.
  2-4: unfold JNI_OnLoad; rewrite Hst; eexists _, _, _;
       split; [reflexivity|]; split; reflexivity.
  destruct (JNI_OnLoad_run r initial_globals s Hn Hp Hst) as (s' & Hrun & _).
  eexists _, _, s'. split; [exact Hrun|].
  unfold cached, refs_with, cached_classes, JNI_OnUnload, initial_globals.
  cbn [handleManagerClass handleInternalClass configInternalClass global_refs].
  destruct (FindClass r manager_class) as [[[]|]|],
    (FindClass r handle_class) as [[[]|]|],
    (FindClass r config_class) as [[[]|]|];
    repeat match goal with |- context [NewGlobalRef r ?n] => destruct (NewGlobalRef r n) end;
    split; reflexivity.
Qed.

Lemma load_then_unload_releases_globals_witness :
  exists v g s',
    JNI_OnLoad load_ok initial_globals fresh_thread = Some ((v, g), s') /\
    global_refs g = cached_classes g /\
    JNI_OnUnload JNI_OK g = initial_globals.
Proof.
  apply (load_then_unload_releases_globals load_ok fresh_thread); reflexivity.
Defined.

(** X16.  Once [JNI_OnUnload] has run, with or without a [JNIEnv], every
    export refuses without touching the VM or the thread: it returns its
    refusal value, [vad_get_last_error] the literal "Invalid handle" for a
    null handle and "JNI error" otherwise. *)
Theorem unloaded_library_refuses status g vm k e s :
  agrees (JNI_OnUnload status g) vm k ->
  run vm k e s
  = Some (refusal (if rejects e then "Invalid handle" else "JNI error") e, s).
Proof.
  intros (Hjvm & _). destruct s as [p L n pin tr].
  assert (Hoff : g_jvm vm = false) by (rewrite Hjvm; destruct status; reflexivity).
  clear Hjvm.
  destruct e as [|h|h [cfg|] path|h v|h|h [samples|] cnt|h|h buf];
    try destruct v; cbn [rejects]; junfold; unfold Ffi.getEnv; try rewrite Hoff;
    cbv beta iota zeta delta [Ffi.bind Ffi.ret negb];
    try reflexivity;
    try (destruct (h =? 0); reflexivity).
  destruct (h =? 0), (cnt <=? 0); reflexivity.
Qed.

Lemma unloaded_library_refuses_witness :
  run vm_unreachable kotlin_ok Create fresh_thread = Some (RInt 0, fresh_thread).
Proof.
  apply (unloaded_library_refuses JNI_ERR (mkGlobals true false false true 1)
           vm_unreachable kotlin_ok Create fresh_thread).
  repeat split.
Defined.

(** X17.  A load during which the handle manager class is not cached (it
    is not found, or no global reference can be made) still reports
    success, and leaves a library in which nothing works: [vad_create]
    returns [nullptr] and every other export its refusal value, with no
    call into the Kotlin side whatever the handle. *)
Theorem uncached_manager_class_disables_exports r s :
  wf s -> pending s = false ->
  load_GetEnv r = JNI_OK ->
  cached r manager_class false = false ->
  exists g s',
    JNI_OnLoad r initial_globals s = Some ((JNI_VERSION_1_6, g), s') /\
    jvm g = true /\ handleManagerClass g = false /\
    forall vm k e t,
      agrees g vm k ->
      exists res t',
        run vm k e t = Some (res, t') /\
        res = refusal (refusal_reason vm e) e /\
        locals t' = locals t /\ next_ref t' = next_ref t /\
        trace t' = trace t ++ (if rejects e then [] else attach_calls vm).
Proof.
  intros Hn Hp Hst Hm.
  destruct (JNI_OnLoad_run r initial_globals s Hn Hp Hst) as (s' & Hrun & _).
  eexists _, s'. split; [exact Hrun|]. split; [reflexivity|].
  cbn [initial_globals handleManagerClass]. split; [exact Hm|].
  intros vm k e t (_ & Hvm & _). cbn [handleManagerClass] in Hvm.
  rewrite Hm in Hvm. clear - Hvm.
  destruct t as [p L n pin tr].
  destruct e as [|h|h [cfg|] path|h v|h|h [samples|] cnt|h|h buf];
    try destruct v; jstart.
  all: jend.
  all: rewrite ?app_nil_r; repeat split; reflexivity.
Qed.

Lemma uncached_manager_class_disables_exports_witness :
  exists g s',
    JNI_OnLoad load_without_manager initial_globals fresh_thread
    = Some ((65542, g), s') /\
    exists res t',
      run (mkVM (jvm g) JNI_OK JNI_OK (handleManagerClass g) (Returned (Some tt))
                (fun _ => Returned (Some (session_with None)))
                (Returned (Some tt)) false (Returned (Some tt)) false)
          kotlin_ok Create fresh_thread = Some (res, t') /\
      res = RInt 0 /\ trace t' = [].
Proof.
  destruct (uncached_manager_class_disables_exports load_without_manager fresh_thread)
    as (g & s' & Hrun & Hjvm & Hm & H); try reflexivity.
  exists g, s'. split; [exact Hrun|].
  destruct (H (mkVM (jvm g) JNI_OK JNI_OK (handleManagerClass g) (Returned (Some tt))
                    (fun _ => Returned (Some (session_with None)))
                    (Returned (Some tt)) false (Returned (Some tt)) false)
              (mkKotlin (configInternalClass g) (Returned (Some tt)) (Returned (Some tt))
                 (Returned (Some tt)) (Returned (Some tt)) (fun _ => Returned (Some tt))
                 (Returned (Some tt)) (Done 0) (Returned (Some tt)) (Returned (Some tt))
                 (Returned (Some (mkJstring (Some [])))) (Done tt) (Done tt) (Done 0)
                 (Done tt) (Returned (Some tt)) (Done tt) (Done tt) (Done tt) (Done true) 1)
              Create fresh_thread)
    as (res & t' & Hr & Hres & _ & _ & Ht).
  - repeat split.
  - exists res, t'. rewrite Hjvm, Hm in *. cbn in Ht.
    split; [|split; [exact Hres | exact Ht]].
    exact Hr.
Defined.

End FfiProperties.
